(** * pywFM: a shallow embedding of [pywFM/__init__.py]

    The wrapper class [FM] builds a libFM command line, runs it through the
    shell and reads libFM's text files back.  The embedding has four layers:

    - [Py]: the Python built-ins the source calls ([str.split],
      [str.splitlines], [str.startswith], [in] on strings, [float], the
      [%] conversions [%s], [%d], [%f], [%g], text-mode [read]);
    - [Parsers]: the two pure readers inside [FM.run] (the prediction file
      and the model dump);
    - [Os]: the part of the operating system the source touches (environment,
      working directory, files, descriptors, [os.path.abspath],
      [tempfile.mkstemp], [subprocess.call]) as a state with exceptions;
    - [FM]: the constructor and [run], statement by statement.

    Strings are sequences of code points below 256; decoding of the files is
    not modelled.  Python floats are IEEE binary64 values (Rocq's primitive
    floats); [float] rounds a decimal literal to the nearest one. *)

From Stdlib Require Import ZArith NArith Ascii String List Bool Lia.
From Stdlib Require Import Floats.PrimFloat Floats.SpecFloat Floats.FloatOps.
From stdpp Require Import base option list strings pretty gmap fin_maps.

(* Decimal literals such as 0.1 denote the nearest binary64 value, as they do
   in Python. *)
#[global] Set Warnings "-inexact-float".

Local Open Scope string_scope.
Local Open Scope list_scope.

(** ** Python built-ins *)

Module Py.

(** The exceptions that cross [FM.__init__] and [FM.run]. *)
Inductive exn : Type :=
  | IndexError          (* [task[0]] on an empty string *)
  | OSError             (* raised by the constructor; also a bad descriptor *)
  | ValueError          (* [float] on a malformed literal, ragged [np.matrix] *)
  | FileExistsError     (* [mkstemp] found no usable name *)
  | FileNotFoundError   (* [open] or [os.remove] on a missing path *)
  | UnboundLocalError   (* a local read before it was bound *)
  | LibraryError.       (* raised inside scikit-learn or pandas *)

Definition LF : ascii := "010"%char.
Definition CR : ascii := "013"%char.
Definition SP : ascii := " "%char.

Definition code (c : ascii) : N := N_of_ascii c.

Definition ascii_eqb (a b : ascii) : bool := Ascii.eqb a b.

(** The string backwards: [rev_onto s acc] is [s] reversed, then [acc]. *)
Fixpoint rev_onto (s acc : string) : string :=
  match s with
  | EmptyString => acc
  | String c t => rev_onto t (String c acc)
  end.

Definition rev (s : string) : string := rev_onto s EmptyString.

(** [s.startswith(p)] *)
Fixpoint startswith (s p : string) {struct p} : bool :=
  match p with
  | EmptyString => true
  | String b p' =>
      match s with
      | EmptyString => false
      | String a s' => ascii_eqb a b && startswith s' p'
      end
  end.

(** [s.endswith(p)] *)
Definition endswith (s p : string) : bool := startswith (rev s) (rev p).

(** [needle in hay] for two strings *)
Fixpoint contains (needle hay : string) : bool :=
  startswith hay needle ||
  match hay with
  | EmptyString => false
  | String _ t => contains needle t
  end.

(** [s.split(sep)] for a one-character separator: the pieces between the
    separators, empty pieces kept; always at least one piece. *)
Fixpoint split (sep : ascii) (s : string) : list string :=
  match s with
  | EmptyString => [EmptyString]
  | String c t =>
      if ascii_eqb c sep then EmptyString :: split sep t
      else match split sep t with
           | p :: ps => String c p :: ps
           | [] => [String c EmptyString]
           end
  end.

(** [sep.join(l)] *)
Fixpoint join (sep : string) (l : list string) : string :=
  match l with
  | [] => EmptyString
  | [x] => x
  | x :: xs => x +:+ sep +:+ join sep xs
  end.

(** The line boundaries of [str.splitlines] among the code points below 256:
    LF, VT, FF, CR, FS, GS, RS and NEL. *)
Definition is_linebreak (c : ascii) : bool :=
  let n := code c in
  ((10 <=? n) && (n <=? 13) || (28 <=? n) && (n <=? 30) || (n =? 133))%N.

(** [s.splitlines()]: split at line boundaries, CR LF counting as one, and no
    empty last line after a final boundary. [cur] is the line read so far,
    reversed. *)
Fixpoint splitlines_go (cur : string) (s : string) : list string :=
  match s with
  | EmptyString =>
      match cur with EmptyString => [] | _ => [rev cur] end
  | String c t =>
      if is_linebreak c then
        rev cur ::
        (if ascii_eqb c CR then
           match t with
           | String c' t' =>
               if ascii_eqb c' LF then splitlines_go EmptyString t'
               else splitlines_go EmptyString t
           | EmptyString => splitlines_go EmptyString t
           end
         else splitlines_go EmptyString t)
      else splitlines_go (String c cur) t
  end.

Definition splitlines (s : string) : list string := splitlines_go EmptyString s.

(** Reading a file opened in text mode translates CR LF and a lone CR to LF
    (universal newlines). *)
Fixpoint universal_newlines (s : string) : string :=
  match s with
  | EmptyString => EmptyString
  | String c t =>
      if ascii_eqb c CR then
        match t with
        | String c' t' =>
            if ascii_eqb c' LF then String LF (universal_newlines t')
            else String LF (universal_newlines t)
        | EmptyString => String LF EmptyString
        end
      else String c (universal_newlines t)
  end.

(** *** [float(s)] *)

(** The white space [float] strips from both ends: TAB, LF, VT, FF, CR,
    space, NEL and the no-break space. *)
Definition is_float_space (c : ascii) : bool :=
  let n := code c in
  ((9 <=? n) && (n <=? 13) || (n =? 32) || (n =? 133) || (n =? 160))%N.

Fixpoint lstrip (s : string) : string :=
  match s with
  | String c t => if is_float_space c then lstrip t else s
  | EmptyString => s
  end.

Definition strip (s : string) : string :=
  rev (lstrip (rev (lstrip s))).

Definition digit_of (c : ascii) : option N :=
  let n := code c in
  if ((48 <=? n) && (n <=? 57))%N then Some (n - 48)%N else None.

(** The rest of a [digitpart]: digits, each optionally preceded by one
    underscore. Returns the value, the number of digits and what follows. *)
Fixpoint digits_more (acc : N) (cnt : nat) (s : string) : N * nat * string :=
  match s with
  | String c t =>
      match digit_of c with
      | Some d => digits_more (10 * acc + d)%N (S cnt) t
      | None =>
          if ascii_eqb c "_" then
            match t with
            | String c' t' =>
                match digit_of c' with
                | Some d => digits_more (10 * acc + d)%N (S cnt) t'
                | None => (acc, cnt, s)
                end
            | EmptyString => (acc, cnt, s)
            end
          else (acc, cnt, s)
      end
  | EmptyString => (acc, cnt, s)
  end.

(** [digitpart ::= digit (["_"] digit)*] *)
Definition digitpart (s : string) : option (N * nat * string) :=
  match s with
  | String c t =>
      match digit_of c with
      | Some d => Some (digits_more d 1 t)
      | None => None
      end
  | EmptyString => None
  end.

(** [number ::= [digitpart] "." digitpart | digitpart ["."]]: the digits as
    one integer and the number of them after the point. *)
Definition number (s : string) : option (N * nat * string) :=
  match digitpart s with
  | Some (ip, _, r) =>
      match r with
      | String c r' =>
          if ascii_eqb c "." then
            match digitpart r' with
            | Some (fp, k, r'') =>
                Some ((ip * 10 ^ N.of_nat k + fp)%N, k, r'')
            | None => Some (ip, 0%nat, r')
            end
          else Some (ip, 0%nat, r)
      | EmptyString => Some (ip, 0%nat, r)
      end
  | None =>
      match s with
      | String c r' =>
          if ascii_eqb c "." then digitpart r' else None
      | EmptyString => None
      end
  end.

(** [[sign]]: [true] for a minus. *)
Definition sign (s : string) : bool * string :=
  match s with
  | String c t =>
      if ascii_eqb c "-" then (true, t)
      else if ascii_eqb c "+" then (false, t)
      else (false, s)
  | EmptyString => (false, s)
  end.

(** [exponent ::= ("e" | "E") [sign] digitpart], absent when what follows the
    number is not an exponent. *)
Definition exponent (s : string) : option (Z * string) :=
  match s with
  | String c t =>
      if ascii_eqb c "e" || ascii_eqb c "E" then
        let '(neg, t') := sign t in
        match digitpart t' with
        | Some (e, _, r) =>
            Some (if neg then (- Z.of_N e)%Z else Z.of_N e, r)
        | None => None
        end
      else Some (0%Z, s)
  | EmptyString => Some (0%Z, s)
  end.

Definition lower (c : ascii) : ascii :=
  let n := code c in
  if ((65 <=? n) && (n <=? 90))%N then ascii_of_N (n + 32) else c.

Fixpoint lowercase (s : string) : string :=
  match s with
  | EmptyString => EmptyString
  | String c t => String (lower c) (lowercase t)
  end.

(** The binary64 value nearest to [n / d] (ties to even), for [n], [d]
    positive: a quotient of at least 65 bits with a sticky last bit, rounded
    by the Standard Library's [binary_normalize]. *)
Definition round_ratio (n d : Z) : spec_float :=
  let k := Z.max 0 (66 + Z.log2 d - Z.log2 n) in
  let q := (Z.shiftl n k / d)%Z in
  let r := (Z.shiftl n k mod d)%Z in
  let m := (2 * q + (if (r =? 0)%Z then 0 else 1))%Z in
  binary_normalize prec emax m (- k - 1) false.

(** The binary64 value nearest to [m * 10 ^ e].  With [2 ^ b <= m < 2 ^ (b + 1)]:
    for [0 <= e] the value is at least [2 ^ (b + 3 * e)], so it overflows
    when that exponent is above 1030; for [e < 0] it is below
    [2 ^ (b + 1 + 3 * e)], so it rounds to zero when that exponent is below
    -1080.  These two answers are given without computing the power of ten;
    everything else is rounded from the exact quotient. *)
Definition round_decimal (m : N) (e : Z) : spec_float :=
  if (m =? 0)%N then S754_zero false
  else
    let b := Z.log2 (Z.of_N m) in
    if (0 <=? e)%Z then
      if (1030 <? b + 3 * e)%Z then S754_infinity false
      else round_ratio (Z.of_N m * 10 ^ e) 1
    else
      if (b + 1 + 3 * e <? -1080)%Z then S754_zero false
      else round_ratio (Z.of_N m) (10 ^ (- e)).

Definition float_of_string (s : string) : exn + float :=
  let '(neg, body) := sign (strip s) in
  let signed (x : spec_float) := SF2Prim (if neg then SFopp x else x) in
  let word := lowercase body in
  if String.eqb word "inf" || String.eqb word "infinity"
  then inr (signed (S754_infinity false))
  else if String.eqb word "nan" then inr nan
  else
    match number body with
    | Some (m, k, r) =>
        match exponent r with
        | Some (e, EmptyString) =>
            inr (signed (round_decimal m (e - Z.of_nat k)))
        | _ => inl ValueError
        end
    | None => inl ValueError
    end.

(** *** The [%] conversions *)

(** ["%d" % z] *)
Definition fmt_d (z : Z) : string := pretty z.

(** [num / den] rounded to the nearest integer, ties to even
    ([num >= 0], [den > 0]). *)
Definition round_half_even (num den : Z) : Z :=
  let q := (num / den)%Z in
  let r := (num mod den)%Z in
  match (2 * r ?= den)%Z with
  | Lt => q
  | Gt => (q + 1)%Z
  | Eq => if Z.even q then q else (q + 1)%Z
  end.

(** [m * 2 ^ e * 10 ^ s] rounded to the nearest integer, ties to even. *)
Definition scaled (m : positive) (e s : Z) : Z :=
  let num := (Z.pos m * 2 ^ Z.max e 0 * 10 ^ Z.max s 0)%Z in
  let den := (2 ^ Z.max (- e) 0 * 10 ^ Z.max (- s) 0)%Z in
  round_half_even num den.

Fixpoint zeros (n : nat) : string :=
  match n with O => EmptyString | S k => String "0" (zeros k) end.

(** The decimal digits of [n], with zeros in front up to [w] digits. *)
Definition digits (w : nat) (n : Z) : string :=
  let d := pretty (Z.to_N n) in
  zeros (w - String.length d) +:+ d.

(** [n / 10 ^ p] written with [p] digits after the point (no point when
    [p] is zero). *)
Definition fixed (p : nat) (n : Z) : string :=
  let d := digits (S p) n in
  let k := (String.length d - p)%nat in
  match p with
  | O => d
  | _ => substring 0 k d +:+ "." +:+ substring k p d
  end.

Definition sign_str (s : bool) : string := if s then "-" else EmptyString.

(** ["%f" % x]: six digits after the point. *)
Definition fmt_f (x : float) : string :=
  match Prim2SF x with
  | S754_nan => "nan"
  | S754_infinity s => sign_str s +:+ "inf"
  | S754_zero s => sign_str s +:+ "0.000000"
  | S754_finite s m e => sign_str s +:+ fixed 6 (scaled m e 6)
  end.

(** [10 ^ x <= m * 2 ^ e] *)
Definition pow10_le (x : Z) (m : positive) (e : Z) : bool :=
  (10 ^ Z.max x 0 * 2 ^ Z.max (- e) 0 <=?
   Z.pos m * 2 ^ Z.max e 0 * 10 ^ Z.max (- x) 0)%Z.

(** The decimal exponent of [m * 2 ^ e]: the [x] with
    [10 ^ x <= m * 2 ^ e < 10 ^ (x + 1)], searched upwards from an
    underestimate. *)
Fixpoint exp10_from (fuel : nat) (x : Z) (m : positive) (e : Z) : Z :=
  match fuel with
  | O => x
  | S k => if pow10_le (x + 1) m e then exp10_from k (x + 1)%Z m e else x
  end.

Definition exp10 (m : positive) (e : Z) : Z :=
  let est := ((Z.log2 (Z.pos m) + e) * 30103 / 100000)%Z in
  exp10_from 4 (est - 2)%Z m e.

Fixpoint drop_zeros (s : string) : string :=
  match s with
  | String c t => if ascii_eqb c "0" then drop_zeros t else s
  | EmptyString => s
  end.

(** Trailing zeros of the fraction removed, and the point with them when
    nothing is left after it. *)
Definition strip_fraction (s : string) : string :=
  if contains "." s then
    match drop_zeros (rev s) with
    | String c t => if ascii_eqb c "." then rev t else rev (String c t)
    | EmptyString => EmptyString
    end
  else s.

(** ["%g" % x]: six significant digits, exponent form when the decimal
    exponent is below -4 or at least 6. *)
Definition fmt_g (x : float) : string :=
  match Prim2SF x with
  | S754_nan => "nan"
  | S754_infinity s => sign_str s +:+ "inf"
  | S754_zero s => sign_str s +:+ "0"
  | S754_finite s m e =>
      let x0 := exp10 m e in
      let n0 := scaled m e (5 - x0) in
      let '(n, x1) := if (n0 =? 1000000)%Z then (100000, x0 + 1)%Z else (n0, x0) in
      sign_str s +:+
      if ((-4 <=? x1) && (x1 <? 6))%Z
      then strip_fraction (fixed (Z.to_nat (5 - x1)) n)
      else strip_fraction (fixed 5 n) +:+ "e" +:+
           (if (x1 <? 0)%Z then "-" else "+") +:+ digits 2 (Z.abs x1)
  end.

End Py.

(** ** The two readers inside [FM.run] *)

Module Parsers.
Import Py.

(** [[float(p) for p in l]]: left to right, the first failure propagates. *)
Fixpoint floats (l : list string) : exn + list float :=
  match l with
  | [] => inr []
  | p :: ps =>
      match float_of_string p with
      | inl e => inl e
      | inr x =>
          match floats ps with
          | inl e => inl e
          | inr xs => inr (x :: xs)
          end
      end
  end.

(** Truth value of a string: [if p]. *)
Definition truthy (p : string) : bool :=
  match p with EmptyString => false | String _ _ => true end.

(** Line 197: [[float(p) for p in out_read.split('\n') if p]]. *)
Definition parse_predictions (out_read : string) : exn + list float :=
  floats (List.filter truthy (split LF out_read)).

(** The locals of lines 203-207. *)
Record model_state : Type := {
  global_bias : option float;
  weights : list float;
  pairwise_interactions : list (list float);
  out_iter : Z
}.

Definition model_init : model_state :=
  {| global_bias := None; weights := [];
     pairwise_interactions := []; out_iter := 0 |}.

Definition set_out_iter (st : model_state) (n : Z) : model_state :=
  {| global_bias := global_bias st; weights := weights st;
     pairwise_interactions := pairwise_interactions st; out_iter := n |}.

Definition set_global_bias (st : model_state) (x : float) : model_state :=
  {| global_bias := Some x; weights := weights st;
     pairwise_interactions := pairwise_interactions st;
     out_iter := out_iter st |}.

Definition append_weight (st : model_state) (x : float) : model_state :=
  {| global_bias := global_bias st; weights := weights st ++ [x];
     pairwise_interactions := pairwise_interactions st;
     out_iter := out_iter st |}.

Definition append_row (st : model_state) (r : list float) : model_state :=
  {| global_bias := global_bias st; weights := weights st;
     pairwise_interactions := pairwise_interactions st ++ [r];
     out_iter := out_iter st |}.

(** The body of the loop, lines 210-222. *)
Definition model_line (st : model_state) (line : string) : exn + model_state :=
  if startswith line "#" then
    if contains "#global bias W0" line then inr (set_out_iter st 0)
    else if contains "#unary interactions Wj" line then inr (set_out_iter st 1)
    else if contains "#pairwise interactions Vj,f" line then inr (set_out_iter st 2)
    else inr st
  else
    if (out_iter st =? 0)%Z then
      match float_of_string line with
      | inl e => inl e
      | inr x => inr (set_global_bias st x)
      end
    else if (out_iter st =? 1)%Z then
      match float_of_string line with
      | inl e => inl e
      | inr x => inr (append_weight st x)
      end
    else if (out_iter st =? 2)%Z then
      match floats (split SP line) with
      | inl e => inl e
      | inr r => inr (append_row st r)
      end
    else inr st.

(** The loop of line 209 over the lines of the file. *)
Fixpoint model_lines (st : model_state) (lines : list string) : exn + model_state :=
  match lines with
  | [] => inr st
  | line :: rest =>
      match model_line st line with
      | inl e => inl e
      | inr st' => model_lines st' rest
      end
  end.

(** Lines 203-222 on the text read from the model file. *)
Definition parse_model (text : string) : exn + model_state :=
  model_lines model_init (splitlines text).

(** [np.matrix(l)] for a list of rows of floats (NumPy 1.24 and later).
    The empty list gives the 1 x 0 matrix; rows of different lengths are
    refused. *)
Record matrix : Type := { shape : nat * nat; rows : list (list float) }.

Definition np_matrix (l : list (list float)) : exn + matrix :=
  match l with
  | [] => inr {| shape := (1%nat, 0%nat); rows := [[]] |}
  | r :: rs =>
      if forallb (fun r' => Nat.eqb (length r') (length r)) rs
      then inr {| shape := (length l, length r); rows := l |}
      else inl ValueError
  end.

End Parsers.

(** ** The operating system, as far as the source touches it *)

Module Os.
Import Py.

(** The file system is a flat map from absolute paths to contents; [dirs]
    are the directories in which a file can be created (permissions are not
    modelled apart from that).  [cwd] is [os.getcwd()].  [tempdir] is the
    directory [tempfile.gettempdir()] answers in this process: the module
    chooses it at the first call (from TMPDIR, TEMP, TMP, the system
    directories and the working directory) and keeps it; [None] when it finds
    none.  [tmp_names] are the random name parts [mkstemp] will draw, in
    order.  [created] and [launched] are histories: they record every
    temporary file [mkstemp] handed out and every command given to
    [subprocess.call], and nothing reads them. *)
Record world : Type := {
  environ : gmap string string;
  cwd : string;
  tempdir : option string;
  dirs : gset string;
  files : gmap string string;
  fds : gmap Z string;
  tmp_names : list string;
  created : list (Z * string);
  launched : list string
}.

Definition set_files (f : gmap string string) (w : world) : world :=
  {| environ := environ w; cwd := cwd w; tempdir := tempdir w; dirs := dirs w;
     files := f; fds := fds w;
     tmp_names := tmp_names w; created := created w; launched := launched w |}.

Definition set_fds (d : gmap Z string) (w : world) : world :=
  {| environ := environ w; cwd := cwd w; tempdir := tempdir w; dirs := dirs w;
     files := files w; fds := d;
     tmp_names := tmp_names w; created := created w; launched := launched w |}.

Definition set_tmp_names (l : list string) (w : world) : world :=
  {| environ := environ w; cwd := cwd w; tempdir := tempdir w; dirs := dirs w;
     files := files w; fds := fds w;
     tmp_names := l; created := created w; launched := launched w |}.

(** A computation that reads and changes the world and returns or raises.
    The world survives an exception. *)
Definition M (A : Type) : Type := world -> (exn + A) * world.

Definition ret {A} (x : A) : M A := fun w => (inr x, w).
Definition raise {A} (e : exn) : M A := fun w => (inl e, w).
Definition bind {A B} (m : M A) (k : A -> M B) : M B :=
  fun w =>
    match m w with
    | (inl e, w') => (inl e, w')
    | (inr x, w') => k x w'
    end.

(** A pure computation that may raise. *)
Definition lift {A} (r : exn + A) : M A :=
  match r with inl e => raise e | inr x => ret x end.

Declare Scope os_scope.
Delimit Scope os_scope with os.
Notation "'let*' x ':=' m 'in' k" := (bind m (fun x => k))
  (at level 10, x name, m at level 100, k at level 200) : os_scope.
Notation "'let*' ( a , b ) ':=' m 'in' k" :=
  (bind m (fun p => let '(a, b) := p in k))
  (at level 10, a name, b name, m at level 100, k at level 200) : os_scope.
Notation "m '>>' k" := (bind m (fun _ => k))
  (at level 90, right associativity) : os_scope.

(** [os.environ.get(name)] *)
Definition environ_get (name : string) : M (option string) :=
  fun w => (inr (environ w !! name), w).

(** [os.path.join(a, b)] on POSIX. *)
Definition path_join (a b : string) : string :=
  if startswith b "/" then b
  else
    match a with
    | EmptyString => b
    | _ => if endswith a "/" then a +:+ b else a +:+ "/" +:+ b
    end.

(** One component in the loop of [os.path.normpath]: empty components and
    "." are dropped; ".." takes away the component before it, is dropped
    at the root, and is kept at the front of a relative path. *)
Definition normpath_step (rooted : bool) (comps : list string) (comp : string)
  : list string :=
  if String.eqb comp EmptyString || String.eqb comp "." then comps
  else if negb (String.eqb comp "..") then comps ++ [comp]
  else
    match last comps with
    | None => if rooted then comps else comps ++ [comp]
    | Some top =>
        if String.eqb top ".." then comps ++ [comp] else removelast comps
    end.

(** [os.path.normpath(path)] on POSIX.  Two leading slashes are kept, three
    or more count as one. *)
Definition normpath (path : string) : string :=
  match path with
  | EmptyString => "."
  | _ =>
      let rooted := startswith path "/" in
      let slashes :=
        if rooted then
          if startswith path "//" && negb (startswith path "///")
          then "//" else "/"
        else EmptyString in
      let comps :=
        fold_left (normpath_step rooted) (split "/"%char path) [] in
      match slashes +:+ join "/" comps with
      | EmptyString => "."
      | p => p
      end
  end.

(** [os.path.abspath(path)] *)
Definition abspath (path : string) : M string :=
  fun w =>
    (inr (normpath (if startswith path "/" then path
                    else path_join (cwd w) path)), w).

(** [tempfile.gettempdir()] *)
Definition gettempdir : M string :=
  fun w =>
    match tempdir w with
    | Some d => (inr d, w)
    | None => (inl FileNotFoundError, w)
    end.

(** The lowest descriptor that is not open. *)
Definition lowest_fd (d : gmap Z string) : option Z :=
  List.find (fun n => match d !! n with None => true | Some _ => false end)
            (List.map Z.of_nat (seq 0 (S (size d)))).

(** [os.open(path, O_RDWR | O_CREAT | O_EXCL, 0o600)] for a path directly in
    the directory [dir]: a new empty file and its descriptor. *)
Definition open_excl (dir path : string) : M Z :=
  fun w =>
    if negb (bool_decide (dir ∈ dirs w)) then (inl FileNotFoundError, w)
    else if bool_decide (is_Some (files w !! path))
            || bool_decide (path ∈ dirs w)
    then (inl FileExistsError, w)
    else
      match lowest_fd (fds w) with
      | None => (inl OSError, w)
      | Some fd =>
          (inr fd,
           {| environ := environ w; cwd := cwd w; tempdir := tempdir w;
              dirs := dirs w;
              files := <[path := EmptyString]> (files w);
              fds := <[fd := path]> (fds w);
              tmp_names := tmp_names w;
              created := created w;
              launched := launched w |})
      end.

(** The loop of [tempfile._mkstemp_inner] over the names still to be drawn:
    each name is drawn and tried; a path that exists makes the loop go on,
    any other failure ends it.  The end of [names] stands for the last of
    the [TMP_MAX] attempts. *)
Fixpoint try_names (dir : string) (names : list string) : M (Z * string) :=
  match names with
  | [] => fun w => (inl FileExistsError, set_tmp_names [] w)
  | n :: ns =>
      fun w =>
        let file := path_join dir ("tmp" +:+ n) in
        match open_excl dir file (set_tmp_names ns w) with
        | (inr fd, w') => (inr (fd, file), w')
        | (inl FileExistsError, w') => try_names dir ns w'
        | (inl e, w') => (inl e, w')
        end
  end.

(** The history of the temporary files handed out. *)
Definition record_created (t : Z * string) : M unit :=
  fun w =>
    (inr tt,
     {| environ := environ w; cwd := cwd w; tempdir := tempdir w;
        dirs := dirs w; files := files w; fds := fds w;
        tmp_names := tmp_names w; created := created w ++ [t];
        launched := launched w |}).

(** The directory in which [tempfile.mkstemp(dir=dir)] makes its file:
    [os.path.abspath(dir)], with [gettempdir()] for [dir] when it is
    [None]. *)
Definition directory_of (dir : option string) : M string :=
  (let* dir := match dir with Some d => ret d | None => gettempdir end in
   abspath dir)%os.

(** [tempfile.mkstemp(dir=dir)]: a new empty file, open, in that directory,
    under the name "tmp" followed by a random part. *)
Definition mkstemp (dir : option string) : M (Z * string) :=
  (let* dir := directory_of dir in
   let* t := (fun w => try_names dir (tmp_names w) w) in
   record_created t >>
   ret t)%os.

(** Writing a whole file, creating it when missing. *)
Definition write_file (path content : string) : M unit :=
  fun w => (inr tt, set_files (<[path := content]> (files w)) w).

(** [open(path, 'r').read()] inside a [with] block. *)
Definition read_text (path : string) : M string :=
  fun w =>
    match files w !! path with
    | None => (inl FileNotFoundError, w)
    | Some raw => (inr (universal_newlines raw), w)
    end.

(** The bytes of a file, for a library that does its own decoding. *)
Definition read_raw (path : string) : M string :=
  fun w =>
    match files w !! path with
    | None => (inl FileNotFoundError, w)
    | Some raw => (inr raw, w)
    end.

(** [os.close(fd)] *)
Definition os_close (fd : Z) : M unit :=
  fun w =>
    match fds w !! fd with
    | None => (inl OSError, w)
    | Some _ => (inr tt, set_fds (delete fd (fds w)) w)
    end.

(** [os.remove(path)] *)
Definition os_remove (path : string) : M unit :=
  fun w =>
    match files w !! path with
    | None => (inl FileNotFoundError, w)
    | Some _ => (inr tt, set_files (delete path (files w)) w)
    end.

(** What running a shell command does: an exit status and the files
    afterwards. *)
Definition shell_effect : Type :=
  string -> gmap string string -> Z * gmap string string.

(** [subprocess.call(cmd, shell=True)]: runs the command, waits, and returns
    its exit status. *)
Definition call (sh : shell_effect) (cmd : string) : M Z :=
  fun w =>
    let '(status, fs) := sh cmd (files w) in
    (inr status,
     {| environ := environ w; cwd := cwd w; tempdir := tempdir w;
        dirs := dirs w; files := fs; fds := fds w;
        tmp_names := tmp_names w; created := created w;
        launched := launched w ++ [cmd] |}).

End Os.

(** ** The class [FM] *)

Module FM.
Import Py Os.
Local Open Scope os_scope.

(** The attributes [__init__] sets on [self]. *)
Record FM : Type := {
  __task : string;
  __num_iter : Z;
  __init_stdev : float;
  __dim : string;
  __learning_method : string;
  __learn_rate : float;
  __regularization : string;
  __rlog : bool;
  __verbose : Z;
  __silent : bool;
  __temp_path : option string;
  __libfm_path : string
}.

(** [int(b)] for a bool. *)
Definition int (b : bool) : Z := if b then 1%Z else 0%Z.

(** [s[0]] *)
Definition first_char (s : string) : M string :=
  match s with
  | EmptyString => raise IndexError
  | String c _ => ret (String c EmptyString)
  end.

(** Lines 89-105. The regularization values are numbers formatted with
    [%f]; they are floats here. *)
Definition __init__
    (task : string) (num_iter : Z) (init_stdev : float) (k0 k1 : bool) (k2 : Z)
    (learning_method : string) (learn_rate : float)
    (r0_regularization r1_regularization r2_regularization : float)
    (rlog verbose silent : bool) (temp_path : option string) : M FM :=
  let* task0 := first_char task in
  let dim := fmt_d (int k0) +:+ "," +:+ fmt_d (int k1) +:+ "," +:+ fmt_d k2 in
  let regularization :=
    fmt_f r0_regularization +:+ "," +:+ fmt_f r1_regularization +:+ ","
    +:+ fmt_f r2_regularization in
  let* libfm_path := environ_get "LIBFM_PATH" in
  match libfm_path with
  | None => raise OSError
  | Some path =>
      ret {| __task := task0; __num_iter := num_iter;
             __init_stdev := init_stdev; __dim := dim;
             __learning_method := learning_method;
             __learn_rate := learn_rate;
             __regularization := regularization;
             __rlog := rlog; __verbose := int verbose; __silent := silent;
             __temp_path := temp_path; __libfm_path := path |}
  end.

(** The constructor with every optional parameter at its default. *)
Definition FM_default (task : string) : M FM :=
  __init__ task 100 0.1 true true 8 "mcmc" 0.1 0 0 0 true false false None.

(** [x in l] for a list of strings. *)
Definition in_list (x : string) (l : list string) : bool :=
  existsb (String.eqb x) l.

(** The value returned by [run]: the named tuple [model]. *)
Record model {DataFrame : Type} : Type := {
  predictions : list float;
  global_bias : option float;
  weights : list float;
  pairwise_interactions : Parsers.matrix;
  rlog : option DataFrame
}.
Arguments model : clear implicits.

(** The locals of [run] that outlive the construction of the command. *)
Record locals : Type := {
  train : Z * string;
  test : Z * string;
  out : Z * string;
  model_tmp : Z * string;
  rlog_tmp : option (Z * string);
  validation_tmp : option (Z * string);
  args : list string
}.

Section Run.

(** The collaborators: the data sets and scikit-learn's
    [dump_svmlight_file], pandas' [read_csv] with a tab separator, and what
    the shell does with a command. *)
Context {Features Targets DataFrame : Type}.
Variable svmlight : Features -> Targets -> exn + string.
Variable read_csv : string -> exn + DataFrame.
Variable sh : shell_effect.

(** [dump_svmlight_file(X, y, f)] *)
Definition dump_svmlight_file (X : Features) (y : Targets) (f : string) : M unit :=
  let* text := lift (svmlight X y) in
  write_file f text.

(** The test of lines 179 and 237. *)
Definition with_validation (self : FM)
    (x_validation_set : option Features) (y_validation_set : option Targets) : bool :=
  String.eqb (__learning_method self) "sgda"
  && (bool_decide (is_Some x_validation_set)
      && bool_decide (is_Some y_validation_set)).

(** Lines 143-186: the temporary files, the data sets and the argument
    list. *)
Definition build_command (self : FM)
    (x_train : Features) (y_train : Targets)
    (x_test : Features) (y_test : Targets)
    (x_validation_set : option Features) (y_validation_set : option Targets)
  : M locals :=
  let* (train_fd, train_path) := mkstemp (__temp_path self) in
  let* (test_fd, test_path) := mkstemp (__temp_path self) in
  let* (out_fd, out_path) := mkstemp (__temp_path self) in
  let* (model_fd, model_path) := mkstemp (__temp_path self) in
  dump_svmlight_file x_train y_train train_path >>
  dump_svmlight_file x_test y_test test_path >>
  let args :=
    [ __libfm_path self +:+ "libFM";
      "-task " +:+ __task self;
      "-train " +:+ train_path;
      "-test " +:+ test_path;
      "-dim '" +:+ __dim self +:+ "'";
      "-init_stdev " +:+ fmt_g (__init_stdev self);
      "-iter " +:+ fmt_d (__num_iter self);
      "-method " +:+ __learning_method self;
      "-out " +:+ out_path;
      "-verbosity " +:+ fmt_d (__verbose self);
      "-save_model " +:+ model_path ] in
  let* (rlog_tmp, args) :=
    if __rlog self then
      let* (rlog_fd, rlog_path) := mkstemp (__temp_path self) in
      ret (Some (rlog_fd, rlog_path), args ++ ["-rlog " +:+ rlog_path])
    else ret (None, args) in
  let args :=
    if in_list (__learning_method self) ["sgd"; "sgda"]
    then args ++ ["-learn_rate " +:+ fmt_f (__learn_rate self)] else args in
  let args :=
    if in_list (__learning_method self) ["sgd"; "sgda"; "als"]
    then args ++ ["-regular '" +:+ __regularization self +:+ "'"] else args in
  let* (validation_tmp, args) :=
    if String.eqb (__learning_method self) "sgda" then
      match x_validation_set, y_validation_set with
      | Some xv, Some yv =>
          let* (validation_fd, validation_path) := mkstemp (__temp_path self) in
          dump_svmlight_file xv yv validation_path >>
          ret (Some (validation_fd, validation_path),
               args ++ ["-validation " +:+ validation_path])
      | _, _ => ret (None, args)
      end
    else ret (None, args) in
  let args := if __silent self then args ++ [" &> /dev/null"] else args in
  ret {| train := (train_fd, train_path); test := (test_fd, test_path);
         out := (out_fd, out_path); model_tmp := (model_fd, model_path);
         rlog_tmp := rlog_tmp; validation_tmp := validation_tmp;
         args := args |}.

(** A local that is bound on some paths only. *)
Definition bound {A} (x : option A) : M A :=
  match x with Some v => ret v | None => raise UnboundLocalError end.

(** Lines 188-258: the call, the three readers and the removal of the
    temporary files. *)
Definition invoke_and_parse (self : FM)
    (x_validation_set : option Features) (y_validation_set : option Targets)
    (l : locals) : M (model DataFrame) :=
  let args := join " " (args l) in
  call sh args >>
  let* out_read := read_text (snd (out l)) in
  let* preds := lift (Parsers.parse_predictions out_read) in
  let* text := read_text (snd (model_tmp l)) in
  let* st := lift (Parsers.parse_model text) in
  let* pairwise := lift (Parsers.np_matrix (Parsers.pairwise_interactions st)) in
  let* rlog :=
    if __rlog self then
      let* (rlog_fd, rlog_path) := bound (rlog_tmp l) in
      let* raw := read_raw rlog_path in
      let* frame := lift (read_csv raw) in
      os_close rlog_fd >>
      os_remove rlog_path >>
      ret (Some frame)
    else ret None in
  (if with_validation self x_validation_set y_validation_set then
     let* (validation_fd, validation_path) := bound (validation_tmp l) in
     os_close validation_fd >>
     os_remove validation_path
   else ret tt) >>
  os_close (fst (train l)) >>
  os_remove (snd (train l)) >>
  os_close (fst (test l)) >>
  os_remove (snd (test l)) >>
  os_close (fst (model_tmp l)) >>
  os_remove (snd (model_tmp l)) >>
  os_close (fst (out l)) >>
  os_remove (snd (out l)) >>
  ret {| predictions := preds;
         global_bias := Parsers.global_bias st;
         weights := Parsers.weights st;
         pairwise_interactions := pairwise;
         rlog := rlog |}.

(** [FM.run] *)
Definition run (self : FM)
    (x_train : Features) (y_train : Targets)
    (x_test : Features) (y_test : Targets)
    (x_validation_set : option Features) (y_validation_set : option Targets)
  : M (model DataFrame) :=
  let* l := build_command self x_train y_train x_test y_test
                          x_validation_set y_validation_set in
  invoke_and_parse self x_validation_set y_validation_set l.

End Run.

End FM.

(** ** Vocabulary of the statements *)

Module Spec.
Import Py Os FM Parsers.

Definition nl : string := String LF EmptyString.

(** A text file from its lines, each ended by a line feed. *)
Fixpoint unlines (l : list string) : string :=
  match l with
  | [] => EmptyString
  | x :: xs => x +:+ nl +:+ unlines xs
  end.

Fixpoint has_char (c : ascii) (s : string) : bool :=
  match s with
  | EmptyString => false
  | String a t => ascii_eqb a c || has_char c t
  end.

(** No line boundary inside the string. *)
Fixpoint one_line (s : string) : bool :=
  match s with
  | EmptyString => true
  | String a t => negb (is_linebreak a) && one_line t
  end.

(** The three sections of a model dump. *)
Inductive section : Type := Bias | Unary | Pairwise.

Definition marker_text (s : section) : string :=
  match s with
  | Bias => "#global bias W0"
  | Unary => "#unary interactions Wj"
  | Pairwise => "#pairwise interactions Vj,f"
  end.

Definition section_code (s : section) : Z :=
  match s with Bias => 0 | Unary => 1 | Pairwise => 2 end.

Definition section_eqb (a b : section) : bool :=
  (section_code a =? section_code b)%Z.

(** A marker line selects the first section, in the order bias, unary,
    pairwise, whose marker text it contains. *)
Definition selects (line : string) (s : section) : Prop :=
  match s with
  | Bias => contains (marker_text Bias) line = true
  | Unary =>
      contains (marker_text Bias) line = false
      /\ contains (marker_text Unary) line = true
  | Pairwise =>
      contains (marker_text Bias) line = false
      /\ contains (marker_text Unary) line = false
      /\ contains (marker_text Pairwise) line = true
  end.

(** Each line as a row of floats separated by single spaces. *)
Fixpoint float_rows (data : list string) : exn + list (list float) :=
  match data with
  | [] => inr []
  | l :: ls =>
      match floats (split SP l) with
      | inl e => inl e
      | inr r =>
          match float_rows ls with
          | inl e => inl e
          | inr rs => inr (r :: rs)
          end
      end
  end.

(** What it means to give a block of data lines to a section: the global
    bias becomes the last value of the block, the weights and the rows are
    extended in order. *)
Definition route (s : section) (st : model_state) (data : list string)
  : exn + model_state :=
  match s with
  | Bias =>
      match floats data with
      | inl e => inl e
      | inr xs =>
          inr {| global_bias := from_option Some (global_bias st) (last xs);
                 weights := weights st;
                 pairwise_interactions := pairwise_interactions st;
                 out_iter := 0 |}
      end
  | Unary =>
      match floats data with
      | inl e => inl e
      | inr xs =>
          inr {| global_bias := global_bias st;
                 weights := weights st ++ xs;
                 pairwise_interactions := pairwise_interactions st;
                 out_iter := 1 |}
      end
  | Pairwise =>
      match float_rows data with
      | inl e => inl e
      | inr rs =>
          inr {| global_bias := global_bias st;
                 weights := weights st;
                 pairwise_interactions := pairwise_interactions st ++ rs;
                 out_iter := 2 |}
      end
  end.

(** The section a marker line selects, if it selects one. *)
Definition selected (line : string) : option section :=
  if contains (marker_text Bias) line then Some Bias
  else if contains (marker_text Unary) line then Some Unary
  else if contains (marker_text Pairwise) line then Some Pairwise
  else None.

(** The data lines of a file (those that do not begin with '#'), in file
    order, each with the section it stands in: the section selected by the
    nearest marker above it that selects one, and [cur] where there is no
    such marker. *)
Fixpoint sectioned (cur : section) (lines : list string)
  : list (section * string) :=
  match lines with
  | [] => []
  | line :: rest =>
      if startswith line "#"
      then sectioned (default cur (selected line)) rest
      else (cur, line) :: sectioned cur rest
  end.

(** The section in force at the end of the file. *)
Fixpoint final_section (cur : section) (lines : list string) : section :=
  match lines with
  | [] => cur
  | line :: rest =>
      final_section
        (if startswith line "#" then default cur (selected line) else cur) rest
  end.

(** The data lines that stand in section [s], in file order. *)
Definition lines_of (s : section) (data : list (section * string))
  : list string :=
  List.map snd (List.filter (fun x => section_eqb (fst x) s) data).

(** A model file read section by section: the global bias is the last of
    the bias lines, the weights are the unary lines in order, the rows are
    the pairwise lines in order, and no line is read by two sections.  The
    file starts in the bias section. *)
Definition by_sections (lines : list string) : exn + model_state :=
  let data := sectioned Bias lines in
  match floats (lines_of Bias data) with
  | inl _ => inl ValueError
  | inr xs =>
      match floats (lines_of Unary data) with
      | inl _ => inl ValueError
      | inr ws =>
          match float_rows (lines_of Pairwise data) with
          | inl _ => inl ValueError
          | inr rs =>
              inr {| global_bias := last xs; weights := ws;
                     pairwise_interactions := rs;
                     out_iter := section_code (final_section Bias lines) |}
          end
      end
  end.

(** A model dump as libFM writes it: some of the sections, each a marker
    line followed by its data lines. *)
Definition dump : Type := list (section * list string).

Definition render (d : dump) : list string :=
  flat_map (fun b => marker_text (fst b) :: snd b) d.

Definition is_inr {A B} (x : A + B) : bool :=
  match x with inl _ => false | inr _ => true end.

(** A data line that its section can read. *)
Definition data_ok (s : section) (l : string) : bool :=
  one_line l &&
  match s with
  | Bias | Unary => is_inr (float_of_string l)
  | Pairwise => is_inr (floats (split SP l))
  end.

Definition well_formed (d : dump) : bool :=
  forallb (fun b => forallb (data_ok (fst b)) (snd b)) d.

Definition has_section (s : section) (d : dump) : bool :=
  existsb (fun b => section_eqb (fst b) s) d.

(** How many of the arguments after the program name are the flag [flag]
    followed by its value. *)
Definition flag_count (flag : string) (args : list string) : nat :=
  length (List.filter (fun a => startswith a (flag +:+ " ")) (tail args)).

Definition opt_arg (flag : string) (value : option string) : list string :=
  match value with Some v => [flag +:+ v] | None => [] end.

(** The argument list as a function of the object and of the paths of the
    temporary files: the mandatory arguments in order, then the optional
    ones. *)
Definition command (self : FM.FM)
    (train_path test_path out_path model_path : string)
    (rlog_path validation_path : option string) : list string :=
  [ __libfm_path self +:+ "libFM";
    "-task " +:+ __task self;
    "-train " +:+ train_path;
    "-test " +:+ test_path;
    "-dim " +:+ "'" +:+ __dim self +:+ "'";
    "-init_stdev " +:+ fmt_g (__init_stdev self);
    "-iter " +:+ fmt_d (__num_iter self);
    "-method " +:+ __learning_method self;
    "-out " +:+ out_path;
    "-verbosity " +:+ fmt_d (__verbose self);
    "-save_model " +:+ model_path ]
  ++ opt_arg "-rlog " rlog_path
  ++ opt_arg "-learn_rate "
       (if in_list (__learning_method self) ["sgd"; "sgda"]
        then Some (fmt_f (__learn_rate self)) else None)
  ++ opt_arg "-regular "
       (if in_list (__learning_method self) ["sgd"; "sgda"; "als"]
        then Some ("'" +:+ __regularization self +:+ "'") else None)
  ++ opt_arg "-validation " validation_path
  ++ (if __silent self then [" &> /dev/null"] else []).

(** The flags of the arguments that are always given. *)
Definition mandatory_flags : list string :=
  [ "-task"; "-train"; "-test"; "-dim"; "-init_stdev"; "-iter"; "-method";
    "-out"; "-verbosity"; "-save_model" ].

(** The temporary files of one [run], in the order of their creation. *)
Definition temporaries (l : locals) : list (Z * string) :=
  [train l; test l; out l; model_tmp l]
  ++ option_list (rlog_tmp l) ++ option_list (validation_tmp l).

(** From [w] to [w'] files and descriptors were only taken away, and
    [mkstemp] handed out nothing. *)
Definition shrinks (w w' : world) : Prop :=
  created w' = created w
  /\ (forall q, files w !! q = None -> files w' !! q = None)
  /\ (forall n, fds w !! n = None -> fds w' !! n = None).

(** The temporary file [t] is closed and deleted in [w]. *)
Definition released (w : world) (t : Z * string) : Prop :=
  files w !! snd t = None /\ fds w !! fst t = None.

(** Every temporary file handed out between [w] and [w'] is closed and
    deleted in [w']. *)
Definition no_leak (w w' : world) : Prop :=
  exists new,
    created w' = created w ++ new
    /\ forall fd p, In (fd, p) new ->
         files w' !! p = None /\ fds w' !! fd = None.

End Spec.

(** ** Concrete inputs *)

Module Examples.
Import Py Os FM Parsers Spec.

(** The text "1.5\n2.5\n\n". *)
Definition predictions_example : string :=
  "1.5" +:+ nl +:+ "2.5" +:+ nl +:+ nl.

Definition model_example : string :=
  unlines [ "#global bias W0"; "5.0";
            "#unary interactions Wj"; "1.0"; "2.0";
            "#pairwise interactions Vj,f"; "0.1 0.2"; "0.3 0.4" ].

(** A machine with the standard streams open, no files, the temporary
    directory /tmp, and six names in the generator of [mkstemp];
    [installed] also has [LIBFM_PATH] set. *)
Definition bare : world :=
  {| environ := ∅;
     cwd := "/home/user";
     tempdir := Some "/tmp";
     dirs := {[ "/"; "/home"; "/home/user"; "/home/user/data"; "/tmp";
                "/var"; "/var/tmp" ]};
     files := ∅;
     fds := {[ 0%Z := "/dev/stdin"; 1%Z := "/dev/stdout"; 2%Z := "/dev/stderr" ]};
     tmp_names := ["a"; "b"; "c"; "d"; "e"; "f"];
     created := [];
     launched := [] |}.

Definition installed : world :=
  {| environ := {[ "LIBFM_PATH" := "/opt/libfm/bin/" ]};
     cwd := cwd bare; tempdir := tempdir bare; dirs := dirs bare;
     files := files bare; fds := fds bare; tmp_names := tmp_names bare;
     created := []; launched := [] |}.

(** Stand-ins for the collaborators: a data set is its svmlight text
    already, and a data frame is the list of the tab-separated rows of a
    non-empty file. *)
Definition svmlight_text (X : string) (y : unit) : exn + string := inr X.

(** The same, refusing a data set without rows. *)
Definition svmlight_rows (X : string) (y : unit) : exn + string :=
  match X with
  | EmptyString => inl ValueError
  | _ => inr X
  end.

Definition read_tsv (raw : string) : exn + list (list string) :=
  match raw with
  | EmptyString => inl LibraryError
  | _ => inr (List.map (split "009"%char) (splitlines raw))
  end.

(** A stand-in for libFM on the machine above, where the output, model and
    log files are the third, fourth and fifth temporary files: it writes the
    given texts there and exits with the given status. *)
Definition fake_libfm (status : Z) (out model log : string) : shell_effect :=
  fun _ fs =>
    (status,
     <["/tmp/tmpc" := out]> (<["/tmp/tmpd" := model]> (<["/tmp/tmpe" := log]> fs))).

Definition log_example : string :=
  unlines ["rmse" +:+ String "009"%char "mae"; "0.5" +:+ String "009"%char "0.4"].

(** A model file whose only data line is not a number. *)
Definition broken_model : string :=
  unlines ["#global bias W0"; "not a number"].

(** [FM('regression')] and [FM('regression', learning_method='sgda')] on
    the machine [installed]. *)
Definition fm_mcmc : FM.FM :=
  {| __task := "r"; __num_iter := 100; __init_stdev := 0.1;
     __dim := "1,1,8"; __learning_method := "mcmc"; __learn_rate := 0.1;
     __regularization := "0.000000,0.000000,0.000000";
     __rlog := true; __verbose := 0; __silent := false;
     __temp_path := None; __libfm_path := "/opt/libfm/bin/" |}.

Definition fm_sgda : FM.FM :=
  {| __task := "r"; __num_iter := 100; __init_stdev := 0.1;
     __dim := "1,1,8"; __learning_method := "sgda"; __learn_rate := 0.1;
     __regularization := "0.000000,0.000000,0.000000";
     __rlog := true; __verbose := 0; __silent := false;
     __temp_path := None; __libfm_path := "/opt/libfm/bin/" |}.

Definition train_text : string := "1 0:1 3:2" +:+ nl.
Definition test_text : string := "0 1:1" +:+ nl.
Definition validation_text : string := "1 2:1" +:+ nl.

End Examples.

(** ** Vocabulary of the properties of [run] and of the readers *)

Module Behaviour.
Import Py Os FM Parsers Spec.

(** Only the white space that [float] strips. *)
Fixpoint blank (s : string) : bool :=
  match s with
  | EmptyString => true
  | String c t => is_float_space c && blank t
  end.

(** The section numbers the parser uses. *)
Definition known_section (st : model_state) : Prop :=
  out_iter st = 0%Z \/ out_iter st = 1%Z \/ out_iter st = 2%Z.

(** The data lines of the blocks of section [s] in a dump, in file order. *)
Definition section_lines (s : section) (d : dump) : list string :=
  flat_map (fun b => if section_eqb (fst b) s then snd b else []) d.

(** Between [w0] and [w] the temporary files [ts] were made and nothing
    else happened: they are distinct, did not exist and were not open in
    [w0], are open and exist in [w]; every other file and descriptor is as
    in [w0]; nothing was launched and the environment is the same. *)
Definition allocated (w0 w : world) (ts : list (Z * string)) : Prop :=
  created w = created w0 ++ ts
  /\ NoDup (List.map fst ts) /\ NoDup (List.map snd ts)
  /\ (forall t, In t ts ->
        fds w0 !! fst t = None /\ files w0 !! snd t = None
        /\ fds w !! fst t = Some (snd t) /\ is_Some (files w !! snd t))
  /\ (forall n, ~ In n (List.map fst ts) -> fds w !! n = fds w0 !! n)
  /\ (forall p, ~ In p (List.map snd ts) -> files w !! p = files w0 !! p)
  /\ launched w = launched w0
  /\ environ w = environ w0.

(** From [w0] to [w] the working directory and the temporary directory are
    the same, and the generator of names has only moved on. *)
Definition same_place (w0 w : world) : Prop :=
  cwd w = cwd w0 /\ tempdir w = tempdir w0
  /\ forall n, In n (tmp_names w) -> In n (tmp_names w0).

(** The world when [subprocess.call] has returned. *)
Definition after_call (sh : shell_effect) (l : locals) (w : world) : world :=
  {| environ := environ w;
     cwd := cwd w;
     tempdir := tempdir w;
     dirs := dirs w;
     files := snd (sh (join " " (args l)) (files w));
     fds := fds w;
     tmp_names := tmp_names w;
     created := created w;
     launched := launched w ++ [join " " (args l)] |}.

(** What lines 193-230 read from the files the command left: the
    predictions, the model and, when [rlog] is set, the log. *)
Definition read_back {DataFrame : Type} (read_csv : string -> exn + DataFrame)
    (self : FM.FM) (l : locals) (fs : gmap string string)
  : exn + model DataFrame :=
  match fs !! snd (out l) with
  | None => inl FileNotFoundError
  | Some out_raw =>
  match parse_predictions (universal_newlines out_raw) with
  | inl e => inl e
  | inr preds =>
  match fs !! snd (model_tmp l) with
  | None => inl FileNotFoundError
  | Some model_raw =>
  match parse_model (universal_newlines model_raw) with
  | inl e => inl e
  | inr st =>
  match np_matrix (pairwise_interactions st) with
  | inl e => inl e
  | inr pairwise =>
  let result (log : option DataFrame) :=
    {| predictions := preds;
       FM.global_bias := global_bias st;
       FM.weights := weights st;
       FM.pairwise_interactions := pairwise;
       FM.rlog := log |} in
  if __rlog self then
    match rlog_tmp l with
    | None => inl UnboundLocalError
    | Some (_, rlog_path) =>
        match fs !! rlog_path with
        | None => inl FileNotFoundError
        | Some raw =>
            match read_csv raw with
            | inl e => inl e
            | inr frame => inr (result (Some frame))
            end
        end
    end
  else inr (result None)
  end end end end end.

(** The closing and removing of lines 231-249, in the order of the source:
    log, validation, train, test, model, output. *)
Definition cleanup {Features Targets : Type} (self : FM.FM)
    (x_validation_set : option Features) (y_validation_set : option Targets)
    (l : locals) : M unit :=
  ((if __rlog self then
      let* (rlog_fd, rlog_path) := bound (rlog_tmp l) in
      os_close rlog_fd >> os_remove rlog_path
    else ret tt) >>
   (if with_validation self x_validation_set y_validation_set then
      let* (validation_fd, validation_path) := bound (validation_tmp l) in
      os_close validation_fd >> os_remove validation_path
    else ret tt) >>
   os_close (fst (train l)) >> os_remove (snd (train l)) >>
   os_close (fst (test l)) >> os_remove (snd (test l)) >>
   os_close (fst (model_tmp l)) >> os_remove (snd (model_tmp l)) >>
   os_close (fst (out l)) >> os_remove (snd (out l)))%os.

(** The temporary files in the order [cleanup] releases them. *)
Definition release_order (l : locals) : list (Z * string) :=
  option_list (rlog_tmp l) ++ option_list (validation_tmp l)
  ++ [train l; test l; model_tmp l; out l].

(** Closing and removing a list of temporary files, one after the other. *)
Fixpoint release_all (ts : list (Z * string)) : M unit :=
  match ts with
  | [] => ret tt
  | (fd, p) :: ts' => (os_close fd >> os_remove p >> release_all ts')%os
  end.

(** The world without the temporary file [t], and without all of [ts]. *)
Definition release_one (t : Z * string) (w : world) : world :=
  set_files (delete (snd t) (files w)) (set_fds (delete (fst t) (fds w)) w).

Fixpoint release (ts : list (Z * string)) (w : world) : world :=
  match ts with
  | [] => w
  | t :: ts' => release ts' (release_one t w)
  end.

(** The temporary files [ts] are distinct, open and present in [w]. *)
Definition live (w : world) (ts : list (Z * string)) : Prop :=
  NoDup (List.map fst ts) /\ NoDup (List.map snd ts)
  /\ forall t, In t ts ->
       is_Some (fds w !! fst t) /\ is_Some (files w !! snd t).

(** The locals agree with the two tests that guard the optional files. *)
Definition guarded {Features Targets : Type} (self : FM.FM)
    (xv : option Features) (yv : option Targets) (l : locals) : Prop :=
  (if __rlog self then is_Some (rlog_tmp l) else rlog_tmp l = None)
  /\ (if with_validation self xv yv
      then is_Some (validation_tmp l) else validation_tmp l = None).

(** A computation that launches no command, whether it returns or raises. *)
Definition quiet {A : Type} (m : M A) : Prop :=
  forall w, launched (snd (m w)) = launched w.

(** The same object with another learning rate, another regularization. *)
Definition with_learn_rate (x : float) (self : FM.FM) : FM.FM :=
  {| __task := __task self; __num_iter := __num_iter self;
     __init_stdev := __init_stdev self; __dim := __dim self;
     __learning_method := __learning_method self; __learn_rate := x;
     __regularization := __regularization self; __rlog := __rlog self;
     __verbose := __verbose self; __silent := __silent self;
     __temp_path := __temp_path self; __libfm_path := __libfm_path self |}.

Definition with_regularization (x : string) (self : FM.FM) : FM.FM :=
  {| __task := __task self; __num_iter := __num_iter self;
     __init_stdev := __init_stdev self; __dim := __dim self;
     __learning_method := __learning_method self;
     __learn_rate := __learn_rate self;
     __regularization := x; __rlog := __rlog self;
     __verbose := __verbose self; __silent := __silent self;
     __temp_path := __temp_path self; __libfm_path := __libfm_path self |}.

(** What [run] returns when the output and model files are empty and no
    log is asked for. *)
Definition empty_model {DataFrame : Type} : model DataFrame :=
  {| predictions := [];
     FM.global_bias := None;
     FM.weights := [];
     FM.pairwise_interactions := {| shape := (1, 0)%nat; rows := [[]] |};
     FM.rlog := None |}.

(** The command deletes no file that is in [ps]. *)
Definition keeps (sh : shell_effect) (cmd : string) (fs : gmap string string)
    (ps : list string) : Prop :=
  forall p, In p ps -> is_Some (fs !! p) -> is_Some (snd (sh cmd fs) !! p).

(** The command changes no file outside [ps]. *)
Definition confined (sh : shell_effect) (cmd : string)
    (fs : gmap string string) (ps : list string) : Prop :=
  forall p, ~ In p ps -> snd (sh cmd fs) !! p = fs !! p.

(** Further objects on the machine [Examples.installed]: one that is silent
    and one that asks for no log; and a shell in which libFM is missing, so
    that the command fails with status 127 and changes nothing. *)
Definition fm_silent : FM.FM :=
  {| __task := "c"; __num_iter := 10; __init_stdev := 0.1;
     __dim := "1,1,8"; __learning_method := "als"; __learn_rate := 0.1;
     __regularization := "0.000000,0.000000,0.000000";
     __rlog := false; __verbose := 0; __silent := true;
     __temp_path := Some "/var/tmp/"; __libfm_path := "/opt/libfm/bin/" |}.

Definition fm_nolog : FM.FM :=
  {| __task := "r"; __num_iter := 100; __init_stdev := 0.1;
     __dim := "1,1,8"; __learning_method := "mcmc"; __learn_rate := 0.1;
     __regularization := "0.000000,0.000000,0.000000";
     __rlog := false; __verbose := 0; __silent := false;
     __temp_path := None; __libfm_path := "/opt/libfm/bin/" |}.

Definition no_libfm : shell_effect := fun _ fs => (127%Z, fs).

(** An object whose temporary directory is given relative to the working
    directory. *)
Definition fm_relative : FM.FM :=
  {| __task := "r"; __num_iter := 100; __init_stdev := 0.1;
     __dim := "1,1,8"; __learning_method := "mcmc"; __learn_rate := 0.1;
     __regularization := "0.000000,0.000000,0.000000";
     __rlog := false; __verbose := 0; __silent := false;
     __temp_path := Some "./data/"; __libfm_path := "/opt/libfm/bin/" |}.

End Behaviour.

(** * Properties *)

Import Py Os FM Parsers Spec Examples.

(** ** Strings *)

Lemma split_no_sep sep l : has_char sep l = false -> split sep l = [l].
Proof.
  induction l as [|a l IH]; simpl; [reflexivity|].
  intros H. apply orb_false_iff in H as [Ha Hl].
  rewrite Ha, (IH Hl). reflexivity.
Qed.

Lemma split_app sep l rest :
  has_char sep l = false ->
  split sep (l +:+ String sep rest) = l :: split sep rest.
Proof.
  induction l as [|a l IH]; simpl.
  - intros _. unfold ascii_eqb. rewrite Ascii.eqb_refl. reflexivity.
  - intros H. apply orb_false_iff in H as [Ha Hl].
    rewrite Ha, (IH Hl). reflexivity.
Qed.

Lemma split_join sep x xs :
  Forall (fun l => has_char sep l = false) (x :: xs) ->
  split sep (join (String sep EmptyString) (x :: xs)) = x :: xs.
Proof.
  revert x. induction xs as [|y ys IH]; intros x H.
  - simpl. apply split_no_sep. by inversion H.
  - inversion H as [|? ? Hx Hr]; subst.
    change (join (String sep EmptyString) (x :: y :: ys))
      with (x +:+ String sep (join (String sep EmptyString) (y :: ys))).
    rewrite split_app by done. by rewrite IH.
Qed.

Lemma splitlines_go_line cur l rest :
  one_line l = true ->
  splitlines_go cur (l +:+ nl +:+ rest)
  = rev_onto cur l :: splitlines_go EmptyString rest.
Proof.
  revert cur. induction l as [|a l IH]; intros cur H.
  - reflexivity.
  - simpl in H. apply andb_true_iff in H as [Ha Hl].
    apply negb_true_iff in Ha.
    change (String a l +:+ nl +:+ rest) with (String a (l +:+ nl +:+ rest)).
    cbn [splitlines_go]. rewrite Ha. rewrite (IH _ Hl). reflexivity.
Qed.

Lemma splitlines_unlines ls :
  Forall (fun l => one_line l = true) ls -> splitlines (unlines ls) = ls.
Proof.
  unfold splitlines. induction 1 as [|l ls Hl _ IH]; [reflexivity|].
  cbn [unlines]. rewrite splitlines_go_line by done. by rewrite IH.
Qed.

(** ** The prediction file *)

(** C4. The prediction reader takes one float per non-empty line, in file
    order, and skips empty lines: a text made of the lines [lines] joined by
    line feeds reads as the floats of its non-empty lines, and the text
    "1.5\n2.5\n\n" reads as [1.5, 2.5]. *)
Theorem predictions_one_float_per_nonempty_line (lines : list string) :
  Forall (fun l => has_char LF l = false) lines ->
  parse_predictions (join nl lines) = floats (List.filter truthy lines)
  /\ parse_predictions predictions_example = inr [1.5; 2.5]%float.
Proof.
  intros H. split; [|reflexivity].
  unfold parse_predictions. destruct lines as [|x xs]; [reflexivity|].
  unfold nl. by rewrite split_join.
Qed.

Lemma predictions_one_float_per_nonempty_line_witness :
  parse_predictions (join nl ["3.25"; EmptyString; "-1e3"; EmptyString])
  = inr [3.25; -1000]%float.
Proof.
  refine (eq_trans
    (proj1 (predictions_one_float_per_nonempty_line
              ["3.25"; EmptyString; "-1e3"; EmptyString] _)) _).
  - repeat constructor.
  - reflexivity.
Defined.

(** ** The model dump *)

Lemma last_cons_default {A} (x : A) (xs : list A) (o : option A) :
  from_option Some o (last (x :: xs)) = from_option Some (Some x) (last xs).
Proof. destruct xs as [|y ys]; [reflexivity|]. rewrite last_cons_cons.
  destruct (last (y :: ys)) eqn:E; [reflexivity|].
  by apply last_None in E.
Qed.

(** Data lines are given to the section the state is in, up to the next
    marker. *)
Lemma model_lines_route s st data rest :
  out_iter st = section_code s ->
  Forall (fun l => startswith l "#" = false) data ->
  model_lines st (data ++ rest)
  = match route s st data with
    | inl e => inl e
    | inr st' => model_lines st' rest
    end.
Proof.
  intros Hs Hd. revert st Hs.
  induction Hd as [|l ls Hl _ IH]; intros st Hs.
  - destruct st as [b ws ps o]; simpl in Hs; subst o.
    destruct s; simpl; rewrite ?app_nil_r; reflexivity.
  - cbn [app model_lines]. unfold model_line. rewrite Hl, Hs.
    destruct s; cbn [section_code Z.eqb Pos.eqb route floats float_rows].
    + destruct (float_of_string l) as [e|x]; [reflexivity|].
      rewrite (IH (set_global_bias st x)) by exact Hs.
      cbn [route set_global_bias global_bias weights pairwise_interactions].
      destruct (floats ls) as [e|xs]; [reflexivity|].
      by rewrite last_cons_default.
    + destruct (float_of_string l) as [e|x]; [reflexivity|].
      rewrite (IH (append_weight st x)) by exact Hs.
      cbn [route append_weight global_bias weights pairwise_interactions].
      destruct (floats ls) as [e|xs]; [reflexivity|].
      by rewrite <- app_assoc.
    + destruct (floats (split SP l)) as [e|r]; [reflexivity|].
      rewrite (IH (append_row st r)) by exact Hs.
      cbn [route append_row global_bias weights pairwise_interactions].
      destruct (float_rows ls) as [e|rs]; [reflexivity|].
      by rewrite <- app_assoc.
Qed.

Lemma route_set_out_iter s st n data :
  route s (set_out_iter st n) data = route s st data.
Proof. destruct s; reflexivity. Qed.

Lemma model_line_marker st line s :
  startswith line "#" = true -> selects line s ->
  model_line st line = inr (set_out_iter st (section_code s)).
Proof.
  intros Hm Hs. unfold model_line. rewrite Hm.
  destruct s; cbn [selects marker_text] in Hs.
  - by rewrite Hs.
  - destruct Hs as [-> ->]. reflexivity.
  - destruct Hs as (-> & -> & ->). reflexivity.
Qed.

Lemma model_lines_block st marker s data rest :
  startswith marker "#" = true ->
  selects marker s ->
  Forall (fun l => startswith l "#" = false) data ->
  model_lines st (marker :: data ++ rest)
  = match route s st data with
    | inl e => inl e
    | inr st' => model_lines st' rest
    end.
Proof.
  intros Hm Hs Hd.
  cbn [model_lines]. rewrite (model_line_marker _ _ s) by done.
  rewrite (model_lines_route s) by done.
  by rewrite route_set_out_iter.
Qed.

Lemma model_line_skip st line :
  startswith line "#" = true ->
  (forall s, ~ selects line s) ->
  model_line st line = inr st.
Proof.
  intros Hm Hn. unfold model_line. rewrite Hm.
  destruct (contains "#global bias W0" line) eqn:E0.
  { destruct (Hn Bias). exact E0. }
  destruct (contains "#unary interactions Wj" line) eqn:E1.
  { destruct (Hn Unary). by split. }
  destruct (contains "#pairwise interactions Vj,f" line) eqn:E2.
  { destruct (Hn Pairwise). by repeat split. }
  reflexivity.
Qed.

(** C7, as the code has it. A line beginning with '#' is a marker and is
    never read as data. It selects the global-bias section when it contains
    "#global bias W0", else the weights when it contains
    "#unary interactions Wj", else the pairwise rows when it contains
    "#pairwise interactions Vj,f"; the data lines that follow, up to the next
    marker or the end of the file, go to that section. A marker containing
    none of the three texts is skipped and leaves the section as it was. *)
Theorem marker_routing :
  (forall st marker s data rest,
     startswith marker "#" = true ->
     selects marker s ->
     Forall (fun l => startswith l "#" = false) data ->
     model_lines st (marker :: data ++ rest)
     = match route s st data with
       | inl e => inl e
       | inr st' => model_lines st' rest
       end)
  /\ (forall st line,
        startswith line "#" = true ->
        (forall s, ~ selects line s) ->
        model_line st line = inr st).
Proof.
  split; [exact model_lines_block | exact model_line_skip].
Qed.

Lemma marker_routing_witness :
  model_lines model_init
    ("# model: #unary interactions Wj" :: ["1.0"; "2.0"] ++ ["# end"; "3"])
  = inr {| global_bias := None; weights := [1.0; 2.0; 3.0]%float;
           pairwise_interactions := []; out_iter := 1 |}.
Proof.
  refine (eq_trans
    (proj1 marker_routing model_init "# model: #unary interactions Wj" Unary
           ["1.0"; "2.0"] ["# end"; "3"] _ _ _) _).
  - reflexivity.
  - split; reflexivity.
  - repeat constructor.
  - cbn [route]. change (floats ["1.0"; "2.0"]) with (inr (A:=exn) [1.0; 2.0]%float).
    cbn [model_lines].
    rewrite (proj2 marker_routing _ "# end"); [reflexivity|reflexivity|].
    intros [] H; cbn in H; [discriminate H|destruct H as [_ H]; discriminate H
                           |destruct H as (_ & _ & H); discriminate H].
Defined.

(** C7 as stated fails: the line "# global bias" begins with '#' and
    contains "global bias", yet the line after it is read as a weight. *)
Lemma marker_by_loose_text_counterexample :
  startswith "# global bias" "#" = true
  /\ contains "global bias" "# global bias" = true
  /\ parse_model
       (unlines ["#unary interactions Wj"; "1.0"; "# global bias"; "5.0"])
     = inr {| global_bias := None; weights := [1.0; 5.0]%float;
              pairwise_interactions := []; out_iter := 1 |}.
Proof. repeat split. Qed.

(** *** [float] refuses a marker line *)

Lemma startswith_hash l :
  startswith l "#" = true -> exists t, l = String "#" t.
Proof.
  destruct l as [|b l]; [discriminate|]. cbn [startswith]. intros H.
  apply andb_true_iff in H as [H _]. apply Ascii.eqb_eq in H as ->. eauto.
Qed.

Lemma app_cons a u v : String a u +:+ v = String a (u +:+ v).
Proof. reflexivity. Qed.

Lemma app_snoc u a v : (u +:+ String a EmptyString) +:+ v = u +:+ String a v.
Proof.
  induction u as [|b u IH]; [reflexivity|]. rewrite !app_cons. by rewrite IH.
Qed.

Lemma rev_onto_app v w acc :
  rev_onto (v +:+ w) acc = rev_onto w (rev_onto v acc).
Proof. revert acc. induction v as [|a v IH]; intros acc; [reflexivity|]. apply IH. Qed.

Lemma rev_onto_acc t acc : rev_onto t acc = rev t +:+ acc.
Proof.
  unfold rev. revert acc. induction t as [|a t IH]; intros acc; [reflexivity|].
  cbn [rev_onto]. rewrite (IH (String a acc)), (IH (String a EmptyString)).
  by rewrite app_snoc.
Qed.

Lemma lstrip_last u c :
  is_float_space c = false ->
  exists v, lstrip (u +:+ String c EmptyString) = v +:+ String c EmptyString.
Proof.
  intros Hc. induction u as [|a u IH].
  - exists EmptyString. simpl. by rewrite Hc.
  - rewrite app_cons. cbn [lstrip]. destruct (is_float_space a); [exact IH|].
    by exists (String a u).
Qed.

Lemma strip_hash t : exists x, strip (String "#" t) = String "#" x.
Proof.
  unfold strip. change (lstrip (String "#" t)) with (String "#" t).
  unfold rev at 2. cbn [rev_onto]. rewrite rev_onto_acc.
  destruct (lstrip_last (rev t) "#" eq_refl) as [v ->].
  exists (rev v). unfold rev at 1. by rewrite rev_onto_app.
Qed.

Lemma float_of_string_hash t : float_of_string (String "#" t) = inl ValueError.
Proof.
  unfold float_of_string. destruct (strip_hash t) as [x ->]. reflexivity.
Qed.

Lemma float_not_marker l :
  is_inr (float_of_string l) = true -> startswith l "#" = false.
Proof.
  intros H. destruct (startswith l "#") eqn:E; [|reflexivity].
  apply startswith_hash in E as [t ->]. by rewrite float_of_string_hash in H.
Qed.

Lemma float_row_not_marker l :
  is_inr (floats (split SP l)) = true -> startswith l "#" = false.
Proof.
  intros H. destruct (startswith l "#") eqn:E; [|reflexivity].
  apply startswith_hash in E as [t ->]. exfalso. revert H.
  cbn [split]. change (ascii_eqb "#" SP) with false. cbv iota.
  destruct (split SP t) as [|q qs]; cbn [floats];
    by rewrite float_of_string_hash.
Qed.

Lemma data_ok_not_marker s l : data_ok s l = true -> startswith l "#" = false.
Proof.
  unfold data_ok. intros H. apply andb_true_iff in H as [_ H].
  destruct s; eauto using float_not_marker, float_row_not_marker.
Qed.

Lemma data_ok_one_line s l : data_ok s l = true -> one_line l = true.
Proof. unfold data_ok. intros H. by apply andb_true_iff in H as [H _]. Qed.

Lemma floats_ok data :
  forallb (fun l => is_inr (float_of_string l)) data = true ->
  exists xs, floats data = inr xs.
Proof.
  induction data as [|l ls IH]; cbn [forallb floats]; [eauto|].
  intros H. apply andb_true_iff in H as [Hl Hls].
  destruct (float_of_string l) as [|x]; [discriminate|].
  destruct (IH Hls) as [xs ->]. eauto.
Qed.

Lemma float_rows_ok data :
  forallb (fun l => is_inr (floats (split SP l))) data = true ->
  exists rs, float_rows data = inr rs.
Proof.
  induction data as [|l ls IH]; cbn [forallb float_rows]; [eauto|].
  intros H. apply andb_true_iff in H as [Hl Hls].
  destruct (floats (split SP l)) as [|r]; [discriminate|].
  destruct (IH Hls) as [rs ->]. eauto.
Qed.

Lemma forallb_data_ok s data :
  forallb (data_ok s) data = true ->
  forallb (fun l => match s with
                    | Bias | Unary => is_inr (float_of_string l)
                    | Pairwise => is_inr (floats (split SP l))
                    end) data = true.
Proof.
  induction data as [|l ls IH]; [reflexivity|]. cbn [forallb]. intros H.
  apply andb_true_iff in H as [Hl Hls]. rewrite (IH Hls), andb_true_r.
  unfold data_ok in Hl. by apply andb_true_iff in Hl as [_ Hl].
Qed.

(** A readable block is read without an exception, and changes no field of
    another section. *)
Lemma route_ok s st data :
  forallb (data_ok s) data = true ->
  exists st', route s st data = inr st'
    /\ (s <> Bias -> global_bias st' = global_bias st)
    /\ (s <> Unary -> weights st' = weights st)
    /\ (s <> Pairwise -> pairwise_interactions st' = pairwise_interactions st).
Proof.
  intros H. apply forallb_data_ok in H. destruct s; cbn [route].
  - destruct (floats_ok _ H) as [xs ->]. eexists; split; [reflexivity|].
    cbn. repeat split; congruence.
  - destruct (floats_ok _ H) as [xs ->]. eexists; split; [reflexivity|].
    cbn. repeat split; congruence.
  - destruct (float_rows_ok _ H) as [rs ->]. eexists; split; [reflexivity|].
    cbn. repeat split; congruence.
Qed.

Lemma marker_text_selects s :
  startswith (marker_text s) "#" = true /\ selects (marker_text s) s
  /\ one_line (marker_text s) = true.
Proof. destruct s; repeat split. Qed.

Lemma render_one_line d :
  well_formed d = true -> Forall (fun l => one_line l = true) (render d).
Proof.
  induction d as [|[s data] d IH]; cbn [well_formed forallb render flat_map fst snd].
  { constructor. }
  intros H. apply andb_true_iff in H as [Hb Hd]. constructor.
  { apply marker_text_selects. }
  apply Forall_app. split; [|by apply IH].
  apply List.Forall_forall. intros l Hl. rewrite forallb_forall in Hb.
  eapply data_ok_one_line, Hb, Hl.
Qed.

Lemma model_lines_render d :
  well_formed d = true ->
  forall st, exists st',
    model_lines st (render d) = inr st'
    /\ (has_section Bias d = false -> global_bias st' = global_bias st)
    /\ (has_section Unary d = false -> weights st' = weights st)
    /\ (has_section Pairwise d = false ->
        pairwise_interactions st' = pairwise_interactions st).
Proof.
  induction d as [|[s data] d IH]; intros Hwf st.
  { exists st. by repeat split. }
  cbn [well_formed forallb fst snd] in Hwf.
  apply andb_true_iff in Hwf as [Hb Hd].
  cbn [render flat_map fst snd app]. fold (render d).
  destruct (marker_text_selects s) as (Hm & Hs & _).
  rewrite (model_lines_block st _ s data) ; [|done|done|].
  2:{ apply List.Forall_forall. intros l Hl. rewrite forallb_forall in Hb.
      eapply data_ok_not_marker, Hb, Hl. }
  destruct (route_ok s st data Hb) as (st1 & -> & Hg & Hw & Hp).
  destruct (IH Hd st1) as (st' & Hst' & Hg' & Hw' & Hp').
  exists st'. split; [exact Hst'|].
  cbn [has_section existsb fst].
  repeat split; intros H; apply orb_false_iff in H as [Hne Hrest].
  - rewrite (Hg' Hrest). apply Hg. by intros ->.
  - rewrite (Hw' Hrest). apply Hw. by intros ->.
  - rewrite (Hp' Hrest). apply Hp. by intros ->.
Qed.

(** C8. In a model dump made of some of the three sections, each a marker
    followed by data lines its section can read, parsing raises nothing, and
    a section whose marker is absent leaves its field as it started: no
    global bias, no weights, no pairwise rows (and [np.matrix] of no rows is
    the empty 1 x 0 matrix). *)
Theorem absent_section_stays_empty (d : dump) :
  well_formed d = true ->
  exists st,
    parse_model (unlines (render d)) = inr st
    /\ (has_section Bias d = false -> global_bias st = None)
    /\ (has_section Unary d = false -> weights st = [])
    /\ (has_section Pairwise d = false ->
        pairwise_interactions st = []
        /\ np_matrix (pairwise_interactions st)
           = inr {| shape := (1, 0)%nat; rows := [[]] |}).
Proof.
  intros Hwf. unfold parse_model.
  rewrite splitlines_unlines by by apply render_one_line.
  destruct (model_lines_render d Hwf model_init) as (st & Hst & Hg & Hw & Hp).
  exists st. split; [exact Hst|]. split; [exact Hg|]. split; [exact Hw|].
  intros Hn. by rewrite (Hp Hn).
Qed.

Lemma absent_section_stays_empty_witness :
  exists st,
    parse_model (unlines ["#unary interactions Wj"; "0.5"; "-2"]) = inr st
    /\ global_bias st = None
    /\ pairwise_interactions st = [].
Proof.
  destruct (absent_section_stays_empty [(Unary, ["0.5"; "-2"])] eq_refl)
    as (st & Hst & Hg & _ & Hp).
  exists st. split; [exact Hst|].
  split; [exact (Hg eq_refl)|exact (proj1 (Hp eq_refl))].
Defined.

(** ** The constructor *)

Section Constructor.

Variables (num_iter : Z) (init_stdev : float) (k0 k1 : bool) (k2 : Z)
          (learning_method : string) (learn_rate : float)
          (r0 r1 r2 : float) (rlog verbose silent : bool)
          (temp_path : option string).

(** C10. With an empty task the constructor raises [IndexError] whatever
    the environment holds, so before [LIBFM_PATH] is looked at. With a
    non-empty task it goes on to the environment and stores the first
    character only, so two tasks with the same first character construct
    the same object. *)
Theorem init_keeps_first_char_of_task :
  (forall w,
     __init__ EmptyString num_iter init_stdev k0 k1 k2 learning_method
              learn_rate r0 r1 r2 rlog verbose silent temp_path w
     = (inl IndexError, w))
  /\ (forall c rest w,
        __init__ (String c rest) num_iter init_stdev k0 k1 k2 learning_method
                 learn_rate r0 r1 r2 rlog verbose silent temp_path w
        = match environ w !! "LIBFM_PATH" with
          | None => (inl OSError, w)
          | Some path =>
              (inr {| __task := String c EmptyString;
                      __num_iter := num_iter;
                      __init_stdev := init_stdev;
                      __dim := fmt_d (int k0) +:+ "," +:+ fmt_d (int k1)
                               +:+ "," +:+ fmt_d k2;
                      __learning_method := learning_method;
                      __learn_rate := learn_rate;
                      __regularization := fmt_f r0 +:+ "," +:+ fmt_f r1
                                          +:+ "," +:+ fmt_f r2;
                      __rlog := rlog; __verbose := int verbose;
                      __silent := silent; __temp_path := temp_path;
                      __libfm_path := path |}, w)
          end)
  /\ (forall c rest rest' w,
        __init__ (String c rest) num_iter init_stdev k0 k1 k2 learning_method
                 learn_rate r0 r1 r2 rlog verbose silent temp_path w
        = __init__ (String c rest') num_iter init_stdev k0 k1 k2
                   learning_method learn_rate r0 r1 r2 rlog verbose silent
                   temp_path w).
Proof.
  split; [reflexivity|]. split.
  - intros c rest w. unfold __init__, bind, first_char, ret, environ_get.
    by destruct (environ w !! "LIBFM_PATH").
  - reflexivity.
Qed.

(** C5. Without [LIBFM_PATH] in the environment, constructing [FM] (for a
    task that has a first character) raises the constructor's [OSError] and
    leaves the world as it was: no file or descriptor appears, [mkstemp]
    hands out nothing and no command is launched. *)
Theorem init_without_libfm_path (task : string) (w : world) :
  environ w !! "LIBFM_PATH" = None ->
  task <> EmptyString ->
  __init__ task num_iter init_stdev k0 k1 k2 learning_method learn_rate
           r0 r1 r2 rlog verbose silent temp_path w
  = (inl OSError, w).
Proof.
  intros Henv Htask. destruct task as [|c rest]; [done|].
  unfold __init__, bind, first_char, ret, environ_get.
  by rewrite Henv.
Qed.

End Constructor.

Lemma init_without_libfm_path_witness :
  FM_default "regression" bare = (inl OSError, bare).
Proof.
  refine (init_without_libfm_path 100 0.1 true true 8 "mcmc" 0.1 0 0 0
            true false false None "regression" bare _ _).
  - reflexivity.
  - discriminate.
Defined.

(** The constructor on a machine where libFM is installed. *)
Example init_default :
  FM_default "regression" installed = (inr fm_mcmc, installed).
Proof. reflexivity. Qed.

(** ** The operating system *)

Lemma bind_inr {A B} (m : M A) (k : A -> M B) w y w2 :
  bind m k w = (inr y, w2) ->
  exists x w1, m w = (inr x, w1) /\ k x w1 = (inr y, w2).
Proof.
  unfold bind. destruct (m w) as [[e|x] w1]; [discriminate|]. eauto.
Qed.

Lemma ret_inr {A} (x y : A) w w' : ret x w = (inr y, w') -> x = y /\ w = w'.
Proof. unfold ret. intros H. by inversion H. Qed.

Lemma lift_inr {A} (r : exn + A) y w w' :
  lift r w = (inr y, w') -> r = inr y /\ w = w'.
Proof. destruct r; unfold lift, raise, ret; intros H; by inversion H. Qed.

Lemma lowest_fd_fresh (d : gmap Z string) fd :
  lowest_fd d = Some fd -> d !! fd = None.
Proof.
  unfold lowest_fd. intros H. apply find_some in H as [_ H].
  by destruct (d !! fd).
Qed.

(** A name that could be opened: what [try_names] has done then. *)
Lemma try_names_inr dir names w fd p w' :
  try_names dir names w = (inr (fd, p), w') ->
  files w !! p = None /\ fds w !! fd = None
  /\ files w' = <[p := EmptyString]> (files w)
  /\ fds w' = <[fd := p]> (fds w)
  /\ created w' = created w
  /\ launched w' = launched w
  /\ environ w' = environ w.
Proof.
  revert w. induction names as [|n ns IH]; intros w; cbn [try_names].
  { discriminate. }
  unfold open_excl. cbn [dirs files fds set_tmp_names].
  destruct (negb _); [discriminate|].
  destruct (bool_decide (is_Some _)) eqn:Ex.
  { cbn [orb]. intros H. apply IH in H. exact H. }
  destruct (bool_decide (_ ∈ _)).
  { cbn [orb]. intros H. apply IH in H. exact H. }
  cbn [orb]. apply bool_decide_eq_false in Ex.
  destruct (lowest_fd _) as [m|] eqn:Ef; [|discriminate].
  intros H. inversion H; subst. cbn.
  repeat split; eauto using lowest_fd_fresh.
  destruct (files w !! _) eqn:E; [|done]. destruct Ex. by eexists.
Qed.

(** No name could be opened: only the generator has moved. *)
Lemma try_names_inl dir names w e w' :
  try_names dir names w = (inl e, w') ->
  files w' = files w /\ fds w' = fds w /\ created w' = created w
  /\ launched w' = launched w /\ environ w' = environ w.
Proof.
  revert w. induction names as [|n ns IH]; intros w; cbn [try_names].
  { intros H. by inversion H. }
  unfold open_excl. cbn [dirs files fds set_tmp_names].
  destruct (negb _); [intros H; by inversion H|].
  destruct (_ || _).
  { intros H. apply IH in H. exact H. }
  destruct (lowest_fd _) as [m|]; [discriminate|].
  intros H. by inversion H.
Qed.

Lemma mkstemp_dir_inr dir w d w' :
  directory_of dir w = (inr d, w') -> w' = w.
Proof.
  unfold directory_of, bind, abspath, gettempdir, ret.
  destruct dir; [|destruct (tempdir w)]; intros H; by inversion H.
Qed.

Lemma mkstemp_dir_inl dir w e w' :
  directory_of dir w = (inl e, w') -> w' = w.
Proof.
  unfold directory_of, bind, abspath, gettempdir, ret.
  destruct dir; [|destruct (tempdir w)]; intros H; by inversion H.
Qed.

Lemma mkstemp_unfold dir w :
  mkstemp dir w
  = match directory_of dir w with
    | (inl e, w') => (inl e, w')
    | (inr d, w') =>
        match try_names d (tmp_names w') w' with
        | (inl e, w2) => (inl e, w2)
        | (inr t, w2) => (inr t, snd (record_created t w2))
        end
    end.
Proof.
  unfold mkstemp, bind, ret, record_created.
  destruct (directory_of dir w) as [[e|d] w']; [reflexivity|].
  by destruct (try_names _ _ _) as [[?|?] ?].
Qed.

(** What the world looks like after a successful [mkstemp]. *)
Lemma mkstemp_inr dir w fd p w' :
  mkstemp dir w = (inr (fd, p), w') ->
  files w !! p = None /\ fds w !! fd = None
  /\ files w' = <[p := EmptyString]> (files w)
  /\ fds w' = <[fd := p]> (fds w)
  /\ created w' = created w ++ [(fd, p)].
Proof.
  rewrite mkstemp_unfold.
  destruct (directory_of dir w) as [[e|d] w1] eqn:Ed; [discriminate|].
  apply mkstemp_dir_inr in Ed as ->.
  destruct (try_names _ _ _) as [[e|t] w2] eqn:Et; [discriminate|].
  intros H. inversion H; subst.
  apply try_names_inr in Et as (? & ? & ? & ? & Hc & _).
  cbn. by rewrite Hc.
Qed.

Lemma os_close_inr fd w w' :
  os_close fd w = (inr tt, w') -> w' = set_fds (delete fd (fds w)) w.
Proof. unfold os_close. destruct (fds w !! fd); intros H; by inversion H. Qed.

Lemma os_remove_inr p w w' :
  os_remove p w = (inr tt, w') -> w' = set_files (delete p (files w)) w.
Proof. unfold os_remove. destruct (files w !! p); intros H; by inversion H. Qed.

Lemma read_text_inr p w t w' : read_text p w = (inr t, w') -> w' = w.
Proof. unfold read_text. destruct (files w !! p); intros H; by inversion H. Qed.

Lemma read_raw_inr p w t w' : read_raw p w = (inr t, w') -> w' = w.
Proof. unfold read_raw. destruct (files w !! p); intros H; by inversion H. Qed.

Section RunFacts.

Context {Features Targets DataFrame : Type}.
Variable svmlight : Features -> Targets -> exn + string.
Variable read_csv : string -> exn + DataFrame.

Lemma dump_inr X y f w u w' :
  dump_svmlight_file svmlight X y f w = (inr u, w') ->
  exists text, svmlight X y = inr text
    /\ w' = set_files (<[f := text]> (files w)) w.
Proof using Type.
  clear read_csv DataFrame.
  unfold dump_svmlight_file. intros H.
  apply bind_inr in H as (text & w1 & H1 & H2).
  apply lift_inr in H1 as [-> ->]. unfold write_file in H2.
  inversion H2; subst. eauto.
Qed.

(** What [build_command] has done when it returns: the argument list is
    [command] at the paths it created, the log file exists exactly when
    [rlog] is set, the validation file exactly when the test of line 179
    holds, and the files it created are the [temporaries]. *)
Lemma build_command_inr self xt yt xs ys xv yv w l w' :
  build_command svmlight self xt yt xs ys xv yv w = (inr l, w') ->
  args l = command self (snd (train l)) (snd (test l)) (snd (out l))
                   (snd (model_tmp l))
                   (snd <$> rlog_tmp l) (snd <$> validation_tmp l)
  /\ (if __rlog self then is_Some (rlog_tmp l) else rlog_tmp l = None)
  /\ (if with_validation self xv yv
      then exists fd p xv' yv' text,
             validation_tmp l = Some (fd, p)
             /\ xv = Some xv' /\ yv = Some yv'
             /\ svmlight xv' yv' = inr text
             /\ files w !! p = None
             /\ files w' !! p = Some text
      else validation_tmp l = None)
  /\ created w' = created w ++ temporaries l.
Proof using Type.
  clear read_csv DataFrame.
  unfold build_command. intros H.
  apply bind_inr in H as ([train_fd train_path] & w1 & H1 & H).
  apply bind_inr in H as ([test_fd test_path] & w2 & H2 & H).
  apply bind_inr in H as ([out_fd out_path] & w3 & H3 & H).
  apply bind_inr in H as ([model_fd model_path] & w4 & H4 & H).
  apply bind_inr in H as (u5 & w5 & H5 & H).
  apply bind_inr in H as (u6 & w6 & H6 & H).
  apply bind_inr in H as ([rl a7] & w7 & H7 & H).
  apply bind_inr in H as ([vl a8] & w8 & H8 & H).
  apply ret_inr in H as [<- <-].
  apply mkstemp_inr in H1 as (F1 & _ & Hf1 & _ & Hc1).
  apply mkstemp_inr in H2 as (F2 & _ & Hf2 & _ & Hc2).
  apply mkstemp_inr in H3 as (F3 & _ & Hf3 & _ & Hc3).
  apply mkstemp_inr in H4 as (F4 & _ & Hf4 & _ & Hc4).
  apply dump_inr in H5 as (t5 & _ & ->).
  apply dump_inr in H6 as (t6 & _ & ->).
  cbn [args train test out model_tmp rlog_tmp validation_tmp fst snd].
  set (w6 := set_files _ (set_files _ w4)) in *.
  assert (Hc6 : created w6
                = created w ++ [(train_fd, train_path); (test_fd, test_path);
                                (out_fd, out_path); (model_fd, model_path)]).
  { subst w6. cbn. rewrite Hc4, Hc3, Hc2, Hc1. by rewrite <- !app_assoc. }
  assert (Hx6 : forall p, files w6 !! p = None -> files w !! p = None).
  { subst w6. cbn. intros p. rewrite Hf4, Hf3, Hf2, Hf1.
    rewrite !lookup_insert_None. tauto. }
  clearbody w6. clear Hf1 Hf2 Hf3 Hf4 Hc1 Hc2 Hc3 Hc4 F1 F2 F3 F4 w1 w2 w3 w4.
  assert (H7' : a7 = [ __libfm_path self +:+ "libFM"; "-task " +:+ __task self;
              "-train " +:+ train_path; "-test " +:+ test_path;
              "-dim '" +:+ __dim self +:+ "'";
              "-init_stdev " +:+ fmt_g (__init_stdev self);
              "-iter " +:+ fmt_d (__num_iter self);
              "-method " +:+ __learning_method self;
              "-out " +:+ out_path; "-verbosity " +:+ fmt_d (__verbose self);
              "-save_model " +:+ model_path] ++ opt_arg "-rlog " (snd <$> rl)
          /\ (if __rlog self then is_Some rl else rl = None)
          /\ created w7 = created w6 ++ option_list rl
          /\ (forall p, files w7 !! p = None -> files w6 !! p = None)).
  { destruct (__rlog self).
    - apply bind_inr in H7 as ([rlog_fd rlog_path] & w7' & H7 & Hr).
      apply ret_inr in Hr as [Hr <-]. inversion Hr; subst.
      apply mkstemp_inr in H7 as (_ & _ & Hf & _ & Hc).
      repeat split; [by eexists|exact Hc|].
      intros p. rewrite Hf, lookup_insert_None. tauto.
    - apply ret_inr in H7 as [Hr <-]. inversion Hr; subst.
      cbn. by rewrite !app_nil_r. }
  destruct H7' as (-> & Hrl & Hc7 & Hx7). clear H7.
  match type of H8 with
  | context [(Some (_, _), ?a ++ ["-validation " +:+ _])] => set (a7 := a) in *
  end.
  assert (H8' : a8 = a7 ++ opt_arg "-validation " (snd <$> vl)
          /\ (if with_validation self xv yv
              then exists fd p xv' yv' text,
                     vl = Some (fd, p) /\ xv = Some xv' /\ yv = Some yv'
                     /\ svmlight xv' yv' = inr text
                     /\ files w7 !! p = None
                     /\ files w8 !! p = Some text
              else vl = None)
          /\ created w8 = created w7 ++ option_list vl).
  { unfold with_validation.
    destruct (__learning_method self =? "sgda")%string;
      [destruct xv as [xv'|]; [destruct yv as [yv'|]|]|].
    - apply bind_inr in H8 as ([validation_fd validation_path] & w8' & H8 & Hr).
      apply bind_inr in Hr as (u & w8'' & Hd & Hr).
      apply ret_inr in Hr as [Hr <-]. inversion Hr; subst.
      apply mkstemp_inr in H8 as (Fv & _ & Hf & _ & Hc).
      apply dump_inr in Hd as (text & Ht & ->).
      split; [reflexivity|]. split; [|exact Hc].
      exists validation_fd, validation_path, xv', yv', text.
      repeat split; try done. cbn. apply lookup_insert_eq.
    - apply ret_inr in H8 as [Hr <-]. inversion Hr; subst.
      cbn. by rewrite !app_nil_r.
    - apply ret_inr in H8 as [Hr <-]. inversion Hr; subst.
      cbn. by rewrite !app_nil_r.
    - apply ret_inr in H8 as [Hr <-]. inversion Hr; subst.
      cbn. by rewrite !app_nil_r. }
  destruct H8' as (-> & Hvl & Hc8). clear H8.
  split.
  { subst a7. unfold command.
    destruct (in_list (__learning_method self) ["sgd"; "sgda"]),
             (in_list (__learning_method self) ["sgd"; "sgda"; "als"]),
             (__silent self);
      cbn [opt_arg]; rewrite <- ?app_assoc; rewrite ?app_nil_r;
      reflexivity. }
  split; [exact Hrl|]. split.
  { destruct (with_validation self xv yv); [|exact Hvl].
    destruct Hvl as (fd & p & xv' & yv' & text & ? & ? & ? & ? & Hn & ?).
    exists fd, p, xv', yv', text. repeat split; auto. }
  unfold temporaries. cbn [train test out model_tmp rlog_tmp validation_tmp].
  rewrite Hc8, Hc7, Hc6. by rewrite <- !app_assoc.
Qed.

Lemma in_list_In x l : in_list x l = true <-> In x l.
Proof.
  unfold in_list. rewrite existsb_exists. split.
  - intros (y & Hy & E). apply String.eqb_eq in E. by subst.
  - intros H. exists x. split; [done|]. apply String.eqb_refl.
Qed.

Lemma in_list_not_In x l : in_list x l = false <-> ~ In x l.
Proof. rewrite <- in_list_In. by destruct (in_list x l). Qed.

(** How often each flag occurs in [command]. *)
Lemma command_counts self tp sp op mp (rl vl : option string) :
  let a := command self tp sp op mp rl vl in
  Forall (fun flag => flag_count flag a = 1%nat) mandatory_flags
  /\ flag_count "-rlog" a = match rl with Some _ => 1 | None => 0 end%nat
  /\ flag_count "-learn_rate" a
     = (if in_list (__learning_method self) ["sgd"; "sgda"] then 1 else 0)%nat
  /\ flag_count "-regular" a
     = (if in_list (__learning_method self) ["sgd"; "sgda"; "als"]
        then 1 else 0)%nat
  /\ flag_count "-validation" a = match vl with Some _ => 1 | None => 0 end%nat.
Proof using Type.
  clear read_csv DataFrame.
  unfold command, mandatory_flags.
  destruct (in_list (__learning_method self) ["sgd"; "sgda"]),
           (in_list (__learning_method self) ["sgd"; "sgda"; "als"]),
           (__silent self), rl as [r|], vl as [v|];
    generalize (__libfm_path self) (__task self) (__dim self)
               (fmt_g (__init_stdev self)) (fmt_d (__num_iter self))
               (__learning_method self) (fmt_d (__verbose self))
               (fmt_f (__learn_rate self)) (__regularization self);
    intros;
    repeat first [apply Forall_cons | apply Forall_nil | split];
    vm_compute; reflexivity.
Qed.

(** C1. In the argument list [run] builds, each mandatory flag (task, train,
    test, dim, init_stdev, iter, method, out, verbosity, save_model) occurs
    exactly once; [-learn_rate] occurs (once) exactly when the learning
    method is sgd or sgda, [-regular] exactly when it is sgd, sgda or als,
    and [-rlog] exactly when the rlog attribute is true. *)
Theorem mandatory_and_conditional_flags self xt yt xs ys xv yv w l :
  fst (build_command svmlight self xt yt xs ys xv yv w) = inr l ->
  Forall (fun flag => flag_count flag (args l) = 1%nat) mandatory_flags
  /\ (flag_count "-learn_rate" (args l) = 1%nat
      <-> In (__learning_method self) ["sgd"; "sgda"])
  /\ (flag_count "-learn_rate" (args l) = 0%nat
      <-> ~ In (__learning_method self) ["sgd"; "sgda"])
  /\ (flag_count "-regular" (args l) = 1%nat
      <-> In (__learning_method self) ["sgd"; "sgda"; "als"])
  /\ (flag_count "-regular" (args l) = 0%nat
      <-> ~ In (__learning_method self) ["sgd"; "sgda"; "als"])
  /\ (flag_count "-rlog" (args l) = 1%nat <-> __rlog self = true)
  /\ (flag_count "-rlog" (args l) = 0%nat <-> __rlog self = false).
Proof using Type.
  clear read_csv DataFrame.
  destruct (build_command _ _ _ _ _ _ _ _ _) as [r w'] eqn:E.
  cbn [fst]. intros ->.
  apply build_command_inr in E as (-> & Hrl & _ & _).
  destruct (command_counts self (snd (train l)) (snd (test l)) (snd (out l))
              (snd (model_tmp l)) (snd <$> rlog_tmp l)
              (snd <$> validation_tmp l)) as (Hm & Hr & Hlr & Hreg & _).
  split; [exact Hm|].
  rewrite Hlr, Hreg, Hr, <- !in_list_not_In, <- !in_list_In.
  destruct (in_list (__learning_method self) ["sgd"; "sgda"]),
           (in_list (__learning_method self) ["sgd"; "sgda"; "als"]);
    destruct (__rlog self), (rlog_tmp l) as [[? ?]|];
    try (by destruct Hrl); try discriminate Hrl; cbn; intuition congruence.
Qed.

(** C9. With the learning method sgda, the argument list has the
    [-validation] flag (once) exactly when both validation arguments are
    given; it then names a temporary file that did not exist before and now
    holds the validation data. Otherwise no validation file is made. *)
Theorem validation_flag_iff_both_supplied self xt yt xs ys xv yv w l :
  fst (build_command svmlight self xt yt xs ys xv yv w) = inr l ->
  __learning_method self = "sgda" ->
  (flag_count "-validation" (args l) = 1%nat <-> is_Some xv /\ is_Some yv)
  /\ (flag_count "-validation" (args l) = 0%nat
      <-> ~ (is_Some xv /\ is_Some yv))
  /\ match xv, yv with
     | Some xv', Some yv' =>
         exists fd p text,
           validation_tmp l = Some (fd, p)
           /\ In ("-validation " +:+ p) (args l)
           /\ files w !! p = None
           /\ svmlight xv' yv' = inr text
           /\ files (snd (build_command svmlight self xt yt xs ys xv yv w)) !! p
              = Some text
     | _, _ => validation_tmp l = None
     end.
Proof using Type.
  clear read_csv DataFrame.
  destruct (build_command _ _ _ _ _ _ _ _ _) as [r w'] eqn:E.
  cbn [fst snd]. intros -> Hm.
  apply build_command_inr in E as (Ha & _ & Hv & _).
  destruct (command_counts self (snd (train l)) (snd (test l)) (snd (out l))
              (snd (model_tmp l)) (snd <$> rlog_tmp l)
              (snd <$> validation_tmp l)) as (_ & _ & _ & _ & Hc).
  rewrite <- Ha in Hc. rewrite Hc. clear Hc.
  unfold with_validation in Hv. rewrite Hm in Hv. cbn [String.eqb] in Hv.
  change (("sgda" =? "sgda")%string) with true in Hv. cbn [andb] in Hv.
  destruct xv as [xv'|], yv as [yv'|]; cbn in Hv.
  - destruct Hv as (fd & p & xv2 & yv2 & text & Hvl & [= <-] & [= <-] & Ht & Hn & Hf).
    rewrite Hvl. cbn [fmap option_fmap option_map snd].
    split; [split; [eauto|reflexivity]|].
    split; [split; [discriminate|intros Hno; destruct Hno; eauto]|].
    exists fd, p, text. repeat split; try done.
    rewrite Ha, Hvl. unfold command. rewrite !in_app_iff. cbn. tauto.
  - rewrite Hv. cbn [fmap option_fmap option_map].
    split; [split; [discriminate|intros [_ [? ?]]; discriminate]|].
    split; [split; [intros _ [_ [? ?]]; discriminate|reflexivity]|reflexivity].
  - rewrite Hv. cbn [fmap option_fmap option_map].
    split; [split; [discriminate|intros [[? ?] _]; discriminate]|].
    split; [split; [intros _ [[? ?] _]; discriminate|reflexivity]|reflexivity].
  - rewrite Hv. cbn [fmap option_fmap option_map].
    split; [split; [discriminate|intros [[? ?] _]; discriminate]|].
    split; [split; [intros _ [[? ?] _]; discriminate|reflexivity]|reflexivity].
Qed.

Variable sh : shell_effect.

Lemma call_inr cmd w status w' :
  call sh cmd w = (inr status, w') ->
  fds w' = fds w /\ created w' = created w.
Proof.
  unfold call. destruct (sh cmd (files w)) as [st fs].
  intros H. by inversion H.
Qed.

Lemma bound_inr {A} (x : option A) v w w' :
  bound x w = (inr v, w') -> x = Some v /\ w' = w.
Proof.
  destruct x; unfold bound, ret, raise; intros H; by inversion H.
Qed.

Lemma shrinks_refl w : shrinks w w.
Proof. by repeat split. Qed.

Lemma shrinks_trans w1 w2 w3 : shrinks w1 w2 -> shrinks w2 w3 -> shrinks w1 w3.
Proof.
  intros (C1 & F1 & D1) (C2 & F2 & D2). repeat split; [congruence|auto..].
Qed.

Lemma released_shrinks w w' t : shrinks w w' -> released w t -> released w' t.
Proof. intros (_ & F & D) [Hf Hd]. split; auto. Qed.

(** Closing a descriptor and removing its file releases the temporary file
    and takes nothing else away but them. *)
Lemma close_remove_inr {A} fd p (k : M A) w r w' :
  bind (os_close fd) (fun _ => bind (os_remove p) (fun _ => k)) w = (inr r, w') ->
  exists w1, shrinks w w1 /\ released w1 (fd, p) /\ k w1 = (inr r, w').
Proof.
  intros H.
  apply bind_inr in H as ([] & w1 & Hc & H). apply os_close_inr in Hc as ->.
  apply bind_inr in H as ([] & w2 & Hr & H). apply os_remove_inr in Hr as ->.
  eexists. split; [|split; [|exact H]].
  - repeat split; cbn; [|intros n Hn]; [intros q Hq|];
      rewrite lookup_delete_None; auto.
  - split; cbn; apply lookup_delete_eq.
Qed.

Lemma close_remove_last fd p w u w' :
  bind (os_close fd) (fun _ => os_remove p) w = (inr u, w') ->
  shrinks w w' /\ released w' (fd, p).
Proof.
  intros H.
  apply bind_inr in H as ([] & w1 & Hc & H). apply os_close_inr in Hc as ->.
  destruct u. apply os_remove_inr in H as ->. split.
  - repeat split; cbn; [|intros n Hn]; [intros q Hq|];
      rewrite lookup_delete_None; auto.
  - split; cbn; apply lookup_delete_eq.
Qed.

(** When the second half of [run] returns, every temporary file of the
    first half is released. *)
Lemma invoke_and_parse_inr self (xv : option Features) (yv : option Targets)
    l w r w' :
  invoke_and_parse read_csv sh self xv yv l w = (inr r, w') ->
  (if __rlog self then is_Some (rlog_tmp l) else rlog_tmp l = None) ->
  (if with_validation self xv yv
   then is_Some (validation_tmp l) else validation_tmp l = None) ->
  created w' = created w
  /\ forall t, In t (temporaries l) -> released w' t.
Proof.
  unfold invoke_and_parse. intros H Hrl Hvl.
  apply bind_inr in H as (status & w1 & Hcall & H).
  apply call_inr in Hcall as (Hd1 & Hc1).
  apply bind_inr in H as (out_read & ? & Hr & H).
  apply read_text_inr in Hr as ->.
  apply bind_inr in H as (preds & ? & Hr & H).
  apply lift_inr in Hr as [_ <-].
  apply bind_inr in H as (text & ? & Hr & H).
  apply read_text_inr in Hr as ->.
  apply bind_inr in H as (st & ? & Hr & H).
  apply lift_inr in Hr as [_ <-].
  apply bind_inr in H as (pw & ? & Hr & H).
  apply lift_inr in Hr as [_ <-].
  apply bind_inr in H as (rlog & w2 & Hrlog & H).
  apply bind_inr in H as (u & w3 & Hval & H).
  assert (R2 : shrinks w1 w2 /\ forall t, rlog_tmp l = Some t -> released w2 t).
  { destruct (__rlog self).
    - apply bind_inr in Hrlog as ([rlog_fd rlog_path] & ? & Hb & Hrlog).
      apply bound_inr in Hb as [Hb ->].
      apply bind_inr in Hrlog as (raw & ? & Hb2 & Hrlog).
      apply read_raw_inr in Hb2 as ->.
      apply bind_inr in Hrlog as (frame & ? & Hb2 & Hrlog).
      apply lift_inr in Hb2 as [_ <-].
      apply close_remove_inr in Hrlog as (w2' & Hs & Hrel & Hrlog).
      apply ret_inr in Hrlog as [_ <-].
      split; [exact Hs|]. intros t. rewrite Hb. by intros [= <-].
    - apply ret_inr in Hrlog as [_ <-]. split; [apply shrinks_refl|].
      intros t. by rewrite Hrl. }
  destruct R2 as [S2 R2].
  assert (R3 : shrinks w2 w3
               /\ forall t, validation_tmp l = Some t -> released w3 t).
  { destruct (with_validation self xv yv).
    - apply bind_inr in Hval as ([validation_fd validation_path] & ? & Hb & Hval).
      apply bound_inr in Hb as [Hb ->].
      apply close_remove_last in Hval as [Hs Hrel].
      split; [exact Hs|]. intros t. rewrite Hb. by intros [= <-].
    - apply ret_inr in Hval as [_ <-]. split; [apply shrinks_refl|].
      intros t. by rewrite Hvl. }
  destruct R3 as [S3 R3].
  apply close_remove_inr in H as (w4 & S4 & R4 & H).
  apply close_remove_inr in H as (w5 & S5 & R5 & H).
  apply close_remove_inr in H as (w6 & S6 & R6 & H).
  apply close_remove_inr in H as (w7 & S7 & R7 & H).
  apply ret_inr in H as [_ <-].
  split.
  { destruct S2 as [E2 _], S3 as [E3 _], S4 as [E4 _], S5 as [E5 _],
             S6 as [E6 _], S7 as [E7 _]. congruence. }
  intros t Ht. unfold temporaries in Ht.
  rewrite !in_app_iff in Ht. cbn [In] in Ht.
  rewrite <- !surjective_pairing in *.
  destruct Ht as [[<-|[<-|[<-|[<-|[]]]]]|[Ht|Ht]].
  - eauto using released_shrinks.
  - eauto using released_shrinks.
  - exact R7.
  - eauto using released_shrinks.
  - destruct (rlog_tmp l) as [t'|]; [|destruct Ht]. destruct Ht as [<-|[]].
    eauto 10 using released_shrinks.
  - destruct (validation_tmp l) as [t'|]; [|destruct Ht]. destruct Ht as [<-|[]].
    eauto 10 using released_shrinks.
Qed.

Lemma bind_call_ext {A} (sh' : shell_effect) cmd (k : M A) w :
  snd (sh cmd (files w)) = snd (sh' cmd (files w)) ->
  bind (call sh cmd) (fun _ => k) w = bind (call sh' cmd) (fun _ => k) w.
Proof.
  unfold bind, call.
  destruct (sh _ _) as [st fs], (sh' _ _) as [st' fs']. cbn [snd].
  by intros ->.
Qed.

End RunFacts.

(** ** The theorems at concrete inputs *)

Lemma mandatory_and_conditional_flags_witness :
  exists l,
    fst (build_command svmlight_text fm_sgda train_text tt test_text tt
           None None installed) = inr l
    /\ Forall (fun flag => flag_count flag (args l) = 1%nat) mandatory_flags
    /\ flag_count "-learn_rate" (args l) = 1%nat
    /\ flag_count "-regular" (args l) = 1%nat
    /\ flag_count "-rlog" (args l) = 1%nat.
Proof.
  eexists. split; [vm_compute; reflexivity|].
  match goal with
  | |- context [args ?l] =>
      destruct (mandatory_and_conditional_flags svmlight_text fm_sgda
                  train_text tt test_text tt None None installed l)
        as (Hm & Hlr & _ & Hreg & _ & Hrl & _)
  end.
  - vm_compute; reflexivity.
  - split; [exact Hm|]. split; [apply Hlr; cbn; tauto|].
    split; [apply Hreg; cbn; tauto|]. by apply Hrl.
Defined.

Lemma validation_flag_iff_both_supplied_witness :
  exists l,
    fst (build_command svmlight_text fm_sgda train_text tt test_text tt
           (Some validation_text) (Some tt) installed) = inr l
    /\ flag_count "-validation" (args l) = 1%nat
    /\ validation_tmp l = Some (8%Z, "/tmp/tmpf").
Proof.
  eexists. split; [vm_compute; reflexivity|].
  match goal with
  | |- context [args ?l] =>
      destruct (validation_flag_iff_both_supplied svmlight_text fm_sgda
                  train_text tt test_text tt (Some validation_text) (Some tt)
                  installed l) as (Hv & _ & _)
  end.
  - vm_compute; reflexivity.
  - reflexivity.
  - split; [apply Hv; split; by eexists|reflexivity].
Defined.

(** [run] from end to end on the machine [installed]. *)
Example run_example :
  fst (run svmlight_text read_tsv
         (fake_libfm 1 predictions_example model_example log_example)
         fm_mcmc train_text tt test_text tt None None installed)
  = inr {| predictions := [1.5; 2.5]%float;
           FM.global_bias := Some 5.0%float;
           FM.weights := [1.0; 2.0]%float;
           FM.pairwise_interactions :=
             {| shape := (2, 2)%nat;
                rows := [[0.1; 0.2]; [0.3; 0.4]]%float |};
           FM.rlog := Some [["rmse"; "mae"]; ["0.5"; "0.4"]] |}
  /\ launched
       (snd (run svmlight_text read_tsv
               (fake_libfm 1 predictions_example model_example log_example)
               fm_mcmc train_text tt test_text tt None None installed))
     = [ "/opt/libfm/bin/libFM -task r -train /tmp/tmpa -test /tmp/tmpb "
         +:+ "-dim '1,1,8' -init_stdev 0.1 -iter 100 -method mcmc "
         +:+ "-out /tmp/tmpc -verbosity 0 -save_model /tmp/tmpd "
         +:+ "-rlog /tmp/tmpe" ].
Proof. split; vm_compute; reflexivity. Qed.

(** * Further properties *)

Import Behaviour.

(** ** The readers *)

Lemma float_of_string_error s e : float_of_string s = inl e -> e = ValueError.
Proof.
  unfold float_of_string. destruct (sign (strip s)) as [neg body].
  destruct (_ || _); [discriminate|].
  destruct (String.eqb _ _); [discriminate|].
  destruct (number body) as [[[m k] r]|]; [|by intros [= <-]].
  destruct (exponent r) as [[ex [|c t]]|]; try discriminate; by intros [= <-].
Qed.

Lemma floats_error l e : floats l = inl e -> e = ValueError.
Proof.
  induction l as [|p ps IH]; cbn [floats]; [discriminate|].
  destruct (float_of_string p) as [e'|x] eqn:E.
  - intros [= <-]. eauto using float_of_string_error.
  - destruct (floats ps); [|discriminate]. intros [= <-]. by apply IH.
Qed.


Lemma floats_is_inr l :
  is_inr (floats l) = true
  <-> Forall (fun p => is_inr (float_of_string p) = true) l.
Proof.
  induction l as [|p ps IH]; cbn [floats]; [by split; [constructor|]|].
  rewrite Forall_cons_iff, <- IH.
  destruct (float_of_string p); cbn [is_inr]; [intuition discriminate|].
  destruct (floats ps); cbn [is_inr]; intuition.
Qed.

Lemma predictions_is_inr text :
  is_inr (parse_predictions text) = true
  <-> Forall (fun l => l = EmptyString \/ is_inr (float_of_string l) = true)
             (split LF text).
Proof.
  unfold parse_predictions.
  rewrite floats_is_inr. induction (split LF text) as [|l ls IH].
  { split; constructor. }
  cbn [List.filter]. destruct l as [|c t]; cbn [truthy].
  - rewrite IH, Forall_cons_iff. intuition.
  - rewrite !Forall_cons_iff, IH. intuition discriminate.
Qed.


Lemma lstrip_blank s : blank s = true -> lstrip s = EmptyString.
Proof.
  induction s as [|c t IH]; [reflexivity|]. cbn [blank lstrip].
  intros H. apply andb_true_iff in H as [-> Ht]. by apply IH.
Qed.

Lemma float_of_string_blank s : blank s = true -> float_of_string s = inl ValueError.
Proof.
  intros H. unfold float_of_string, strip. rewrite (lstrip_blank s H).
  reflexivity.
Qed.

(** X2. A line of the prediction file that holds only white space is not
    skipped like an empty one: [run] raises [ValueError] on it. *)
Theorem predictions_blank_line_raises (text l : string) :
  In l (split LF text) ->
  l <> EmptyString ->
  blank l = true ->
  parse_predictions text = inl ValueError.
Proof.
  intros Hin Hne Hb.
  destruct (parse_predictions text) as [e|ps] eqn:E.
  { f_equal. unfold parse_predictions in E. eauto using floats_error. }
  assert (Hok : is_inr (parse_predictions text) = true) by by rewrite E.
  apply predictions_is_inr in Hok. rewrite List.Forall_forall in Hok.
  destruct (Hok l Hin) as [->|Hl]; [done|].
  by rewrite (float_of_string_blank l Hb) in Hl.
Qed.

Lemma predictions_blank_line_raises_witness :
  parse_predictions ("1.5" +:+ nl +:+ "  " +:+ nl +:+ "2.5" +:+ nl)
  = inl ValueError.
Proof.
  apply (predictions_blank_line_raises _ "  ").
  - vm_compute. tauto.
  - discriminate.
  - reflexivity.
Defined.

(** ** The model dump *)

Lemma model_line_error st line e : model_line st line = inl e -> e = ValueError.
Proof.
  unfold model_line.
  repeat match goal with
         | |- context [if ?b then _ else _] => destruct b
         end; try discriminate.
  - destruct (float_of_string line) eqn:E; [|discriminate].
    intros [= <-]. eauto using float_of_string_error.
  - destruct (float_of_string line) eqn:E; [|discriminate].
    intros [= <-]. eauto using float_of_string_error.
  - destruct (floats (split SP line)) eqn:E; [|discriminate].
    intros [= <-]. eauto using floats_error.
Qed.

Lemma model_line_known st line st' :
  known_section st -> model_line st line = inr st' -> known_section st'.
Proof.
  unfold model_line, known_section. intros Hk.
  repeat match goal with
         | |- context [if ?b then _ else _] => destruct b
         end;
    repeat match goal with
           | |- context [match ?x with inl _ => _ | inr _ => _ end] => destruct x
           end;
    intros [= <-]; cbn; tauto.
Qed.

Lemma model_lines_error st lines e : model_lines st lines = inl e -> e = ValueError.
Proof.
  revert st. induction lines as [|l ls IH]; intros st; cbn [model_lines].
  - discriminate.
  - destruct (model_line st l) as [e'|st'] eqn:E; [|apply IH].
    intros [= <-]. eauto using model_line_error.
Qed.

Lemma model_line_empty st :
  known_section st -> model_line st EmptyString = inl ValueError.
Proof.
  unfold model_line, known_section. cbn [startswith].
  intros [-> | [-> | ->]]; reflexivity.
Qed.

Lemma model_lines_empty_line st lines :
  known_section st -> In EmptyString lines ->
  model_lines st lines = inl ValueError.
Proof.
  revert st. induction lines as [|l ls IH]; intros st Hk; [intros []|].
  intros [-> | Hin]; cbn [model_lines].
  - by rewrite model_line_empty.
  - destruct (model_line st l) as [e|st'] eqn:E.
    + f_equal. eauto using model_line_error.
    + eauto using model_line_known.
Qed.

(** X3. The model reader does not skip empty lines: a model file with an
    empty line anywhere makes [run] raise [ValueError]. *)
Theorem model_empty_line_raises (lines : list string) :
  Forall (fun l => one_line l = true) lines ->
  In EmptyString lines ->
  parse_model (unlines lines) = inl ValueError.
Proof.
  intros Hl Hin. unfold parse_model. rewrite splitlines_unlines by done.
  apply model_lines_empty_line; [by left|done].
Qed.

Lemma model_empty_line_raises_witness :
  parse_model
    (unlines ["#global bias W0"; "5.0"; EmptyString; "#unary interactions Wj"])
  = inl ValueError.
Proof.
  apply model_empty_line_raises.
  - repeat constructor.
  - cbn. tauto.
Defined.

(** X4. The parser starts in the global-bias section: data lines that come
    before any marker are read as the global bias, and the last of them is
    the one kept. *)
Theorem lines_before_first_marker_are_bias (data rest : list string) :
  Forall (fun l => startswith l "#" = false) data ->
  model_lines model_init (data ++ rest)
  = match floats data with
    | inl e => inl e
    | inr xs =>
        model_lines {| global_bias := last xs; weights := [];
                       pairwise_interactions := []; out_iter := 0 |} rest
    end.
Proof.
  intros Hd. rewrite (model_lines_route Bias) by done.
  cbn [route model_init global_bias weights pairwise_interactions].
  destruct (floats data) as [e|xs]; [reflexivity|].
  by destruct (last xs).
Qed.

Lemma lines_before_first_marker_are_bias_witness :
  parse_model (unlines ["1.0"; "2.5"; "#unary interactions Wj"; "7"])
  = inr {| global_bias := Some 2.5%float; weights := [7%float];
           pairwise_interactions := []; out_iter := 1 |}.
Proof.
  refine (eq_trans
    (lines_before_first_marker_are_bias ["1.0"; "2.5"]
       ["#unary interactions Wj"; "7"] _) _).
  - repeat constructor.
  - reflexivity.
Defined.

Lemma floats_In_empty ps : In EmptyString ps -> floats ps = inl ValueError.
Proof.
  induction ps as [|p ps IH]; [intros []|]. intros [-> | Hin]; cbn [floats].
  - reflexivity.
  - destruct (float_of_string p) as [e|x] eqn:E.
    + f_equal. eauto using float_of_string_error.
    + by rewrite IH.
Qed.

Lemma app_nil_l' s : EmptyString +:+ s = s.
Proof. reflexivity. Qed.

Lemma In_tail {A} (x : A) l : In x (tail l) -> In x l.
Proof. destruct l; [done|]. by right. Qed.

(** The pieces after the first one survive a prefix that ends in the
    separator. *)
Lemma split_tail_app sep a rest x :
  In x (split sep rest) -> In x (tail (split sep (a +:+ String sep rest))).
Proof.
  intros Hx. induction a as [|c a IH].
  - rewrite app_nil_l'. cbn [split]. unfold ascii_eqb.
    by rewrite Ascii.eqb_refl.
  - rewrite app_cons. cbn [split]. destruct (ascii_eqb c sep).
    + by apply In_tail.
    + destruct (split sep (a +:+ String sep rest)); [destruct IH|]. exact IH.
Qed.

Lemma split_has_piece sep s : split sep s <> [].
Proof.
  destruct s as [|c t]; cbn [split]; [discriminate|].
  destruct (ascii_eqb c sep); [discriminate|].
  destruct (split sep t); discriminate.
Qed.

Lemma split_empty_piece sep :
  (forall a, In EmptyString (split sep (String sep a)))
  /\ (forall a, In EmptyString (split sep (a +:+ String sep EmptyString)))
  /\ (forall a b,
        In EmptyString (split sep (a +:+ String sep (String sep b)))).
Proof.
  split; [|split].
  - intros a. cbn [split]. unfold ascii_eqb. rewrite Ascii.eqb_refl. by left.
  - intros a. apply In_tail, split_tail_app. by left.
  - intros a b. apply In_tail, split_tail_app. cbn [split].
    unfold ascii_eqb. rewrite Ascii.eqb_refl. by left.
Qed.

Lemma startswith_app_hash a x :
  startswith a "#" = false -> startswith (a +:+ String SP x) "#" = false.
Proof. destruct a as [|c a]; [reflexivity|]. by rewrite app_cons. Qed.

(** X5. A row of the pairwise section is split at every single space, so a
    row with a leading space, a trailing space or two spaces in a row has an
    empty piece and makes [run] raise [ValueError]. *)
Theorem row_with_stray_space_raises (st : model_state) (a b : string) :
  out_iter st = 2%Z ->
  startswith a "#" = false ->
  model_line st (String SP a) = inl ValueError
  /\ model_line st (a +:+ String SP EmptyString) = inl ValueError
  /\ model_line st (a +:+ String SP (String SP b)) = inl ValueError.
Proof.
  intros Hs Ha. destruct (split_empty_piece SP) as (H1 & H2 & H3).
  unfold model_line. rewrite Hs. cbn [Z.eqb].
  rewrite !startswith_app_hash by done.
  change (startswith (String SP a) "#") with false. cbv iota.
  by rewrite !floats_In_empty.
Qed.

Lemma row_with_stray_space_raises_witness :
  parse_model (unlines ["#pairwise interactions Vj,f"; "0.1  0.2"])
  = inl ValueError.
Proof.
  unfold parse_model. rewrite splitlines_unlines by repeat constructor.
  cbn [model_lines].
  change (model_line model_init "#pairwise interactions Vj,f")
    with (inr (A:=exn) (set_out_iter model_init 2)).
  cbv iota.
  pose proof (proj2 (proj2 (row_with_stray_space_raises
                (set_out_iter model_init 2) "0.1" "0.2" eq_refl eq_refl))) as H.
  change ("0.1" +:+ String SP (String SP "0.2")) with "0.1  0.2" in H.
  by rewrite H.
Defined.

Lemma floats_app a b :
  floats (a ++ b)
  = match floats a with
    | inl e => inl e
    | inr xs => match floats b with inl e => inl e | inr ys => inr (xs ++ ys) end
    end.
Proof.
  induction a as [|p ps IH]; cbn [app floats]; [by destruct (floats b)|].
  destruct (float_of_string p); [done|]. rewrite IH.
  destruct (floats ps); [done|]. by destruct (floats b).
Qed.

Lemma float_rows_app a b :
  float_rows (a ++ b)
  = match float_rows a with
    | inl e => inl e
    | inr xs =>
        match float_rows b with inl e => inl e | inr ys => inr (xs ++ ys) end
    end.
Proof.
  induction a as [|p ps IH]; cbn [app float_rows]; [by destruct (float_rows b)|].
  destruct (floats (split SP p)); [done|]. rewrite IH.
  destruct (float_rows ps); [done|]. by destruct (float_rows b).
Qed.

Lemma last_app_default {A} (xs ys : list A) (o : option A) :
  from_option Some (from_option Some o (last xs)) (last ys)
  = from_option Some o (last (xs ++ ys)).
Proof.
  destruct ys as [|y ys _] using rev_ind.
  - by rewrite app_nil_r.
  - by rewrite app_assoc, !last_snoc.
Qed.

Lemma model_lines_sections d :
  well_formed d = true ->
  forall st, exists st' xs ws rs,
    model_lines st (render d) = inr st'
    /\ floats (section_lines Bias d) = inr xs
    /\ floats (section_lines Unary d) = inr ws
    /\ float_rows (section_lines Pairwise d) = inr rs
    /\ global_bias st' = from_option Some (global_bias st) (last xs)
    /\ weights st' = weights st ++ ws
    /\ pairwise_interactions st' = pairwise_interactions st ++ rs.
Proof.
  induction d as [|[s data] d IH]; intros Hwf st.
  { exists st, [], [], []. cbn. by rewrite !app_nil_r. }
  cbn [well_formed forallb fst snd] in Hwf.
  apply andb_true_iff in Hwf as [Hb Hd].
  cbn [render flat_map fst snd app section_lines]. fold (render d).
  fold (section_lines Bias d) (section_lines Unary d) (section_lines Pairwise d).
  destruct (marker_text_selects s) as (Hm & Hs & _).
  rewrite (model_lines_block st _ s data); [|done|done|].
  2:{ apply List.Forall_forall. intros l Hl. rewrite forallb_forall in Hb.
      eapply data_ok_not_marker, Hb, Hl. }
  pose proof (forallb_data_ok s data Hb) as Hok.
  destruct s; cbn [route section_eqb section_code Z.eqb Pos.eqb];
    rewrite ?floats_app, ?float_rows_app.
  - destruct (floats_ok _ Hok) as [ys ->].
    edestruct (IH Hd) as (st' & xs & ws & rs & -> & -> & -> & -> & Hg & Hw & Hp).
    exists st', (ys ++ xs), ws, rs. repeat split; try done.
    rewrite Hg. cbn [global_bias]. apply last_app_default.
  - destruct (floats_ok _ Hok) as [ys ->].
    edestruct (IH Hd) as (st' & xs & ws & rs & -> & -> & -> & -> & Hg & Hw & Hp).
    exists st', xs, (ys ++ ws), rs. repeat split; try done.
    rewrite Hw. cbn [weights]. by rewrite app_assoc.
  - destruct (float_rows_ok _ Hok) as [ys ->].
    edestruct (IH Hd) as (st' & xs & ws & rs & -> & -> & -> & -> & Hg & Hw & Hp).
    exists st', xs, ws, (ys ++ rs). repeat split; try done.
    rewrite Hp. cbn [pairwise_interactions]. by rewrite app_assoc.
Qed.

(** *** The reader, section by section *)

Lemma float_rows_error data e : float_rows data = inl e -> e = ValueError.
Proof.
  induction data as [|l ls IH]; cbn [float_rows]; [discriminate|].
  destruct (floats (split SP l)) eqn:E.
  { intros [= <-]. by apply floats_error in E. }
  destruct (float_rows ls); [|discriminate]. intros [= <-]. by apply IH.
Qed.

Lemma lines_of_cons_eq s l data :
  lines_of s ((s, l) :: data) = l :: lines_of s data.
Proof. unfold lines_of. cbn. by destruct s. Qed.

Lemma lines_of_cons_ne s s' l data :
  s <> s' -> lines_of s ((s', l) :: data) = lines_of s data.
Proof. unfold lines_of. cbn. by destruct s, s'. Qed.

(** The loop from any state: what it adds to the three fields is what the
    three sections read from their own lines. *)
Lemma model_lines_by_sections lines :
  forall cur st, out_iter st = section_code cur ->
  model_lines st lines
  = match floats (lines_of Bias (sectioned cur lines)) with
    | inl _ => inl ValueError
    | inr xs =>
        match floats (lines_of Unary (sectioned cur lines)) with
        | inl _ => inl ValueError
        | inr ws =>
            match float_rows (lines_of Pairwise (sectioned cur lines)) with
            | inl _ => inl ValueError
            | inr rs =>
                inr {| global_bias := from_option Some (global_bias st) (last xs);
                       weights := weights st ++ ws;
                       pairwise_interactions := pairwise_interactions st ++ rs;
                       out_iter := section_code (final_section cur lines) |}
            end
        end
    end.
Proof.
  induction lines as [|l rest IH]; intros cur st Hst.
  { destruct st as [b ws rs o]. cbn in *. by rewrite !app_nil_r, Hst. }
  cbn [model_lines sectioned final_section]. unfold model_line.
  destruct (startswith l "#") eqn:Hm.
  - unfold selected. cbn [marker_text].
    destruct (contains "#global bias W0" l);
      [|destruct (contains "#unary interactions Wj" l);
        [|destruct (contains "#pairwise interactions Vj,f" l)]];
      cbn [default from_option id];
      first [ by rewrite (IH Bias) | by rewrite (IH Unary)
            | by rewrite (IH Pairwise) | by rewrite (IH cur) ].
  - rewrite Hst.
    destruct cur; cbn [section_code Z.eqb Pos.eqb];
      rewrite lines_of_cons_eq, !lines_of_cons_ne by discriminate.
    + cbn [floats]. destruct (float_of_string l) as [e|x] eqn:E.
      { by rewrite (float_of_string_error _ _ E). }
      rewrite (IH Bias) by done. cbn [set_global_bias global_bias weights
        pairwise_interactions].
      destruct (floats (lines_of Bias _)) as [|xs]; [done|].
      by rewrite last_cons_default.
    + cbn [floats]. destruct (float_of_string l) as [e|x] eqn:E.
      { rewrite (float_of_string_error _ _ E).
        by destruct (floats (lines_of Bias _)). }
      rewrite (IH Unary) by done. cbn [append_weight global_bias weights
        pairwise_interactions].
      destruct (floats (lines_of Bias _)) as [|xs]; [done|].
      destruct (floats (lines_of Unary _)) as [|ws]; [done|].
      by rewrite <- app_assoc.
    + cbn [float_rows]. destruct (floats (split SP l)) as [e|r] eqn:E.
      { rewrite (floats_error _ _ E).
        destruct (floats (lines_of Bias _)); [done|].
        by destruct (floats (lines_of Unary _)). }
      rewrite (IH Pairwise) by done. cbn [append_row global_bias weights
        pairwise_interactions].
      destruct (floats (lines_of Bias _)) as [|xs]; [done|].
      destruct (floats (lines_of Unary _)) as [|ws]; [done|].
      destruct (float_rows (lines_of Pairwise _)) as [|rs]; [done|].
      by rewrite <- app_assoc.
Qed.

Lemma lines_of_sublist s lines :
  forall cur, sublist (lines_of s (sectioned cur lines)) lines.
Proof.
  induction lines as [|l rest IH]; intros cur; cbn [sectioned].
  { constructor. }
  destruct (startswith l "#"); [by apply sublist_cons|].
  unfold lines_of. cbn [List.filter fst].
  destruct (section_eqb cur s); cbn [List.map snd].
  - apply sublist_skip, IH.
  - apply sublist_cons, IH.
Qed.

Lemma lines_of_partition lines :
  forall cur,
    (length (lines_of Bias (sectioned cur lines))
     + length (lines_of Unary (sectioned cur lines))
     + length (lines_of Pairwise (sectioned cur lines)))%nat
    = length (List.filter (fun l => negb (startswith l "#")) lines).
Proof.
  induction lines as [|l rest IH]; intros cur; cbn [sectioned List.filter].
  { reflexivity. }
  destruct (startswith l "#"); cbn [negb]; [apply IH|].
  cbn [length]. rewrite <- (IH cur).
  destruct cur;
    rewrite lines_of_cons_eq, !lines_of_cons_ne by discriminate;
    cbn [length]; lia.
Qed.

(** C2. The model-dump reader is order-preserving and section-exclusive.
    Every data line of the file stands in exactly one section, the one
    selected by the nearest marker above it (the bias section before the
    first marker); the reader gives the same result as reading each section
    from its own lines: the weights are the unary lines in file order, the
    rows the pairwise lines in file order, the global bias the last bias
    line, and it raises exactly when a section cannot read one of its
    lines.  On the dump made of "#global bias W0", "5.0",
    "#unary interactions Wj", "1.0", "2.0", "#pairwise interactions Vj,f",
    "0.1 0.2", "0.3 0.4" this is global bias 5.0, weights [1.0, 2.0] and
    the rows [[0.1, 0.2], [0.3, 0.4]], which [np.matrix] turns into a 2 x 2
    matrix. *)
Theorem model_dump_order_preserving_section_exclusive :
  (forall text, parse_model text = by_sections (splitlines text))
  /\ (forall lines s, sublist (lines_of s (sectioned Bias lines)) lines)
  /\ (forall lines,
        (length (lines_of Bias (sectioned Bias lines))
         + length (lines_of Unary (sectioned Bias lines))
         + length (lines_of Pairwise (sectioned Bias lines)))%nat
        = length (List.filter (fun l => negb (startswith l "#")) lines))
  /\ parse_model model_example
     = inr {| global_bias := Some 5.0%float;
              weights := [1.0; 2.0]%float;
              pairwise_interactions := [[0.1; 0.2]; [0.3; 0.4]]%float;
              out_iter := 2 |}
  /\ np_matrix [[0.1; 0.2]; [0.3; 0.4]]%float
     = inr {| shape := (2, 2)%nat; rows := [[0.1; 0.2]; [0.3; 0.4]]%float |}.
Proof.
  split; [|split; [|split; [|split; reflexivity]]].
  - intros text. unfold parse_model, by_sections.
    rewrite (model_lines_by_sections _ Bias model_init eq_refl).
    cbn [model_init global_bias weights pairwise_interactions app].
    destruct (floats (lines_of Bias _)) as [|xs]; [done|].
    destruct (floats (lines_of Unary _)) as [|ws]; [done|].
    destruct (float_rows (lines_of Pairwise _)) as [|rs]; [done|].
    by destruct (last xs).
  - intros lines s. apply lines_of_sublist.
  - intros lines. apply lines_of_partition.
Qed.

(** X18. The sections of a model dump may come in any order and any number
    of times: the weights are the data lines of all unary blocks in file
    order, the rows those of all pairwise blocks, and the global bias the
    last data line of the bias blocks. *)
Theorem sections_accumulate_in_file_order (d : dump) :
  well_formed d = true ->
  exists st xs,
    parse_model (unlines (render d)) = inr st
    /\ floats (section_lines Bias d) = inr xs
    /\ global_bias st = last xs
    /\ floats (section_lines Unary d) = inr (weights st)
    /\ float_rows (section_lines Pairwise d) = inr (pairwise_interactions st).
Proof.
  intros Hwf. unfold parse_model.
  rewrite splitlines_unlines by by apply render_one_line.
  destruct (model_lines_sections d Hwf model_init)
    as (st & xs & ws & rs & Hst & Hxs & Hws & Hrs & Hg & Hw & Hp).
  exists st, xs. cbn in Hg, Hw, Hp. rewrite Hw, Hp.
  repeat split; try done. rewrite Hg. by destruct (last xs).
Qed.

Lemma sections_accumulate_in_file_order_witness :
  exists st,
    parse_model
      (unlines [ "#pairwise interactions Vj,f"; "0.5 1";
                 "#unary interactions Wj"; "1";
                 "#global bias W0"; "3"; "4";
                 "#unary interactions Wj"; "2" ]) = inr st
    /\ global_bias st = Some 4%float
    /\ weights st = [1; 2]%float
    /\ pairwise_interactions st = [[0.5; 1]]%float.
Proof.
  destruct (sections_accumulate_in_file_order
              [ (Pairwise, ["0.5 1"]); (Unary, ["1"]); (Bias, ["3"; "4"]);
                (Unary, ["2"]) ] eq_refl)
    as (st & xs & Hst & Hxs & Hg & Hw & Hp).
  exists st. split; [exact Hst|].
  injection Hxs as <-. injection Hw as <-. injection Hp as <-.
  split; [exact Hg|]. split; reflexivity.
Defined.

(** ** [run] as a composition *)

Lemma bind_assoc {A B C} (m : M A) (f : A -> M B) (g : B -> M C) w :
  bind (bind m f) g w = bind m (fun x => bind (f x) g) w.
Proof. unfold bind. by destruct (m w) as [[e|x] w']. Qed.

Lemma bind_ext {A B} (m : M A) (f g : A -> M B) w :
  (forall x w', f x w' = g x w') -> bind m f w = bind m g w.
Proof. intros H. unfold bind. by destruct (m w) as [[e|x] w']. Qed.

Lemma bind_ret_l {A B} (x : A) (f : A -> M B) w : bind (ret x) f w = f x w.
Proof. reflexivity. Qed.

Lemma bind_raise {A B} e (f : A -> M B) w : bind (raise e) f w = (inl e, w).
Proof. reflexivity. Qed.

Lemma bind_lift {A B} (r : exn + A) (f : A -> M B) w :
  bind (lift r) f w = match r with inl e => (inl e, w) | inr x => f x w end.
Proof. by destruct r. Qed.

Lemma bind_bound {A B} (o : option A) (f : A -> M B) w :
  bind (bound o) f w
  = match o with None => (inl UnboundLocalError, w) | Some x => f x w end.
Proof. by destruct o. Qed.

Lemma bind_read_text {B} p (f : string -> M B) w :
  bind (read_text p) f w
  = match files w !! p with
    | None => (inl FileNotFoundError, w)
    | Some raw => f (universal_newlines raw) w
    end.
Proof. unfold bind, read_text. by destruct (files w !! p). Qed.

Lemma bind_read_raw {B} p (f : string -> M B) w :
  bind (read_raw p) f w
  = match files w !! p with
    | None => (inl FileNotFoundError, w)
    | Some raw => f raw w
    end.
Proof. unfold bind, read_raw. by destruct (files w !! p). Qed.

Lemma bind_call {B} sh cmd (f : Z -> M B) w :
  bind (call sh cmd) f w
  = f (fst (sh cmd (files w)))
      {| environ := environ w; cwd := cwd w; tempdir := tempdir w;
         dirs := dirs w; files := snd (sh cmd (files w)); fds := fds w;
         tmp_names := tmp_names w; created := created w;
         launched := launched w ++ [cmd] |}.
Proof. unfold bind, call. by destruct (sh cmd (files w)). Qed.

Lemma bind_then_ret {A B} (m : M A) (r : B) w :
  bind m (fun _ => ret r) w
  = match m w with (inl e, w') => (inl e, w') | (inr _, w') => (inr r, w') end.
Proof. unfold bind. by destruct (m w) as [[e|x] w']. Qed.

(** Everything a successful [mkstemp] does. *)
Lemma mkstemp_world dir w fd p w' :
  mkstemp dir w = (inr (fd, p), w') ->
  files w !! p = None /\ fds w !! fd = None
  /\ files w' = <[p := EmptyString]> (files w)
  /\ fds w' = <[fd := p]> (fds w)
  /\ created w' = created w ++ [(fd, p)]
  /\ launched w' = launched w
  /\ environ w' = environ w.
Proof.
  rewrite mkstemp_unfold.
  destruct (directory_of dir w) as [[e|d] w1] eqn:Ed; [discriminate|].
  apply mkstemp_dir_inr in Ed as ->.
  destruct (try_names _ _ _) as [[e|t] w2] eqn:Et; [discriminate|].
  intros H. inversion H; subst.
  apply try_names_inr in Et as (? & ? & ? & ? & Hc & ? & ?).
  cbn. by rewrite Hc.
Qed.

(** A failed [mkstemp] leaves the files and the descriptors alone. *)
Lemma mkstemp_inl dir w e w' :
  mkstemp dir w = (inl e, w') ->
  files w' = files w /\ fds w' = fds w /\ created w' = created w
  /\ launched w' = launched w /\ environ w' = environ w.
Proof.
  rewrite mkstemp_unfold.
  destruct (directory_of dir w) as [[e'|d] w1] eqn:Ed.
  { apply mkstemp_dir_inl in Ed as ->. intros H. by inversion H. }
  apply mkstemp_dir_inr in Ed as ->.
  destruct (try_names _ _ _) as [[e'|t] w2] eqn:Et; [|discriminate].
  intros H. inversion H; subst. by apply try_names_inl in Et.
Qed.

Lemma allocated_refl w : allocated w w [].
Proof.
  unfold allocated. cbn. rewrite app_nil_r.
  repeat split; try constructor; tauto.
Qed.

Lemma allocated_mkstemp dir w0 w ts fd p w' :
  allocated w0 w ts ->
  mkstemp dir w = (inr (fd, p), w') ->
  allocated w0 w' (ts ++ [(fd, p)]).
Proof.
  intros (Hc & Nf & Np & Ht & Hd & Hf & Hl & He) Hm.
  apply mkstemp_world in Hm as (Fp & Ff & Hfs & Hds & Hcr & Hla & Hen).
  assert (Hnf : ~ In fd (List.map fst ts)).
  { intros Hin. apply in_map_iff in Hin as (t & <- & Hin).
    destruct (Ht t Hin) as (_ & _ & Ho & _). congruence. }
  assert (Hnp : ~ In p (List.map snd ts)).
  { intros Hin. apply in_map_iff in Hin as (t & <- & Hin).
    destruct (Ht t Hin) as (_ & _ & _ & [v Hv]). congruence. }
  unfold allocated. rewrite !map_app. cbn [List.map fst snd].
  split; [by rewrite Hcr, Hc, app_assoc|].
  split. { apply NoDup_app. split; [done|]. split; [|apply NoDup_singleton].
           intros a Ha Hb. apply list_elem_of_In in Ha.
           apply list_elem_of_singleton in Hb as ->. done. }
  split. { apply NoDup_app. split; [done|]. split; [|apply NoDup_singleton].
           intros a Ha Hb. apply list_elem_of_In in Ha.
           apply list_elem_of_singleton in Hb as ->. done. }
  split.
  { intros t Hin. apply in_app_iff in Hin as [Hin|[<-|[]]].
    - destruct (Ht t Hin) as (H1 & H2 & H3 & H4).
      assert (fst t <> fd) by (intros E; apply Hnf, in_map_iff; eauto).
      assert (snd t <> p) by (intros E; apply Hnp, in_map_iff; eauto).
      rewrite Hds, Hfs, !lookup_insert_ne by done; tauto.
    - cbn [fst snd]. rewrite <- (Hd fd Hnf), <- (Hf p Hnp), Hds, Hfs.
      rewrite !lookup_insert_eq. repeat split; done. }
  split.
  { intros n Hn. rewrite in_app_iff in Hn. cbn in Hn.
    rewrite Hds, lookup_insert_ne by tauto. apply Hd. tauto. }
  split.
  { intros q Hq. rewrite in_app_iff in Hq. cbn in Hq.
    rewrite Hfs, lookup_insert_ne by tauto. apply Hf. tauto. }
  split; congruence.
Qed.

Lemma allocated_write w0 w ts p text :
  allocated w0 w ts ->
  In p (List.map snd ts) ->
  allocated w0 (set_files (<[p := text]> (files w)) w) ts.
Proof.
  intros (Hc & Nf & Np & Ht & Hd & Hf & Hl & He) Hp.
  unfold allocated. cbn [set_files created fds files launched environ].
  repeat split; try done.
  - by apply Ht.
  - by apply Ht.
  - by apply Ht.
  - destruct (decide (p = snd t)) as [->|Hne].
    + rewrite lookup_insert_eq. by eexists.
    + rewrite lookup_insert_ne by done. by apply Ht.
  - intros q Hq. rewrite lookup_insert_ne; [by apply Hf|]. by intros ->.
Qed.

(** *** Releasing temporary files *)

Lemma close_remove_eq {A} fd p (k : M A) w :
  bind (os_close fd) (fun _ => bind (os_remove p) (fun _ => k)) w
  = match fds w !! fd with
    | None => (inl OSError, w)
    | Some _ =>
        match files w !! p with
        | None => (inl FileNotFoundError, set_fds (delete fd (fds w)) w)
        | Some _ => k (release_one (fd, p) w)
        end
    end.
Proof.
  unfold bind, os_close, os_remove. destruct (fds w !! fd); [|reflexivity].
  cbn [files set_fds]. by destruct (files w !! p).
Qed.

Lemma release_all_inr ts w u w' :
  release_all ts w = (inr u, w') -> w' = release ts w.
Proof.
  revert w. induction ts as [|[fd p] ts IH]; intros w; cbn [release_all release].
  - by intros [= <-].
  - rewrite close_remove_eq. destruct (fds w !! fd); [|discriminate].
    destruct (files w !! p); [|discriminate]. apply IH.
Qed.

Lemma live_tail w t ts : live w (t :: ts) -> live (release_one t w) ts.
Proof.
  intros (Nf & Np & Ht). cbn [List.map] in Nf, Np.
  apply NoDup_cons in Nf as [Hf Nf]. apply NoDup_cons in Np as [Hp Np].
  split; [done|]. split; [done|]. intros t' Hin.
  destruct (Ht t' (or_intror Hin)) as [Hd Hfl].
  unfold release_one. cbn [fds files set_files set_fds].
  rewrite !lookup_delete_ne; [done| |].
  - intros E. apply Hp. rewrite E. apply list_elem_of_In, in_map, Hin.
  - intros E. apply Hf. rewrite E. apply list_elem_of_In, in_map, Hin.
Qed.

Lemma release_all_live ts w :
  live w ts -> release_all ts w = (inr tt, release ts w).
Proof.
  revert w. induction ts as [|[fd p] ts IH]; intros w Hl;
    cbn [release_all release]; [reflexivity|].
  rewrite close_remove_eq.
  pose proof Hl as (Nf & Np & Ht).
  destruct (Ht (fd, p) (or_introl eq_refl)) as [[q Hq] [v Hv]].
  cbn [fst snd] in Hq, Hv. rewrite Hq, Hv.
  apply IH, live_tail, Hl.
Qed.

Lemma release_fields ts w :
  environ (release ts w) = environ w
  /\ tmp_names (release ts w) = tmp_names w
  /\ created (release ts w) = created w
  /\ launched (release ts w) = launched w.
Proof.
  revert w. induction ts as [|t ts IH]; intros w; cbn [release]; [done|].
  destruct (IH (release_one t w)) as (-> & -> & -> & ->). done.
Qed.

Lemma release_lookup ts w :
  (forall n, fds (release ts w) !! n
             = if decide (n ∈ List.map fst ts) then None else fds w !! n)
  /\ (forall p, files (release ts w) !! p
                = if decide (p ∈ List.map snd ts) then None else files w !! p).
Proof.
  revert w. induction ts as [|t ts IH]; intros w; cbn [release List.map].
  { split; intros x; case_decide; try done;
      match goal with H : _ ∈ [] |- _ => by apply elem_of_nil in H end. }
  destruct (IH (release_one t w)) as [Hd Hf]. split.
  - intros n. rewrite Hd. unfold release_one. cbn [fds set_files set_fds].
    destruct (decide (n ∈ List.map fst ts)) as [Hin|Hnin];
      destruct (decide (n ∈ fst t :: List.map fst ts)) as [Hin'|Hnin'];
      rewrite ?elem_of_cons in *; try tauto.
    + destruct Hin' as [->|]; [|done]. apply lookup_delete_eq.
    + apply lookup_delete_ne. intros E. apply Hnin'. by left.
  - intros p. rewrite Hf. unfold release_one. cbn [files set_files set_fds].
    destruct (decide (p ∈ List.map snd ts)) as [Hin|Hnin];
      destruct (decide (p ∈ snd t :: List.map snd ts)) as [Hin'|Hnin'];
      rewrite ?elem_of_cons in *; try tauto.
    + destruct Hin' as [->|]; [|done]. apply lookup_delete_eq.
    + apply lookup_delete_ne. intros E. apply Hnin'. by left.
Qed.

Lemma release_order_permutation l : release_order l ≡ₚ temporaries l.
Proof.
  unfold release_order, temporaries. rewrite app_assoc.
  rewrite (Permutation_app_comm _ [train l; test l; model_tmp l; out l]).
  apply Permutation_app; [|reflexivity].
  do 2 apply perm_skip. apply perm_swap.
Qed.

Lemma bind_unit_ret (m : M unit) w : bind m (fun _ => ret tt) w = m w.
Proof. unfold bind, ret. by destruct (m w) as [[e|[]] w']. Qed.

(** *** Computations that launch nothing *)

Lemma quiet_ret {A} (x : A) : quiet (ret x).
Proof. by intros w. Qed.

Lemma quiet_raise {A} e : quiet (@raise A e).
Proof. by intros w. Qed.

Lemma quiet_lift {A} (r : exn + A) : quiet (lift r).
Proof. destruct r; [apply quiet_raise|apply quiet_ret]. Qed.

Lemma quiet_bind {A B} (m : M A) (k : A -> M B) :
  quiet m -> (forall x, quiet (k x)) -> quiet (bind m k).
Proof.
  intros Hm Hk w. unfold bind. specialize (Hm w).
  destruct (m w) as [[e|x] w1]; [exact Hm|]. cbn [snd] in Hm.
  by rewrite (Hk x w1).
Qed.

Lemma quiet_mkstemp dir : quiet (mkstemp dir).
Proof.
  intros w. destruct (mkstemp dir w) as [[e|[fd p]] w'] eqn:E; cbn [snd].
  - by apply mkstemp_inl in E as (_ & _ & _ & ? & _).
  - by apply mkstemp_world in E as (_ & _ & _ & _ & _ & ? & _).
Qed.

Lemma quiet_write_file p text : quiet (write_file p text).
Proof. by intros w. Qed.

Lemma quiet_os_close fd : quiet (os_close fd).
Proof. intros w. unfold os_close. by destruct (fds w !! fd). Qed.

Lemma quiet_os_remove p : quiet (os_remove p).
Proof. intros w. unfold os_remove. by destruct (files w !! p). Qed.

Lemma quiet_release_all ts : quiet (release_all ts).
Proof.
  induction ts as [|[fd p] ts IH]; cbn [release_all]; [apply quiet_ret|].
  apply quiet_bind; [apply quiet_os_close|intros _].
  apply quiet_bind; [apply quiet_os_remove|intros _]. exact IH.
Qed.

Lemma try_names_place dir names :
  forall w fd p w',
    try_names dir names w = (inr (fd, p), w') ->
    cwd w' = cwd w /\ tempdir w' = tempdir w
    /\ (forall n, In n (tmp_names w') -> In n names)
    /\ exists n, In n names /\ p = path_join dir ("tmp" +:+ n).
Proof.
  induction names as [|n ns IH]; intros w fd p w'; cbn [try_names].
  { discriminate. }
  unfold open_excl. cbn [dirs files fds set_tmp_names].
  destruct (negb _); [discriminate|].
  destruct (_ || _).
  { intros H. apply IH in H as (Hc & Ht & Hn & m & Hm & ->). cbn in Hc, Ht.
    split; [done|]. split; [done|]. split; [intros k Hk; right; auto|].
    exists m. split; [by right|done]. }
  destruct (lowest_fd _); [|discriminate].
  intros H. inversion H; subst. cbn.
  split; [done|]. split; [done|]. split; [intros k Hk; by right|].
  exists n. split; [by left|done].
Qed.

Lemma same_place_refl w : same_place w w.
Proof. by repeat split. Qed.

Lemma same_place_write w0 w f : same_place w0 w -> same_place w0 (set_files f w).
Proof. intros H. exact H. Qed.

(** A file made by [mkstemp] lies in the directory computed at the start. *)
Lemma mkstemp_place dir w0 w t w' :
  same_place w0 w ->
  mkstemp dir w = (inr t, w') ->
  same_place w0 w'
  /\ exists d name,
       fst (directory_of dir w0) = inr d
       /\ snd t = path_join d ("tmp" +:+ name)
       /\ In name (tmp_names w0).
Proof.
  intros (Hc & Ht & Hn). rewrite mkstemp_unfold.
  assert (Hd : fst (directory_of dir w) = fst (directory_of dir w0)).
  { unfold directory_of, bind, abspath, gettempdir, ret.
    destruct dir; cbn; rewrite ?Hc, ?Ht; [done|].
    destruct (tempdir w0); cbn; by rewrite ?Hc. }
  destruct (directory_of dir w) as [[e|d] w1] eqn:Ed; [discriminate|].
  apply mkstemp_dir_inr in Ed as ->.
  destruct (try_names _ _ _) as [[e|[fd p]] w2] eqn:Et; [discriminate|].
  intros H. inversion H; subst. cbn [fst snd] in *.
  apply try_names_place in Et as (Hc2 & Ht2 & Hn2 & n & Hin & ->).
  split.
  - repeat split; cbn; [congruence|congruence|]. intros k Hk. auto.
  - exists d, n. split; [done|]. split; [done|]. auto.
Qed.

(** *** When [run] raises *)

Lemma bind_inl {A B} (m : M A) (k : A -> M B) w e w2 :
  bind m k w = (inl e, w2) ->
  m w = (inl e, w2)
  \/ exists x w1, m w = (inr x, w1) /\ k x w1 = (inl e, w2).
Proof.
  unfold bind. destruct (m w) as [[e'|x] w1]; intros H.
  - left. by inversion H.
  - right. eauto.
Qed.

Lemma allocated_mkstemp_inl dir w0 w ts e w' :
  allocated w0 w ts ->
  mkstemp dir w = (inl e, w') ->
  allocated w0 w' ts.
Proof.
  intros (Hc & Nf & Np & Ht & Hd & Hf & Hl & He) Hm.
  apply mkstemp_inl in Hm as (Ef & Ed & Ec & El & Ee).
  unfold allocated. rewrite Ef, Ed, Ec, El, Ee.
  repeat split; try done; by apply Ht.
Qed.

(** The last file of the list is still open when the release of the list
    raises, provided it was open and present at the start. *)
Lemma release_all_keeps_last ts t p :
  forall w e w',
    ~ In (fst t) (List.map fst ts) -> ~ In (snd t) (List.map snd ts) ->
    fds w !! fst t = Some p -> is_Some (files w !! snd t) ->
    release_all (ts ++ [t]) w = (inl e, w') ->
    fds w' !! fst t = Some p.
Proof.
  induction ts as [|[fd1 p1] ts IH]; intros w e w' Hnf Hnp Hd Hf.
  - destruct t as [fd0 p0]. cbn [app release_all fst snd] in *.
    unfold bind, os_close, os_remove, ret. rewrite Hd. cbn [set_fds files].
    destruct Hf as [v ->]. discriminate.
  - cbn [app release_all List.map fst snd] in *.
    unfold bind at 1. unfold os_close at 1.
    destruct (fds w !! fd1) eqn:E1.
    2:{ intros H. by inversion H; subst. }
    unfold bind at 1. unfold os_remove at 1. cbn [set_fds files].
    destruct (files w !! p1) eqn:E2.
    2:{ intros H. inversion H; subst. cbn [set_fds fds].
        rewrite lookup_delete_ne; [done|]. intros ->. apply Hnf. by left. }
    apply IH.
    + intros Hin. apply Hnf. by right.
    + intros Hin. apply Hnp. by right.
    + cbn [set_files set_fds fds]. rewrite lookup_delete_ne; [done|].
      intros ->. apply Hnf. by left.
    + cbn [set_files set_fds files]. rewrite lookup_delete_ne; [done|].
      intros ->. apply Hnp. by left.
Qed.

Lemma release_all_created ts :
  forall w, created (snd (release_all ts w)) = created w.
Proof.
  induction ts as [|[fd p] ts IH]; intros w; cbn [release_all]; [done|].
  unfold bind at 1. unfold os_close at 1.
  destruct (fds w !! fd); [|done].
  unfold bind at 1. unfold os_remove at 1. cbn [set_fds files].
  destruct (files w !! p); [|done]. by rewrite IH.
Qed.

(** A temporary file handed out since [w] whose descriptor is open in [w']
    has not been released. *)
Lemma open_descriptor_leaks w w' ts t :
  created w' = created w ++ ts ->
  In t ts -> is_Some (fds w' !! fst t) ->
  ~ no_leak w w'.
Proof.
  intros Hc Hin [v Hv] (new & Hc' & Hrel).
  rewrite Hc in Hc'. apply app_inv_head in Hc'. subst new.
  destruct t as [fd p]. destruct (Hrel fd p Hin) as [_ Hd].
  cbn in Hv. congruence.
Qed.

Section RunBehaviour.

Context {Features Targets DataFrame : Type}.
Variable svmlight : Features -> Targets -> exn + string.
Variable read_csv : string -> exn + DataFrame.
Variable sh : shell_effect.

(** The second half of [run] is the call, then the reading, then the
    cleanup; a failure of the reading ends [run] before any cleanup. *)
Lemma invoke_and_parse_decomposed self (xv : option Features)
    (yv : option Targets) l w :
  invoke_and_parse read_csv sh self xv yv l w
  = match read_back read_csv self l (files (after_call sh l w)) with
    | inl e => (inl e, after_call sh l w)
    | inr r =>
        match cleanup self xv yv l (after_call sh l w) with
        | (inl e, w') => (inl e, w')
        | (inr _, w') => (inr r, w')
        end
    end.
Proof using Type.
  clear svmlight.
  unfold invoke_and_parse, read_back. rewrite bind_call.
  fold (after_call sh l w). generalize (after_call sh l w). clear w. intros w.
  rewrite bind_read_text. destruct (files w !! snd (out l)); [|reflexivity].
  rewrite bind_lift. destruct (parse_predictions _) as [|preds]; [reflexivity|].
  rewrite bind_read_text.
  destruct (files w !! snd (model_tmp l)); [|reflexivity].
  rewrite bind_lift. destruct (parse_model _) as [|st]; [reflexivity|].
  rewrite bind_lift. destruct (np_matrix _) as [|pairwise]; [reflexivity|].
  unfold cleanup. destruct (__rlog self).
  - rewrite bind_assoc, bind_bound.
    destruct (rlog_tmp l) as [[rlog_fd rlog_path]|]; [|reflexivity].
    rewrite bind_assoc, bind_read_raw.
    destruct (files w !! rlog_path); [|reflexivity].
    rewrite bind_assoc, bind_lift. destruct (read_csv _) as [|frame]; [reflexivity|].
    rewrite <- bind_then_ret. rewrite !bind_assoc, bind_bound.
    repeat first [ reflexivity
                 | rewrite bind_assoc
                 | rewrite bind_ret_l
                 | apply bind_ext; intros ? ? ].
  - rewrite <- bind_then_ret, !bind_ret_l.
    repeat first [ reflexivity
                 | rewrite bind_assoc
                 | rewrite bind_ret_l
                 | apply bind_ext; intros ? ? ].
Qed.

Ltac split_fresh :=
  repeat match goal with
         | H : <[_ := _]> _ !! _ = None |- _ =>
             apply lookup_insert_None in H as [? ?]
         end.

Ltac lookup_inserted :=
  repeat first [ rewrite lookup_insert_eq
               | rewrite lookup_insert_ne by congruence ].

(** The first half of [run], when it returns, has made the [temporaries]
    and changed nothing else; the train and test files hold the dumped data
    and the output, model and log files are empty. *)
Lemma build_command_allocated self xt yt xs ys xv yv w l w1 :
  build_command svmlight self xt yt xs ys xv yv w = (inr l, w1) ->
  allocated w w1 (temporaries l)
  /\ (exists text, svmlight xt yt = inr text
                   /\ files w1 !! snd (train l) = Some text)
  /\ (exists text, svmlight xs ys = inr text
                   /\ files w1 !! snd (test l) = Some text)
  /\ files w1 !! snd (out l) = Some EmptyString
  /\ files w1 !! snd (model_tmp l) = Some EmptyString
  /\ (forall t, rlog_tmp l = Some t -> files w1 !! snd t = Some EmptyString).
Proof using Type.
  clear read_csv sh DataFrame.
  unfold build_command. intros H.
  apply bind_inr in H as ([train_fd train_path] & w1' & H1 & H).
  apply bind_inr in H as ([test_fd test_path] & w2 & H2 & H).
  apply bind_inr in H as ([out_fd out_path] & w3 & H3 & H).
  apply bind_inr in H as ([model_fd model_path] & w4 & H4 & H).
  apply bind_inr in H as (u5 & w5 & H5 & H).
  apply bind_inr in H as (u6 & w6 & H6 & H).
  apply bind_inr in H as ([rl a7] & w7 & H7 & H).
  apply bind_inr in H as ([vl a8] & w8 & H8 & H).
  apply ret_inr in H as [<- <-].
  cbn [train test out model_tmp rlog_tmp validation_tmp fst snd temporaries].
  pose proof (allocated_refl w) as A0.
  pose proof (allocated_mkstemp _ _ _ _ _ _ _ A0 H1) as A1.
  pose proof (allocated_mkstemp _ _ _ _ _ _ _ A1 H2) as A2.
  pose proof (allocated_mkstemp _ _ _ _ _ _ _ A2 H3) as A3.
  pose proof (allocated_mkstemp _ _ _ _ _ _ _ A3 H4) as A4.
  cbn [app] in A4. clear A0 A1 A2 A3.
  apply mkstemp_world in H1 as (F1 & _ & Hf1 & _).
  apply mkstemp_world in H2 as (F2 & _ & Hf2 & _).
  apply mkstemp_world in H3 as (F3 & _ & Hf3 & _).
  apply mkstemp_world in H4 as (F4 & _ & Hf4 & _).
  apply dump_inr in H5 as (t5 & Ht5 & ->).
  apply dump_inr in H6 as (t6 & Ht6 & ->).
  assert (A6 : allocated w
                 (set_files (<[test_path:=t6]>
                    (files (set_files (<[train_path:=t5]> (files w4)) w4)))
                    (set_files (<[train_path:=t5]> (files w4)) w4))
                 [(train_fd, train_path); (test_fd, test_path);
                  (out_fd, out_path); (model_fd, model_path)]).
  { apply allocated_write; [apply allocated_write; [done|]|]; cbn; tauto. }
  set (w6 := set_files _ (set_files _ w4)) in *.
  assert (Hf6 : files w6
                = <[test_path:=t6]> (<[train_path:=t5]>
                    (<[model_path:=EmptyString]> (<[out_path:=EmptyString]>
                       (<[test_path:=EmptyString]>
                          (<[train_path:=EmptyString]> (files w))))))).
  { subst w6. cbn. by rewrite Hf4, Hf3, Hf2, Hf1. }
  rewrite Hf1 in F2. rewrite Hf2, Hf1 in F3. rewrite Hf3, Hf2, Hf1 in F4.
  clearbody w6. clear Hf1 Hf2 Hf3 Hf4 A4 w1' w2 w3 w4. split_fresh.
  assert (R7 : allocated w w7
                 ([(train_fd, train_path); (test_fd, test_path);
                   (out_fd, out_path); (model_fd, model_path)]
                  ++ option_list rl)
               /\ (forall q v, files w6 !! q = Some v -> files w7 !! q = Some v)
               /\ (forall t, rl = Some t -> files w7 !! snd t = Some EmptyString)).
  { destruct (__rlog self).
    - apply bind_inr in H7 as ([rlog_fd rlog_path] & w7' & H7 & Hr).
      apply ret_inr in Hr as [Hr <-]. inversion Hr; subst.
      split; [exact (allocated_mkstemp _ _ _ _ _ _ _ A6 H7)|].
      apply mkstemp_world in H7 as (F7 & _ & Hf7 & _).
      split.
      + intros q v Hq. rewrite Hf7, lookup_insert_ne; [done|congruence].
      + intros t [= <-]. cbn. rewrite Hf7. apply lookup_insert_eq.
    - apply ret_inr in H7 as [Hr <-]. inversion Hr; subst.
      cbn [option_list]. rewrite app_nil_r. split; [done|]. split; [done|].
      discriminate. }
  destruct R7 as (A7 & K7 & E7). clear H7 A6.
  assert (R8 : allocated w w8
                 ([(train_fd, train_path); (test_fd, test_path);
                   (out_fd, out_path); (model_fd, model_path)]
                  ++ option_list rl ++ option_list vl)
               /\ (forall q v, files w7 !! q = Some v -> files w8 !! q = Some v)).
  { destruct (__learning_method self =? "sgda")%string;
      [destruct xv as [xv'|]; [destruct yv as [yv'|]|]|].
    - apply bind_inr in H8 as ([validation_fd validation_path] & w8' & H8 & Hr).
      apply bind_inr in Hr as (u & w8'' & Hd & Hr).
      apply ret_inr in Hr as [Hr <-]. inversion Hr; subst.
      apply dump_inr in Hd as (text & Ht & ->).
      pose proof (allocated_mkstemp _ _ _ _ _ _ _ A7 H8) as A8.
      rewrite <- app_assoc in A8.
      split.
      + apply allocated_write; [done|]. rewrite !map_app, !in_app_iff.
        cbn. tauto.
      + apply mkstemp_world in H8 as (F8 & _ & Hf8 & _).
        intros q v Hq. cbn. rewrite Hf8.
        rewrite !lookup_insert_ne; [done|congruence..].
    - apply ret_inr in H8 as [Hr <-]. inversion Hr; subst.
      cbn [option_list]. by rewrite !app_nil_r.
    - apply ret_inr in H8 as [Hr <-]. inversion Hr; subst.
      cbn [option_list]. by rewrite !app_nil_r.
    - apply ret_inr in H8 as [Hr <-]. inversion Hr; subst.
      cbn [option_list]. by rewrite !app_nil_r. }
  destruct R8 as (A8 & K8). clear H8.
  split; [exact A8|].
  split. { exists t5. split; [done|]. apply K8, K7. rewrite Hf6.
           by lookup_inserted. }
  split. { exists t6. split; [done|]. apply K8, K7. rewrite Hf6.
           by lookup_inserted. }
  split. { apply K8, K7. rewrite Hf6. by lookup_inserted. }
  split. { apply K8, K7. rewrite Hf6. by lookup_inserted. }
  intros t Ht. apply K8. by apply E7.
Qed.

(** The cleanup of [run] is the release of the temporary files in the
    order log, validation, train, test, model, output. *)
Lemma cleanup_release_all self (xv : option Features) (yv : option Targets) l w :
  guarded self xv yv l ->
  cleanup self xv yv l w = release_all (release_order l) w.
Proof using Type.
  clear svmlight read_csv sh DataFrame.
  intros [Hr Hv]. unfold cleanup, release_order.
  destruct l as [[tf tp] [sf sp] [outf outp] [mf mp] rl vl a].
  cbn [train test out model_tmp rlog_tmp validation_tmp fst snd] in *.
  destruct (__rlog self), (with_validation self xv yv);
    repeat match goal with
           | H : is_Some _ |- _ => destruct H as [[? ?] ->]
           | H : _ = None |- _ => rewrite H
           end;
    cbn [option_list app release_all bound];
    repeat first [ reflexivity
                 | rewrite bind_assoc
                 | rewrite bind_ret_l
                 | rewrite bind_unit_ret
                 | apply bind_ext; intros ? ? ].
Qed.

Lemma build_command_guarded self xt yt xs ys xv yv w l w1 :
  build_command svmlight self xt yt xs ys xv yv w = (inr l, w1) ->
  guarded self xv yv l.
Proof using Type.
  clear read_csv sh DataFrame.
  intros H. apply build_command_inr in H as (_ & Hr & Hv & _).
  split; [exact Hr|]. destruct (with_validation self xv yv); [|exact Hv].
  destruct Hv as (fd & p & ? & ? & ? & -> & _). by eexists.
Qed.

(** [run] as its three stages: the first half, the reading of what the
    command left, and the release of the temporary files. *)
Lemma run_decomposed self xt yt xs ys xv yv w :
  run svmlight read_csv sh self xt yt xs ys xv yv w
  = match build_command svmlight self xt yt xs ys xv yv w with
    | (inl e, w1) => (inl e, w1)
    | (inr l, w1) =>
        match read_back read_csv self l (files (after_call sh l w1)) with
        | inl e => (inl e, after_call sh l w1)
        | inr r =>
            match release_all (release_order l) (after_call sh l w1) with
            | (inl e, w') => (inl e, w')
            | (inr _, w') => (inr r, w')
            end
        end
    end.
Proof.
  unfold run, bind.
  destruct (build_command _ _ _ _ _ _ _ _ w) as [[e|l] w1] eqn:E; [done|].
  rewrite invoke_and_parse_decomposed.
  by rewrite (cleanup_release_all _ _ _ _ _ (build_command_guarded _ _ _ _ _ _ _ _ _ _ E)).
Qed.

(** X6. When reading the files back fails (a missing or unparsable output,
    model or log file), [run] raises that exception at once: the state is
    the one the command left, so no temporary file has been closed or
    removed. *)
Theorem reading_failure_skips_cleanup self xt yt xs ys xv yv w l w1 e :
  build_command svmlight self xt yt xs ys xv yv w = (inr l, w1) ->
  read_back read_csv self l (files (after_call sh l w1)) = inl e ->
  run svmlight read_csv sh self xt yt xs ys xv yv w
  = (inl e, after_call sh l w1).
Proof.
  intros Hb Hr. by rewrite run_decomposed, Hb, Hr.
Qed.


Lemma live_after_call l w w1 :
  allocated w w1 (temporaries l) ->
  keeps sh (join " " (args l)) (files w1) (List.map snd (temporaries l)) ->
  live (after_call sh l w1) (release_order l).
Proof using Type.
  clear svmlight read_csv DataFrame.
  intros (_ & Nf & Np & Ht & _) Hk.
  unfold live. rewrite !(release_order_permutation l).
  split; [done|]. split; [done|]. intros t Hin.
  apply list_elem_of_In in Hin. rewrite (release_order_permutation l) in Hin.
  apply list_elem_of_In in Hin.
  destruct (Ht t Hin) as (_ & _ & Hd & Hf). cbn [after_call fds files].
  split; [by eexists|]. apply Hk; [by apply in_map|done].
Qed.

Lemma run_returns_when_live self xt yt xs ys xv yv w l w1 r :
  build_command svmlight self xt yt xs ys xv yv w = (inr l, w1) ->
  keeps sh (join " " (args l)) (files w1) (List.map snd (temporaries l)) ->
  read_back read_csv self l (files (after_call sh l w1)) = inr r ->
  run svmlight read_csv sh self xt yt xs ys xv yv w
  = (inr r, release (release_order l) (after_call sh l w1)).
Proof.
  intros Hb Hk Hr. rewrite run_decomposed, Hb, Hr.
  apply build_command_allocated in Hb as [Ha _].
  by rewrite (release_all_live _ _ (live_after_call _ _ _ Ha Hk)).
Qed.

(** X8. [run] returns the value read back from the files whenever the
    first half succeeded, the command deleted none of the temporary files,
    and the reading succeeds: the cleanup then never raises. *)
Theorem run_returns self xt yt xs ys xv yv w l w1 r :
  build_command svmlight self xt yt xs ys xv yv w = (inr l, w1) ->
  keeps sh (join " " (args l)) (files w1) (List.map snd (temporaries l)) ->
  read_back read_csv self l (files (after_call sh l w1)) = inr r ->
  run svmlight read_csv sh self xt yt xs ys xv yv w
  = (inr r, release (release_order l) (after_call sh l w1)).
Proof. apply run_returns_when_live. Qed.

Lemma run_success_state self xt yt xs ys xv yv w l w1 r :
  build_command svmlight self xt yt xs ys xv yv w = (inr l, w1) ->
  fst (run svmlight read_csv sh self xt yt xs ys xv yv w) = inr r ->
  snd (run svmlight read_csv sh self xt yt xs ys xv yv w)
  = release (release_order l) (after_call sh l w1).
Proof.
  intros Hb. rewrite run_decomposed, Hb.
  destruct (read_back _ _ _ _) as [e|r']; [discriminate|].
  destruct (release_all _ _) as [[e|u] w'] eqn:E; [discriminate|].
  intros _. exact (release_all_inr _ _ _ _ E).
Qed.

Lemma elem_of_release_order (f : Z * string -> string) l x :
  x ∈ List.map f (release_order l) <-> In x (List.map f (temporaries l)).
Proof.
  rewrite <- list_elem_of_In.
  by rewrite (Permutation_map f (release_order_permutation l)).
Qed.

Lemma elem_of_release_order_fst l (x : Z) :
  x ∈ List.map fst (release_order l) <-> In x (List.map fst (temporaries l)).
Proof.
  rewrite <- list_elem_of_In.
  by rewrite (Permutation_map fst (release_order_permutation l)).
Qed.

(** X9. A [run] that returns leaves the table of open descriptors and the
    environment exactly as it found them; its temporary files are recorded
    as created and its one command as launched. *)
Theorem run_restores_descriptors self xt yt xs ys xv yv w l w1 r :
  build_command svmlight self xt yt xs ys xv yv w = (inr l, w1) ->
  fst (run svmlight read_csv sh self xt yt xs ys xv yv w) = inr r ->
  let w' := snd (run svmlight read_csv sh self xt yt xs ys xv yv w) in
  fds w' = fds w
  /\ environ w' = environ w
  /\ created w' = created w ++ temporaries l
  /\ launched w' = launched w ++ [join " " (args l)].
Proof.
  intros Hb Hr. cbv zeta. rewrite (run_success_state _ _ _ _ _ _ _ _ _ _ _ Hb Hr).
  apply build_command_allocated in Hb as [(Hc & _ & _ & Ht & Hd & _ & Hl & He) _].
  destruct (release_fields (release_order l) (after_call sh l w1))
    as (-> & _ & -> & ->).
  cbn [after_call environ created launched].
  split; [|by rewrite He, Hc, Hl].
  apply map_eq. intros n.
  rewrite (proj1 (release_lookup _ _)). cbn [after_call fds].
  case_decide as Hin; rewrite elem_of_release_order_fst in Hin.
  - apply in_map_iff in Hin as (t & <- & Hin). symmetry. by apply Ht.
  - by apply Hd.
Qed.

(** X10. If moreover the command changed no file other than the temporary
    ones, a [run] that returns leaves the files exactly as it found
    them. *)
Theorem run_restores_files self xt yt xs ys xv yv w l w1 r :
  build_command svmlight self xt yt xs ys xv yv w = (inr l, w1) ->
  fst (run svmlight read_csv sh self xt yt xs ys xv yv w) = inr r ->
  confined sh (join " " (args l)) (files w1) (List.map snd (temporaries l)) ->
  files (snd (run svmlight read_csv sh self xt yt xs ys xv yv w)) = files w.
Proof.
  intros Hb Hr Hc. rewrite (run_success_state _ _ _ _ _ _ _ _ _ _ _ Hb Hr).
  apply build_command_allocated in Hb as [(_ & _ & _ & Ht & _ & Hf & _) _].
  apply map_eq. intros p.
  rewrite (proj2 (release_lookup _ _)). cbn [after_call files].
  case_decide as Hin; rewrite (elem_of_release_order snd) in Hin.
  - apply in_map_iff in Hin as (t & <- & Hin). symmetry. by apply Ht.
  - rewrite (Hc p Hin). by apply Hf.
Qed.

Lemma quiet_dump X y f : quiet (dump_svmlight_file svmlight X y f).
Proof using Type.
  apply quiet_bind; [apply quiet_lift|intros text; apply quiet_write_file].
Qed.

Lemma quiet_build_command self xt yt xs ys xv yv :
  quiet (build_command svmlight self xt yt xs ys xv yv).
Proof using Type.
  unfold build_command.
  repeat first
    [ apply quiet_ret | apply quiet_mkstemp | apply quiet_dump
    | apply quiet_bind; [|intros ?]
    | match goal with
      | |- quiet (let '(_, _) := ?p in _) => destruct p
      | |- quiet (if ?b then _ else _) => destruct b
      | |- quiet (match ?x with Some _ => _ | None => _ end) => destruct x
      end ].
Qed.

Lemma run_launched self xt yt xs ys xv yv w :
  launched (snd (run svmlight read_csv sh self xt yt xs ys xv yv w))
  = launched w
    ++ match fst (build_command svmlight self xt yt xs ys xv yv w) with
       | inr l => [join " " (args l)]
       | inl _ => []
       end.
Proof.
  rewrite run_decomposed.
  pose proof (quiet_build_command self xt yt xs ys xv yv w) as Hq.
  destruct (build_command _ _ _ _ _ _ _ _ w) as [[e|l] w1]; cbn [fst snd] in *.
  { by rewrite app_nil_r. }
  destruct (read_back _ _ _ _) as [e|r].
  { cbn [snd after_call launched]. by rewrite Hq. }
  pose proof (quiet_release_all (release_order l) (after_call sh l w1)) as Hr.
  destruct (release_all _ _) as [[e|u] w']; cbn [snd] in *;
    rewrite Hr; cbn [after_call launched]; by rewrite Hq.
Qed.

(** X11. [run] launches exactly one command, the arguments joined by single
    spaces, when its first half succeeds, whatever happens afterwards; and
    it launches nothing when the first half raises. *)
Theorem run_launches_one_command self xt yt xs ys xv yv w :
  launched (snd (run svmlight read_csv sh self xt yt xs ys xv yv w))
  = launched w
    ++ match fst (build_command svmlight self xt yt xs ys xv yv w) with
       | inr l => [join " " (args l)]
       | inl _ => []
       end.
Proof. apply run_launched. Qed.

(** X12. The argument list [run] builds is the program path, the ten
    mandatory arguments in the order task, train, test, dim, init_stdev,
    iter, method, out, verbosity, save_model, and then, each only when its
    test holds, rlog, learn_rate, regular, validation and the redirection
    of the output. *)
Theorem argument_list_in_order self xt yt xs ys xv yv w l :
  fst (build_command svmlight self xt yt xs ys xv yv w) = inr l ->
  args l = command self (snd (train l)) (snd (test l)) (snd (out l))
                   (snd (model_tmp l))
                   (snd <$> rlog_tmp l) (snd <$> validation_tmp l).
Proof using Type.
  clear read_csv sh DataFrame.
  destruct (build_command _ _ _ _ _ _ _ _ _) as [r w'] eqn:E.
  cbn [fst]. intros ->. by apply build_command_inr in E as (-> & _).
Qed.

(** X13. The redirection " &> /dev/null" is the last argument exactly when
    the object is silent. *)
Theorem redirect_is_last_iff_silent self xt yt xs ys xv yv w l :
  fst (build_command svmlight self xt yt xs ys xv yv w) = inr l ->
  last (args l) = Some " &> /dev/null" <-> __silent self = true.
Proof using Type.
  clear read_csv sh DataFrame.
  destruct (build_command _ _ _ _ _ _ _ _ _) as [r w'] eqn:E.
  cbn [fst]. intros ->. apply build_command_inr in E as (-> & _).
  unfold command.
  generalize (fmt_f (__learn_rate self)) (fmt_d (__verbose self))
             (fmt_d (__num_iter self)) (fmt_g (__init_stdev self)).
  intros v1 v2 v3 v4.
  destruct (in_list (__learning_method self) ["sgd"; "sgda"]),
           (in_list (__learning_method self) ["sgd"; "sgda"; "als"]),
           (__silent self),
           (rlog_tmp l) as [[? ?]|], (validation_tmp l) as [[? ?]|];
    cbn [fmap option_fmap option_map opt_arg app snd last];
    (split; [|done || discriminate]); try done;
    intros [= H]; apply (f_equal (fun s => startswith s " ")) in H;
    discriminate H.
Qed.

(** X14. The validation arguments are read only when the method is sgda
    and both are given: otherwise [run] behaves as if neither were
    given. *)
Theorem validation_ignored_unless_sgda_and_both self xt yt xs ys
    (xv : option Features) (yv : option Targets) w :
  with_validation self xv yv = false ->
  run svmlight read_csv sh self xt yt xs ys xv yv w
  = run svmlight read_csv sh self xt yt xs ys None None w.
Proof.
  unfold run, build_command, invoke_and_parse, with_validation.
  destruct (__learning_method self =? "sgda")%string;
    destruct xv as [x|], yv as [y|]; try reflexivity.
  discriminate.
Qed.

(** X15. For a method other than sgd, sgda and als (mcmc, say) neither the
    learning rate nor the regularization of the object reaches [run]: two
    objects that differ in them only behave alike. *)
Theorem learn_rate_and_regularization_ignored self (rate : float)
    (reg : string) xt yt xs ys xv yv w :
  in_list (__learning_method self) ["sgd"; "sgda"; "als"] = false ->
  run svmlight read_csv sh (with_learn_rate rate (with_regularization reg self))
      xt yt xs ys xv yv w
  = run svmlight read_csv sh self xt yt xs ys xv yv w.
Proof.
  intros H.
  assert (H' : in_list (__learning_method self) ["sgd"; "sgda"] = false).
  { revert H. unfold in_list. cbn [existsb].
    destruct (_ =? "sgd")%string, (_ =? "sgda")%string; by try discriminate. }
  unfold run, build_command, invoke_and_parse, with_validation.
  cbn [with_learn_rate with_regularization __task __num_iter __init_stdev
       __dim __learning_method __learn_rate __regularization __rlog
       __verbose __silent __temp_path __libfm_path].
  by rewrite H, H'.
Qed.

(** Every temporary file of the first half is the value of a call
    [mkstemp(dir=self.__temp_path)] made where the working directory and
    the temporary directory are those of the start. *)
Lemma build_command_places self xt yt xs ys xv yv w l w1 :
  build_command svmlight self xt yt xs ys xv yv w = (inr l, w1) ->
  forall t, In t (temporaries l) ->
  exists wa wb,
    same_place w wa /\ mkstemp (__temp_path self) wa = (inr t, wb).
Proof using Type.
  clear read_csv sh DataFrame.
  unfold build_command. intros H.
  apply bind_inr in H as ([train_fd train_path] & w1' & H1 & H).
  apply bind_inr in H as ([test_fd test_path] & w2 & H2 & H).
  apply bind_inr in H as ([out_fd out_path] & w3 & H3 & H).
  apply bind_inr in H as ([model_fd model_path] & w4 & H4 & H).
  apply bind_inr in H as (u5 & w5 & H5 & H).
  apply bind_inr in H as (u6 & w6 & H6 & H).
  apply bind_inr in H as ([rl a7] & w7 & H7 & H).
  apply bind_inr in H as ([vl a8] & w8 & H8 & H).
  apply ret_inr in H as [<- <-].
  cbn [train test out model_tmp rlog_tmp validation_tmp fst snd temporaries].
  pose proof (same_place_refl w) as P0.
  destruct (mkstemp_place _ _ _ _ _ P0 H1) as [P1 _].
  destruct (mkstemp_place _ _ _ _ _ P1 H2) as [P2 _].
  destruct (mkstemp_place _ _ _ _ _ P2 H3) as [P3 _].
  destruct (mkstemp_place _ _ _ _ _ P3 H4) as [P4 _].
  apply dump_inr in H5 as (t5 & _ & ->).
  apply dump_inr in H6 as (t6 & _ & ->).
  assert (P6 := same_place_write _ _ (<[test_path:=t6]>
                  (files (set_files (<[train_path:=t5]> (files w4)) w4)))
                  (same_place_write _ _ (<[train_path:=t5]> (files w4)) P4)).
  set (w6 := set_files _ (set_files _ w4)) in *. clearbody w6.
  assert (R7 : same_place w w7
               /\ forall t, In t (option_list rl) ->
                    exists wa wb, same_place w wa
                      /\ mkstemp (__temp_path self) wa = (inr t, wb)).
  { destruct (__rlog self).
    - apply bind_inr in H7 as ([rlog_fd rlog_path] & w7' & H7 & Hr).
      apply ret_inr in Hr as [Hr <-]. inversion Hr; subst.
      split; [exact (proj1 (mkstemp_place _ _ _ _ _ P6 H7))|].
      intros t [<-|[]]. eauto.
    - apply ret_inr in H7 as [Hr <-]. inversion Hr; subst.
      split; [done|]. intros t []. }
  destruct R7 as [P7 R7].
  assert (R8 : forall t, In t (option_list vl) ->
                 exists wa wb, same_place w wa
                   /\ mkstemp (__temp_path self) wa = (inr t, wb)).
  { destruct (__learning_method self =? "sgda")%string;
      [destruct xv as [xv'|]; [destruct yv as [yv'|]|]|].
    - apply bind_inr in H8 as ([validation_fd validation_path] & w8' & H8 & Hr).
      apply bind_inr in Hr as (u & w8'' & _ & Hr).
      apply ret_inr in Hr as [Hr _]. inversion Hr; subst.
      intros t [<-|[]]. eauto.
    - apply ret_inr in H8 as [Hr _]. inversion Hr; subst. intros t [].
    - apply ret_inr in H8 as [Hr _]. inversion Hr; subst. intros t [].
    - apply ret_inr in H8 as [Hr _]. inversion Hr; subst. intros t []. }
  intros t Hin. unfold temporaries in Hin.
  cbn [train test out model_tmp rlog_tmp validation_tmp] in Hin.
  rewrite !in_app_iff in Hin. cbn [In] in Hin.
  destruct Hin as [[<-|[<-|[<-|[<-|[]]]]]|[Hin|Hin]]; eauto.
Qed.

(** X16. Every temporary file of [run] is made by
    [mkstemp(dir=self.__temp_path)]: it lies directly in the directory
    [os.path.abspath(temp_path)] (of [tempfile.gettempdir()] when
    [temp_path] is [None]), taken where [run] starts, under the name "tmp"
    followed by one of the names the generator had in store. *)
Theorem temporaries_in_temp_path self xt yt xs ys xv yv w l t :
  fst (build_command svmlight self xt yt xs ys xv yv w) = inr l ->
  In t (temporaries l) ->
  exists dir name,
    fst (directory_of (__temp_path self) w) = inr dir
    /\ snd t = path_join dir ("tmp" +:+ name)
    /\ In name (tmp_names w).
Proof using Type.
  clear read_csv sh DataFrame.
  destruct (build_command _ _ _ _ _ _ _ _ w) as [r w1] eqn:Hb.
  cbn [fst]. intros -> Hin.
  destruct (build_command_places _ _ _ _ _ _ _ _ _ _ Hb t Hin)
    as (wa & wb & Hp & Hm).
  exact (proj2 (mkstemp_place _ _ _ _ _ Hp Hm)).
Qed.

(** X17. When the command leaves the files as they are (libFM missing or
    failing at once) and no log is asked for, [run] does not raise: it
    returns no predictions, no bias, no weights and the empty matrix. *)
Theorem run_on_untouched_files self xt yt xs ys xv yv w l w1 :
  build_command svmlight self xt yt xs ys xv yv w = (inr l, w1) ->
  __rlog self = false ->
  snd (sh (join " " (args l)) (files w1)) = files w1 ->
  fst (run svmlight read_csv sh self xt yt xs ys xv yv w) = inr empty_model.
Proof.
  intros Hb Hlog Hsame.
  rewrite (run_returns_when_live _ _ _ _ _ _ _ _ _ _ empty_model Hb); [done| |].
  - intros p _ Hp. by rewrite Hsame.
  - apply build_command_allocated in Hb as (_ & _ & _ & Ho & Hm & _).
    unfold read_back. cbn [after_call files]. rewrite Hsame, Ho, Hm, Hlog.
    reflexivity.
Qed.

(** X19. The value [run] returns has a log exactly when the object asks
    for one. *)
Theorem log_returned_iff_rlog self xt yt xs ys xv yv w r :
  fst (run svmlight read_csv sh self xt yt xs ys xv yv w) = inr r ->
  FM.rlog r = None <-> __rlog self = false.
Proof.
  rewrite run_decomposed.
  destruct (build_command _ _ _ _ _ _ _ _ w) as [[e|l] w1]; [discriminate|].
  destruct (read_back _ _ _ _) as [e|r'] eqn:Er; [discriminate|].
  destruct (release_all _ _) as [[e|u] w']; [discriminate|].
  cbn [fst]. intros [= ->]. revert Er. unfold read_back.
  repeat match goal with
         | |- context [match ?x with _ => _ end] => destruct x
         end; try discriminate; intros [= <-]; cbn; split; congruence.
Qed.

(** X20. When scikit-learn refuses the training or the test data, [run]
    raises and no command is launched. *)
Theorem refused_data_launches_nothing self xt yt xs ys xv yv w e :
  svmlight xt yt = inl e \/ svmlight xs ys = inl e ->
  is_inr (fst (run svmlight read_csv sh self xt yt xs ys xv yv w)) = false
  /\ launched (snd (run svmlight read_csv sh self xt yt xs ys xv yv w))
     = launched w.
Proof.
  intros He.
  assert (Hb : exists e' w1,
             build_command svmlight self xt yt xs ys xv yv w = (inl e', w1)).
  { destruct (build_command _ _ _ _ _ _ _ _ w) as [[e'|l] w1] eqn:E; [eauto|].
    apply build_command_allocated in E
      as (_ & (t5 & H5 & _) & (t6 & H6 & _) & _).
    destruct He; congruence. }
  destruct Hb as (e' & w1 & Hb). split.
  - by rewrite run_decomposed, Hb.
  - by rewrite run_launched, Hb, app_nil_r.
Qed.

(** *** The temporary files when [run] raises *)

Lemma dump_inl X y f w e w' :
  dump_svmlight_file svmlight X y f w = (inl e, w') ->
  svmlight X y = inl e /\ w' = w.
Proof using Type.
  clear read_csv sh DataFrame.
  unfold dump_svmlight_file, bind, lift, write_file, raise, ret.
  destruct (svmlight X y); intros H; by inversion H.
Qed.

(** When the first half of [run] raises, the temporary files made so far
    are all there, open; none was made only if the first [mkstemp] is what
    failed. *)
Lemma build_command_inl self xt yt xs ys xv yv w e w1 :
  build_command svmlight self xt yt xs ys xv yv w = (inl e, w1) ->
  exists ts,
    allocated w w1 ts
    /\ (ts = [] -> mkstemp (__temp_path self) w = (inl e, w1)).
Proof using Type.
  clear read_csv sh DataFrame.
  unfold build_command. intros H.
  apply bind_inl in H as [H|([train_fd train_path] & w1' & H1 & H)].
  { exists []. split; [|done].
    exact (allocated_mkstemp_inl _ _ _ _ _ _ (allocated_refl w) H). }
  pose proof (allocated_mkstemp _ _ _ _ _ _ _ (allocated_refl w) H1) as A1.
  cbn [app] in A1.
  apply bind_inl in H as [H|([test_fd test_path] & w2 & H2 & H)].
  { eexists. split; [exact (allocated_mkstemp_inl _ _ _ _ _ _ A1 H)|done]. }
  pose proof (allocated_mkstemp _ _ _ _ _ _ _ A1 H2) as A2. cbn [app] in A2.
  apply bind_inl in H as [H|([out_fd out_path] & w3 & H3 & H)].
  { eexists. split; [exact (allocated_mkstemp_inl _ _ _ _ _ _ A2 H)|done]. }
  pose proof (allocated_mkstemp _ _ _ _ _ _ _ A2 H3) as A3. cbn [app] in A3.
  apply bind_inl in H as [H|([model_fd model_path] & w4 & H4 & H)].
  { eexists. split; [exact (allocated_mkstemp_inl _ _ _ _ _ _ A3 H)|done]. }
  pose proof (allocated_mkstemp _ _ _ _ _ _ _ A3 H4) as A4. cbn [app] in A4.
  clear A1 A2 A3 H1 H2 H3 H4.
  apply bind_inl in H as [H|(u5 & w5 & H5 & H)].
  { apply dump_inl in H as [_ ->]. eexists. split; [exact A4|done]. }
  apply dump_inr in H5 as (t5 & _ & ->).
  assert (A5 := allocated_write _ _ _ train_path t5 A4 ltac:(cbn; tauto)).
  apply bind_inl in H as [H|(u6 & w6 & H6 & H)].
  { apply dump_inl in H as [_ ->]. eexists. split; [exact A5|done]. }
  apply dump_inr in H6 as (t6 & _ & ->).
  assert (A6 := allocated_write _ _ _ test_path t6 A5 ltac:(cbn; tauto)).
  clear A4 A5. set (w6 := set_files _ (set_files _ w4)) in *. clearbody w6.
  apply bind_inl in H as [H|([rl a7] & w7 & H7 & H)].
  { destruct (__rlog self); [|discriminate H].
    apply bind_inl in H as [H|([rlog_fd rlog_path] & w7 & _ & H)];
      [|discriminate H].
    eexists. split; [exact (allocated_mkstemp_inl _ _ _ _ _ _ A6 H)|done]. }
  assert (A7 : allocated w w7
                 ([(train_fd, train_path); (test_fd, test_path);
                   (out_fd, out_path); (model_fd, model_path)]
                  ++ option_list rl)).
  { destruct (__rlog self).
    - apply bind_inr in H7 as ([rlog_fd rlog_path] & w7' & H7 & Hr).
      apply ret_inr in Hr as [Hr <-]. inversion Hr; subst.
      exact (allocated_mkstemp _ _ _ _ _ _ _ A6 H7).
    - apply ret_inr in H7 as [Hr <-]. inversion Hr; subst.
      cbn [option_list]. by rewrite app_nil_r. }
  clear A6 H7.
  apply bind_inl in H as [H|([vl a8] & w8 & H8 & H)]; [|discriminate H].
  destruct (__learning_method self =? "sgda")%string;
    [destruct xv as [xv'|]; [destruct yv as [yv'|]|]|]; try discriminate H.
  apply bind_inl in H as [H|([validation_fd validation_path] & w8 & H8 & H)].
  { eexists. split; [exact (allocated_mkstemp_inl _ _ _ _ _ _ A7 H)|done]. }
  pose proof (allocated_mkstemp _ _ _ _ _ _ _ A7 H8) as A8.
  apply bind_inl in H as [H|(u & w9 & _ & H)]; [|discriminate H].
  apply dump_inl in H as [_ ->]. eexists. split; [exact A8|].
  intros E. apply (f_equal (@length _)) in E. rewrite !length_app in E.
  cbn in E. lia.
Qed.

(** What a successful reading has read, in the terms of the source. *)
Lemma read_back_inr self l fs r :
  read_back read_csv self l fs = inr r ->
  exists out_raw model_raw st,
    fs !! snd (out l) = Some out_raw
    /\ parse_predictions (universal_newlines out_raw) = inr (predictions r)
    /\ fs !! snd (model_tmp l) = Some model_raw
    /\ parse_model (universal_newlines model_raw) = inr st
    /\ FM.global_bias r = global_bias st
    /\ FM.weights r = weights st
    /\ np_matrix (pairwise_interactions st) = inr (FM.pairwise_interactions r).
Proof using Type.
  clear svmlight sh.
  unfold read_back. intros H.
  destruct (fs !! snd (out l)) as [out_raw|]; [|discriminate].
  destruct (parse_predictions _) as [|preds] eqn:Ep; [discriminate|].
  destruct (fs !! snd (model_tmp l)) as [model_raw|]; [|discriminate].
  destruct (parse_model _) as [|st] eqn:Em; [discriminate|].
  destruct (np_matrix _) as [|pairwise] eqn:En; [discriminate|].
  exists out_raw, model_raw, st.
  destruct (__rlog self).
  - destruct (rlog_tmp l) as [[rlog_fd rlog_path]|]; [|discriminate].
    destruct (fs !! rlog_path); [|discriminate].
    destruct (read_csv _); [discriminate|]. by injection H as <-.
  - by injection H as <-.
Qed.

Lemma release_order_last l :
  release_order l
  = (option_list (rlog_tmp l) ++ option_list (validation_tmp l)
     ++ [train l; test l; model_tmp l]) ++ [out l].
Proof using Type. unfold release_order. by rewrite <- !app_assoc. Qed.

(** Whenever [run] raises after its first half, the descriptor of the output
    file is still open. *)
Lemma run_raises_with_output_open self xt yt xs ys xv yv w l w1 e :
  build_command svmlight self xt yt xs ys xv yv w = (inr l, w1) ->
  fst (run svmlight read_csv sh self xt yt xs ys xv yv w) = inl e ->
  let w' := snd (run svmlight read_csv sh self xt yt xs ys xv yv w) in
  created w' = created w ++ temporaries l
  /\ fds w' !! fst (out l) = Some (snd (out l)).
Proof.
  intros Hb. rewrite run_decomposed, Hb. cbv zeta.
  apply build_command_allocated in Hb as [(Hc & Nf & Np & Ht & _) _].
  assert (Hin : In (out l) (temporaries l)) by (cbn; tauto).
  destruct (Ht _ Hin) as (_ & _ & Hd & _).
  destruct (read_back _ _ _ _) as [e'|r] eqn:Er.
  { intros _. cbn [snd after_call created fds]. by split. }
  pose proof (release_all_created (release_order l) (after_call sh l w1)) as Hcr.
  destruct (release_all _ _) as [[e'|u] w'] eqn:E; [|discriminate].
  intros _. cbn [snd] in *. split; [by rewrite Hcr|].
  rewrite release_order_last in E.
  assert (Hn : NoDup (List.map fst (release_order l))
               /\ NoDup (List.map snd (release_order l))).
  { by rewrite !(release_order_permutation l). }
  rewrite release_order_last, !map_app in Hn. destruct Hn as [Hn1 Hn2].
  apply NoDup_app in Hn1 as (_ & Hn1 & _). apply NoDup_app in Hn2 as (_ & Hn2 & _).
  apply read_back_inr in Er as (out_raw & _ & _ & Hout & _).
  eapply release_all_keeps_last; [| | |by eexists|exact E].
  - intros Hi. apply list_elem_of_In in Hi. rewrite !map_app in Hi.
    apply (Hn1 _ Hi). cbn. left.
  - intros Hi. apply list_elem_of_In in Hi. rewrite !map_app in Hi.
    apply (Hn2 _ Hi). cbn. left.
  - exact Hd.
Qed.

(** C3, as the code has it.  When [run] returns normally, every temporary
    file it created (train, test, output, model, and the log and validation
    files when they were made) is closed and deleted.  [run] has no handler:
    whenever it raises, a temporary file it created is left with its
    descriptor open, unless it was the very first [mkstemp] that failed.
    When its first half raises (a temporary file cannot be made, or
    [dump_svmlight_file] refuses a data set), every temporary file made so
    far is still open and present.  When the reading of the output, model or
    log file raises, the state is the one the command left: every temporary
    file is still open, and they were all present when the command was
    launched. *)
Theorem run_returns_without_temporaries self xt yt xs ys xv yv w :
  let result := run svmlight read_csv sh self xt yt xs ys xv yv w in
  (forall r, fst result = inr r -> no_leak w (snd result))
  /\ (forall e, fst result = inl e ->
        mkstemp (__temp_path self) w = (inl e, snd result)
        \/ (~ no_leak w (snd result)
            /\ exists ts t,
                 created (snd result) = created w ++ ts
                 /\ In t ts
                 /\ fds (snd result) !! fst t = Some (snd t)))
  /\ (forall e w1,
        build_command svmlight self xt yt xs ys xv yv w = (inl e, w1) ->
        result = (inl e, w1)
        /\ exists ts,
             created w1 = created w ++ ts
             /\ (forall t, In t ts ->
                   fds w1 !! fst t = Some (snd t)
                   /\ is_Some (files w1 !! snd t))
             /\ (ts = [] -> mkstemp (__temp_path self) w = (inl e, w1)))
  /\ (forall l w1 e,
        build_command svmlight self xt yt xs ys xv yv w = (inr l, w1) ->
        read_back read_csv self l (snd (sh (join " " (args l)) (files w1)))
        = inl e ->
        result = (inl e, after_call sh l w1)
        /\ created (after_call sh l w1) = created w ++ temporaries l
        /\ files (after_call sh l w1) = snd (sh (join " " (args l)) (files w1))
        /\ forall t, In t (temporaries l) ->
             fds (after_call sh l w1) !! fst t = Some (snd t)
             /\ is_Some (files w1 !! snd t)).
Proof.
  cbv zeta. split; [|split; [|split]].
  - intros r Hr. pose proof Hr as Hr'. rewrite run_decomposed in Hr'.
    destruct (build_command _ _ _ _ _ _ _ _ w) as [[e|l] w1] eqn:Hb;
      [discriminate|]. clear Hr'.
    rewrite (run_success_state _ _ _ _ _ _ _ _ _ _ _ Hb Hr).
    pose proof (build_command_allocated _ _ _ _ _ _ _ _ _ _ Hb)
      as [(Hc & Nf & Np & Ht & _) _].
    destruct (release_fields (release_order l) (after_call sh l w1))
      as (_ & _ & Hcr & _).
    exists (temporaries l). split.
    { rewrite Hcr. cbn [after_call created]. exact Hc. }
    intros fd p Hin.
    assert (Hfd : fd ∈ List.map fst (release_order l)).
    { apply elem_of_release_order_fst. by apply (in_map fst) in Hin. }
    assert (Hp : p ∈ List.map snd (release_order l)).
    { apply (elem_of_release_order snd). by apply (in_map snd) in Hin. }
    rewrite (proj1 (release_lookup _ _)), (proj2 (release_lookup _ _)).
    by rewrite !decide_True.
  - intros e He. pose proof He as He'. rewrite run_decomposed in He'.
    destruct (build_command _ _ _ _ _ _ _ _ w) as [[e'|l] w1] eqn:Hb.
    + cbn [fst] in He'. injection He' as ->.
      assert (Hrun : run svmlight read_csv sh self xt yt xs ys xv yv w
                     = (inl e, w1)) by (by rewrite run_decomposed, Hb).
      rewrite Hrun. cbn [snd].
      destruct (build_command_inl _ _ _ _ _ _ _ _ _ _ Hb) as (ts & Ha & Hts).
      destruct ts as [|t ts]; [left; by apply Hts|right].
      destruct Ha as (Hc & _ & _ & Ht & _).
      destruct (Ht t) as (_ & _ & Hd & _); [by left|].
      split; [|exists (t :: ts), t; split; [done|split; [by left|done]]].
      apply (open_descriptor_leaks _ _ _ t Hc); [by left|by eexists].
    + clear He'. right.
      destruct (run_raises_with_output_open _ _ _ _ _ _ _ _ _ _ _ Hb He)
        as [Hc Hd].
      split; [|exists (temporaries l), (out l);
               split; [done|split; [cbn; tauto|done]]].
      apply (open_descriptor_leaks _ _ _ (out l) Hc); [cbn; tauto|].
      by eexists.
  - intros e w1 Hb. split; [by rewrite run_decomposed, Hb|].
    destruct (build_command_inl _ _ _ _ _ _ _ _ _ _ Hb) as (ts & Ha & Hts).
    exists ts. destruct Ha as (Hc & _ & _ & Ht & _).
    split; [exact Hc|]. split; [|exact Hts].
    intros t Hin. by destruct (Ht t Hin) as (_ & _ & ? & ?).
  - intros l w1 e Hb Hr. split.
    { rewrite run_decomposed, Hb. cbn [after_call files]. by rewrite Hr. }
    apply build_command_allocated in Hb as [(Hc & _ & _ & Ht & _) _].
    split; [exact Hc|]. split; [reflexivity|].
    intros t Hin. by destruct (Ht t Hin) as (_ & _ & ? & ?).
Qed.

(** C6.  [run] does not look at the exit status of the command.  Two
    shells that leave the same files behind, whatever status they report,
    give the same result and the same final state.  And whatever the status
    is, [run] goes on: the command is recorded as launched, and the outcome
    of [run] is the outcome of reading the output, model and log files the
    command left, followed by the release of the temporary files; a value
    [run] returns holds the predictions parsed from the output file and the
    bias, weights and rows parsed from the model file. *)
Theorem exit_status_is_ignored (sh' : shell_effect) self xt yt xs ys xv yv w :
  ((forall cmd fs, snd (sh cmd fs) = snd (sh' cmd fs)) ->
   run svmlight read_csv sh self xt yt xs ys xv yv w
   = run svmlight read_csv sh' self xt yt xs ys xv yv w)
  /\ (forall l w1 status fs,
        build_command svmlight self xt yt xs ys xv yv w = (inr l, w1) ->
        sh (join " " (args l)) (files w1) = (status, fs) ->
        let w2 := after_call sh l w1 in
        files w2 = fs
        /\ launched w2 = launched w ++ [join " " (args l)]
        /\ run svmlight read_csv sh self xt yt xs ys xv yv w
           = match read_back read_csv self l fs with
             | inl e => (inl e, w2)
             | inr r =>
                 match release_all (release_order l) w2 with
                 | (inl e, w') => (inl e, w')
                 | (inr _, w') => (inr r, w')
                 end
             end
        /\ forall r,
             fst (run svmlight read_csv sh self xt yt xs ys xv yv w) = inr r ->
             exists out_raw model_raw st,
               fs !! snd (out l) = Some out_raw
               /\ parse_predictions (universal_newlines out_raw)
                  = inr (predictions r)
               /\ fs !! snd (model_tmp l) = Some model_raw
               /\ parse_model (universal_newlines model_raw) = inr st
               /\ FM.global_bias r = global_bias st
               /\ FM.weights r = weights st
               /\ np_matrix (pairwise_interactions st)
                  = inr (FM.pairwise_interactions r)).
Proof.
  split.
  - intros Hsh. unfold run, bind.
    destruct (build_command _ _ _ _ _ _ _ _ w) as [[e|l] w1]; [reflexivity|].
    unfold invoke_and_parse. apply bind_call_ext, Hsh.
  - intros l w1 status fs Hb Hsh. cbv zeta.
    assert (Hfs : files (after_call sh l w1) = fs).
    { cbn [after_call files]. by rewrite Hsh. }
    split; [exact Hfs|]. split.
    { cbn [after_call launched].
      pose proof (quiet_build_command self xt yt xs ys xv yv w) as Hq.
      rewrite Hb in Hq. cbn [snd] in Hq. by rewrite Hq. }
    assert (Hrun := run_decomposed self xt yt xs ys xv yv w).
    rewrite Hb, Hfs in Hrun. split; [exact Hrun|].
    intros r Hr. rewrite Hrun in Hr.
    destruct (read_back _ _ _ _) as [e|r'] eqn:Er; [discriminate|].
    destruct (release_all _ _) as [[e|u] w']; [discriminate|].
    injection Hr as ->. by apply read_back_inr in Er.
Qed.

End RunBehaviour.

(** ** The theorems on [run] at concrete inputs *)

Lemma run_returns_without_temporaries_witness :
  no_leak installed
    (snd (run svmlight_text read_tsv
            (fake_libfm 0 predictions_example model_example log_example)
            fm_mcmc train_text tt test_text tt None None installed))
  /\ ~ no_leak installed
       (snd (run svmlight_text read_tsv
               (fake_libfm 0 predictions_example broken_model log_example)
               fm_mcmc train_text tt test_text tt None None installed))
  /\ ~ no_leak installed
       (snd (run svmlight_rows read_tsv
               (fake_libfm 0 predictions_example model_example log_example)
               fm_mcmc train_text tt EmptyString tt None None installed)).
Proof.
  split; [|split].
  - pose proof (run_returns_without_temporaries svmlight_text read_tsv
                  (fake_libfm 0 predictions_example model_example log_example)
                  fm_mcmc train_text tt test_text tt None None installed) as H.
    cbv zeta in H. destruct H as (H & _). eapply H. vm_compute. reflexivity.
  - pose proof (run_returns_without_temporaries svmlight_text read_tsv
                  (fake_libfm 0 predictions_example broken_model log_example)
                  fm_mcmc train_text tt test_text tt None None installed) as H.
    cbv zeta in H. destruct H as (_ & H & _).
    destruct (H ValueError) as [Hm|[Hl _]].
    + vm_compute. reflexivity.
    + vm_compute in Hm. discriminate Hm.
    + exact Hl.
  - pose proof (run_returns_without_temporaries svmlight_rows read_tsv
                  (fake_libfm 0 predictions_example model_example log_example)
                  fm_mcmc train_text tt EmptyString tt None None installed) as H.
    cbv zeta in H. destruct H as (_ & H & _).
    destruct (H ValueError) as [Hm|[Hl _]].
    + vm_compute. reflexivity.
    + vm_compute in Hm. discriminate Hm.
    + exact Hl.
Defined.

(** C3 as stated fails: when the model file cannot be parsed, [run] raises
    and the temporary files it created stay behind, open. *)
Lemma temporaries_leak_when_parsing_fails :
  let result :=
    run svmlight_text read_tsv
        (fake_libfm 0 predictions_example broken_model log_example)
        fm_mcmc train_text tt test_text tt None None installed in
  fst result = inl ValueError
  /\ files (snd result) !! "/tmp/tmpa" = Some train_text
  /\ fds (snd result) !! 3%Z = Some "/tmp/tmpa"
  /\ ~ no_leak installed (snd result).
Proof.
  cbv zeta. split; [vm_compute; reflexivity|].
  split; [vm_compute; reflexivity|]. split; [vm_compute; reflexivity|].
  intros (new & Hc & Hrel).
  vm_compute in Hc. symmetry in Hc. subst new.
  destruct (Hrel 3%Z "/tmp/tmpa") as [Hf _]; [cbn; tauto|].
  vm_compute in Hf. discriminate Hf.
Qed.

Lemma exit_status_is_ignored_witness :
  let sh := fake_libfm 139 predictions_example model_example log_example in
  run svmlight_text read_tsv
      (fake_libfm 0 predictions_example model_example log_example)
      fm_mcmc train_text tt test_text tt None None installed
  = run svmlight_text read_tsv sh
      fm_mcmc train_text tt test_text tt None None installed
  /\ (exists l w1,
        build_command svmlight_text fm_mcmc train_text tt test_text tt
                      None None installed = (inr l, w1)
        /\ fst (sh (join " " (args l)) (files w1)) = 139%Z
        /\ launched (after_call sh l w1)
           = launched installed ++ [join " " (args l)]
        /\ run svmlight_text read_tsv sh
               fm_mcmc train_text tt test_text tt None None installed
           = match read_back read_tsv fm_mcmc l
                     (snd (sh (join " " (args l)) (files w1))) with
             | inl e => (inl e, after_call sh l w1)
             | inr r =>
                 match release_all (release_order l) (after_call sh l w1) with
                 | (inl e, w') => (inl e, w')
                 | (inr _, w') => (inr r, w')
                 end
             end)
  /\ fst (run svmlight_text read_tsv sh
            fm_mcmc train_text tt test_text tt None None installed)
     = inr {| predictions := [1.5; 2.5]%float;
              FM.global_bias := Some 5.0%float;
              FM.weights := [1.0; 2.0]%float;
              FM.pairwise_interactions :=
                {| shape := (2, 2)%nat;
                   rows := [[0.1; 0.2]; [0.3; 0.4]]%float |};
              FM.rlog := Some [["rmse"; "mae"]; ["0.5"; "0.4"]] |}.
Proof.
  cbv zeta. split; [|split].
  - apply (proj1 (exit_status_is_ignored svmlight_text read_tsv
             (fake_libfm 0 predictions_example model_example log_example)
             (fake_libfm 139 predictions_example model_example log_example)
             fm_mcmc train_text tt test_text tt None None installed)).
    intros cmd fs. reflexivity.
  - destruct (build_command svmlight_text fm_mcmc train_text tt test_text tt
                None None installed) as [[e|l] w1] eqn:Hb.
    { vm_compute in Hb. discriminate Hb. }
    exists l, w1. split; [reflexivity|]. split; [reflexivity|].
    destruct (proj2 (exit_status_is_ignored svmlight_text read_tsv
                (fake_libfm 139 predictions_example model_example log_example)
                (fake_libfm 139 predictions_example model_example log_example)
                fm_mcmc train_text tt test_text tt None None installed)
                l w1 139%Z _ Hb eq_refl) as (_ & Hl & Hrun & _).
    split; [exact Hl|exact Hrun].
  - vm_compute. reflexivity.
Defined.

(** ** The further properties at concrete inputs *)

Lemma reading_failure_skips_cleanup_witness :
  exists l w1,
    build_command svmlight_text fm_mcmc train_text tt test_text tt None None
                  installed = (inr l, w1)
    /\ run svmlight_text read_tsv
           (fake_libfm 0 predictions_example broken_model log_example)
           fm_mcmc train_text tt test_text tt None None installed
       = (inl ValueError,
          after_call (fake_libfm 0 predictions_example broken_model log_example)
                     l w1).
Proof.
  eexists. eexists. split; [vm_compute; reflexivity|].
  apply reading_failure_skips_cleanup; vm_compute; reflexivity.
Defined.


Lemma fake_libfm_keeps status o m g cmd fs ps : keeps (fake_libfm status o m g) cmd fs ps.
Proof.
  intros p _ Hp. unfold fake_libfm. cbn [snd].
  rewrite !lookup_insert_is_Some'. tauto.
Qed.

Lemma run_returns_witness :
  exists l w1 r,
    build_command svmlight_text fm_mcmc train_text tt test_text tt None None
                  installed = (inr l, w1)
    /\ run svmlight_text read_tsv
           (fake_libfm 3 predictions_example model_example log_example)
           fm_mcmc train_text tt test_text tt None None installed
       = (inr r,
          release (release_order l)
            (after_call
               (fake_libfm 3 predictions_example model_example log_example)
               l w1)).
Proof.
  eexists. eexists. eexists. split; [vm_compute; reflexivity|].
  apply run_returns.
  - vm_compute. reflexivity.
  - apply fake_libfm_keeps.
  - vm_compute. reflexivity.
Defined.

Lemma run_restores_descriptors_witness :
  fds (snd (run svmlight_text read_tsv
              (fake_libfm 0 predictions_example model_example log_example)
              fm_mcmc train_text tt test_text tt None None installed))
  = fds installed.
Proof.
  refine (proj1 (run_restores_descriptors svmlight_text read_tsv
                   (fake_libfm 0 predictions_example model_example log_example)
                   fm_mcmc train_text tt test_text tt None None installed
                   _ _ _ _ _)).
  - vm_compute. reflexivity.
  - vm_compute. reflexivity.
Defined.

Lemma run_restores_files_witness :
  files (snd (run svmlight_text read_tsv
                (fake_libfm 0 predictions_example model_example log_example)
                fm_mcmc train_text tt test_text tt None None installed))
  = files installed.
Proof.
  refine (run_restores_files svmlight_text read_tsv
            (fake_libfm 0 predictions_example model_example log_example)
            fm_mcmc train_text tt test_text tt None None installed
            _ _ _ _ _ _).
  - vm_compute. reflexivity.
  - vm_compute. reflexivity.
  - intros p Hp. unfold fake_libfm. cbn [snd].
    cbn in Hp. rewrite !lookup_insert_ne; [done|intros <-; tauto..].
Defined.

Lemma argument_list_in_order_witness :
  exists l,
    fst (build_command svmlight_text fm_silent train_text tt test_text tt
           None None installed) = inr l
    /\ args l = [ "/opt/libfm/bin/libFM"; "-task c";
                  "-train /var/tmp/tmpa"; "-test /var/tmp/tmpb";
                  "-dim '1,1,8'"; "-init_stdev 0.1"; "-iter 10";
                  "-method als"; "-out /var/tmp/tmpc"; "-verbosity 0";
                  "-save_model /var/tmp/tmpd";
                  "-regular '0.000000,0.000000,0.000000'";
                  " &> /dev/null" ].
Proof.
  eexists. split; [vm_compute; reflexivity|].
  refine (eq_trans (argument_list_in_order svmlight_text fm_silent
                      train_text tt test_text tt None None installed _ _) _).
  - vm_compute. reflexivity.
  - vm_compute. reflexivity.
Defined.

Lemma redirect_is_last_iff_silent_witness :
  exists l,
    fst (build_command svmlight_text fm_silent train_text tt test_text tt
           None None installed) = inr l
    /\ last (args l) = Some " &> /dev/null".
Proof.
  eexists. split; [vm_compute; reflexivity|].
  refine (proj2 (redirect_is_last_iff_silent svmlight_text fm_silent
                   train_text tt test_text tt None None installed _ _) _).
  - vm_compute. reflexivity.
  - reflexivity.
Defined.

Lemma validation_ignored_unless_sgda_and_both_witness :
  run svmlight_text read_tsv
      (fake_libfm 0 predictions_example model_example log_example)
      fm_mcmc train_text tt test_text tt (Some validation_text) (Some tt)
      installed
  = run svmlight_text read_tsv
      (fake_libfm 0 predictions_example model_example log_example)
      fm_mcmc train_text tt test_text tt None None installed.
Proof.
  apply validation_ignored_unless_sgda_and_both. reflexivity.
Defined.

Lemma learn_rate_and_regularization_ignored_witness :
  run svmlight_text read_tsv
      (fake_libfm 0 predictions_example model_example log_example)
      (with_learn_rate 0.5 (with_regularization "1.000000,1.000000,1.000000"
                              fm_mcmc))
      train_text tt test_text tt None None installed
  = run svmlight_text read_tsv
      (fake_libfm 0 predictions_example model_example log_example)
      fm_mcmc train_text tt test_text tt None None installed.
Proof.
  apply learn_rate_and_regularization_ignored. reflexivity.
Defined.

Lemma temporaries_in_temp_path_witness :
  exists l,
    fst (build_command svmlight_text fm_relative train_text tt test_text tt
           None None installed) = inr l
    /\ exists name, snd (out l) = "/home/user/data/tmp" +:+ name.
Proof.
  eexists.
  match goal with
  | |- fst ?b = inr ?l /\ _ =>
      assert (Hb : fst b = inr l) by (vm_compute; reflexivity);
      destruct (temporaries_in_temp_path svmlight_text fm_relative
                  train_text tt test_text tt None None installed l (out l) Hb)
        as (dir & name & Hd & Hn & _)
  end.
  - cbn. tauto.
  - split; [exact Hb|]. exists name. rewrite Hn.
    vm_compute in Hd. by injection Hd as <-.
Defined.

Lemma run_on_untouched_files_witness :
  fst (run svmlight_text read_tsv no_libfm fm_nolog
           train_text tt test_text tt None None installed)
  = inr empty_model.
Proof.
  refine (run_on_untouched_files svmlight_text read_tsv no_libfm fm_nolog
            train_text tt test_text tt None None installed _ _ _ _ _).
  - vm_compute. reflexivity.
  - reflexivity.
  - reflexivity.
Defined.

Lemma log_returned_iff_rlog_witness :
  FM.rlog (DataFrame:=list (list string)) empty_model = None.
Proof.
  refine (proj2 (log_returned_iff_rlog svmlight_text read_tsv no_libfm fm_nolog
                   train_text tt test_text tt None None installed empty_model
                   _) _).
  - vm_compute. reflexivity.
  - reflexivity.
Defined.

Lemma refused_data_launches_nothing_witness :
  launched
    (snd (run (fun (X : string) (y : unit) => inl (B:=string) ValueError)
              read_tsv no_libfm fm_nolog train_text tt test_text tt None None
              installed))
  = [].
Proof.
  refine (proj2 (refused_data_launches_nothing
                   (fun (X : string) (y : unit) => inl ValueError)
                   read_tsv no_libfm fm_nolog train_text tt test_text tt
                   None None installed ValueError _)).
  by left.
Defined.
